(** * Batch finalizer of the zkEVM sequencer and the trusted-batch sync classifier

    Shallow embedding of [sequencer/batch.go] and of the trusted-batch
    processor of package [l2_shared], with the properties stated about them.

    Conventions.
    - A Go [uint32] or [uint64] is a [Z] together with its wrap-around,
      written out with [wrap].
    - [common.Hash] and [common.Address] are byte strings ([list byte]); the
      fixed lengths 32 and 20 are not part of the type.
    - A Go pointer that may be nil is an [option].
    - Methods of the finalizer run in the monad [M]: they thread the
      finalizer, the store and the log, and end either by returning or
      inside [Halt]. *)

From Stdlib Require Import ZArith Lia List String Ascii Bool.
From Stdlib Require Import Strings.Byte.
From stdpp Require Import base decidable option list.
Import ListNotations.

Local Open Scope Z_scope.

(** ** Machine integers *)

Definition wrap (w x : Z) : Z := x mod 2 ^ w.

Definition in_range (w x : Z) : Prop := 0 <= x < 2 ^ w.

Definition uint32_mul (a b : Z) : Z := wrap 32 (a * b).
Definition uint64_mul (a b : Z) : Z := wrap 64 (a * b).
Definition uint32_sub (a b : Z) : Z := wrap 32 (a - b).
Definition uint64_sub (a b : Z) : Z := wrap 64 (a - b).
(** Unsigned division never leaves the range of its dividend. *)
Definition uint_div (a b : Z) : Z := a / b.


(** ** Bytes, hashes, addresses *)

#[global] Instance byte_eq_decision : EqDecision byte := byte_eq_dec.

Definition Hash : Type := list byte.
Definition Address : Type := list byte.

(** [encoding/hex]: two lower-case digits per byte, high nibble first. *)
Definition hex_digit (n : N) : ascii :=
  match n with
  | 0 => "0" | 1 => "1" | 2 => "2" | 3 => "3" | 4 => "4" | 5 => "5"
  | 6 => "6" | 7 => "7" | 8 => "8" | 9 => "9" | 10 => "a" | 11 => "b"
  | 12 => "c" | 13 => "d" | 14 => "e" | _ => "f"
  end%N%char.

Fixpoint hex_EncodeToString (bs : list byte) : string :=
  match bs with
  | [] => EmptyString
  | b :: rest =>
      String (hex_digit (N.div (Byte.to_N b) 16))
        (String (hex_digit (N.modulo (Byte.to_N b) 16)) (hex_EncodeToString rest))
  end.

(** Reading a hex digit back. *)
Definition hex_value (c : ascii) : N :=
  match c with
  | "0" => 0 | "1" => 1 | "2" => 2 | "3" => 3 | "4" => 4 | "5" => 5 | "6" => 6
  | "7" => 7 | "8" => 8 | "9" => 9 | "a" => 10 | "b" => 11 | "c" => 12
  | "d" => 13 | "e" => 14 | _ => 15
  end%N%char.

(** [common.Hash.String]: the hex encoding behind the prefix 0x. *)
Definition Hash_String (h : Hash) : string :=
  String "0"%char (String "x"%char (hex_EncodeToString h)).

(** ** Package state: the resource budget and the batch rows *)

Module state.

Definition ZeroHash : Hash := repeat x00 32%nat.

(** The address of twenty zero bytes, [common.Address{}]. *)
Definition ZeroAddress : Address := repeat x00 20%nat.

(** [GasUsed] is a uint64, the eight other counters are uint32. *)
Record ZKCounters : Type := {
  GasUsed : Z;
  UsedKeccakHashes : Z;
  UsedPoseidonHashes : Z;
  UsedPoseidonPaddings : Z;
  UsedMemAligns : Z;
  UsedArithmetics : Z;
  UsedBinaries : Z;
  UsedSteps : Z;
  UsedSha256Hashes_V2 : Z
}.

(** Field [ZKCounters] of the Go struct is [RZKCounters] here, the type
    keeps the name. [Bytes] is a uint64. *)
Record BatchResources : Type := {
  RZKCounters : ZKCounters;
  Bytes : Z
}.

(** [MaxTxsPerBatch], [MaxBatchBytesSize] and [MaxCumulativeGasUsed] are
    uint64, the others uint32. *)
Record BatchConstraintsCfg : Type := {
  MaxTxsPerBatch : Z;
  MaxBatchBytesSize : Z;
  MaxCumulativeGasUsed : Z;
  MaxKeccakHashes : Z;
  MaxPoseidonHashes : Z;
  MaxPoseidonPaddings : Z;
  MaxMemAligns : Z;
  MaxArithmetics : Z;
  MaxBinaries : Z;
  MaxSteps : Z;
  MaxSHA256Hashes : Z
}.

Inductive ClosingReason : Type :=
| EmptyClosingReason
| BatchFullClosingReason
| BatchAlmostFullClosingReason
| ForcedBatchClosingReason
| TimeoutClosingReason
| GlobalExitRootClosingReason.

(** The batch row of the store. *)
Record Batch : Type := {
  BatchNumber : Z;
  Coinbase : Address;
  BatchL2Data : list byte;
  StateRoot : Hash;
  LocalExitRoot : Hash;
  AccInputHash : Hash;
  Timestamp : Z;
  GlobalExitRoot : Hash;
  Resources : BatchResources;
  WIP : bool
}.

Record ProcessingReceipt : Type := {
  receipt_BatchNumber : Z;
  receipt_BatchResources : BatchResources;
  receipt_ClosingReason : ClosingReason
}.

(** Modelled from the spec: [ZKCounters.Sub] and [BatchResources.Sub] live in
    package state, outside the sources at hand. Section 4.1: if any component
    of the receiver is less than the operand's, the receiver is left
    unmodified and the call fails; else the subtraction is component-wise. *)
Definition zk_fits (z other : ZKCounters) : bool :=
  (GasUsed other <=? GasUsed z)
  && (UsedKeccakHashes other <=? UsedKeccakHashes z)
  && (UsedPoseidonHashes other <=? UsedPoseidonHashes z)
  && (UsedPoseidonPaddings other <=? UsedPoseidonPaddings z)
  && (UsedMemAligns other <=? UsedMemAligns z)
  && (UsedArithmetics other <=? UsedArithmetics z)
  && (UsedBinaries other <=? UsedBinaries z)
  && (UsedSteps other <=? UsedSteps z)
  && (UsedSha256Hashes_V2 other <=? UsedSha256Hashes_V2 z).

Definition zk_minus (z other : ZKCounters) : ZKCounters :=
  {| GasUsed := GasUsed z - GasUsed other;
     UsedKeccakHashes := UsedKeccakHashes z - UsedKeccakHashes other;
     UsedPoseidonHashes := UsedPoseidonHashes z - UsedPoseidonHashes other;
     UsedPoseidonPaddings := UsedPoseidonPaddings z - UsedPoseidonPaddings other;
     UsedMemAligns := UsedMemAligns z - UsedMemAligns other;
     UsedArithmetics := UsedArithmetics z - UsedArithmetics other;
     UsedBinaries := UsedBinaries z - UsedBinaries other;
     UsedSteps := UsedSteps z - UsedSteps other;
     UsedSha256Hashes_V2 := UsedSha256Hashes_V2 z - UsedSha256Hashes_V2 other |}.

(** [Sub r other] is [None] on underflow (the receiver stays as it was) and
    the new value of the receiver otherwise. *)
Definition Sub (r other : BatchResources) : option BatchResources :=
  if (Bytes other <=? Bytes r) && zk_fits (RZKCounters r) (RZKCounters other)
  then Some {| RZKCounters := zk_minus (RZKCounters r) (RZKCounters other);
               Bytes := Bytes r - Bytes other |}
  else None.

(** What the sequencer reads of an executor response. [ExecutorError] is
    nil or an error value. *)
Record ProcessBatchResponse : Type := {
  NewStateRoot : Hash;
  NewLocalExitRoot : Hash;
  NewAccInputHash : Hash;
  UsedZkCounters : ZKCounters;
  ExecutorError : option string;
  IsRomOOCError : bool
}.

Inductive CallerLabel : Type :=
| SequencerCallerLabel
| DiscardCallerLabel.

(** The executor request, with the fields [reprocessFullBatch] sets. The
    L1 info tree data is kept opaque ([L1Data] is chosen by the store). *)
Record ProcessRequest (L1Data : Type) : Type := {
  req_BatchNumber : Z;
  L1InfoRoot_V2 : Hash;
  OldStateRoot : Hash;
  Transactions : list byte;
  req_Coinbase : Address;
  TimestampLimit_V2 : Z;
  ForkID : Z;
  SkipVerifyL1InfoRoot_V2 : bool;
  Caller : CallerLabel;
  L1InfoTreeData_V2 : L1Data
}.
Arguments req_BatchNumber {L1Data}.
Arguments L1InfoRoot_V2 {L1Data}.
Arguments OldStateRoot {L1Data}.
Arguments Transactions {L1Data}.
Arguments req_Coinbase {L1Data}.
Arguments TimestampLimit_V2 {L1Data}.
Arguments ForkID {L1Data}.
Arguments SkipVerifyL1InfoRoot_V2 {L1Data}.
Arguments Caller {L1Data}.
Arguments L1InfoTreeData_V2 {L1Data}.

(** A decoded batch: its L2 blocks, each with the hashes of its
    transactions. *)
Record L2BlockRaw : Type := { raw_Transactions : list Hash }.
Record BatchRawV2 : Type := { Blocks : list L2BlockRaw }.

End state.

(** ** Results, errors, log entries, events *)

Inductive result (E A : Type) : Type :=
| Ok (a : A)
| Err (e : E).
Arguments Ok {E A} a.
Arguments Err {E A} e.

(** A call returns, or panics: a nil pointer is dereferenced, a slice is
    indexed out of range, or [panic] is called. *)
Inductive run (A : Type) : Type :=
| Done (a : A)
| Panics (msg : string).
Arguments Done {A} a.
Arguments Panics {A} msg.

(** The sentinel errors of the sequencer, an error that comes from a
    collaborator, and [fmt.Errorf] around an error. *)
Inductive error : Type :=
| ErrGetBatchByNumber
| ErrProcessBatch
| ErrExecutorError
| ErrProcessBatchOOC
| ErrStateRootNoMatch
| ErrExternal (msg : string)
| Errorf (format : string) (cause : error).

#[global] Instance error_eq_decision : EqDecision error.
Proof. unfold EqDecision, Decision. decide equality; apply string_dec. Defined.

(** ** [strings], [strconv] and [math/big] of the Go standard library *)

Fixpoint strip_prefix (s prefix : string) {struct prefix} : option string :=
  match prefix with
  | EmptyString => Some s
  | String p prefix' =>
      match s with
      | EmptyString => None
      | String c s' => if Ascii.eqb c p then strip_prefix s' prefix' else None
      end
  end.

(** [strings.TrimPrefix]: [s] without the leading [prefix], or [s] itself. *)
Definition strings_TrimPrefix (s prefix : string) : string :=
  match strip_prefix s prefix with
  | Some rest => rest
  | None => s
  end.

(** The digit of [strconv] for a value below 36: 0-9, then a-z. *)
Definition digitChar (d : Z) : ascii :=
  ascii_of_N (Z.to_N (if d <? 10 then 48 + d else 87 + d)).

(** The value of a character as a digit, as [ParseUint] reads it: 0-9, and
    the letters of either case from 10 on. *)
Definition digitValue (c : ascii) : option Z :=
  let n := Z.of_N (N_of_ascii c) in
  if (48 <=? n) && (n <=? 57) then Some (n - 48)
  else
    let l := Z.lor n 32 in
    if (97 <=? l) && (l <=? 122) then Some (l - 97 + 10) else None.

(** [formatBits]: the digits of [u] in [base], most significant first, in
    front of [acc]. A uint64 has at most 64 digits. *)
Fixpoint formatBits (fuel : nat) (u base : Z) (acc : string) : string :=
  match fuel with
  | O => acc
  | S fuel' =>
      if u <? base then String (digitChar u) acc
      else formatBits fuel' (u / base) base (String (digitChar (u mod base)) acc)
  end.

(** [strconv.AppendUint(buf, i, base)] for a uint64 [i]; it panics on a base
    outside of 2..36. *)
Definition strconv_AppendUint (buf : string) (i base : Z) : run string :=
  if (base <? 2) || (36 <? base)
  then Panics "strconv: illegal AppendInt/FormatInt base"
  else Done (buf ++ formatBits 64 i base EmptyString)%string.

Inductive NumError : Type := ErrSyntax | ErrRange | ErrBase | ErrBitSize.

(** The loop of [strconv.ParseUint] over the characters, for a base in
    2..36: [n] is the number read so far. *)
Fixpoint parseLoop (s : string) (base cutoff maxVal n : Z) : result NumError Z :=
  match s with
  | EmptyString => Ok n
  | String c rest =>
      match digitValue c with
      | None => Err ErrSyntax
      | Some d =>
          if base <=? d then Err ErrSyntax
          else if cutoff <=? n then Err ErrRange
          else
            let n := wrap 64 (n * base) in
            let n1 := wrap 64 (n + d) in
            if (n1 <? n) || (maxVal <? n1) then Err ErrRange
            else parseLoop rest base cutoff maxVal n1
      end
  end.

(** [strconv.ParseUint(s, base, bitSize)] for a base in 2..36. A base of 0,
    which reads the base off the prefix of [s], is not called by the code
    here; it is given the answer for an invalid base. *)
Definition strconv_ParseUint (s : string) (base bitSize : Z) : result NumError Z :=
  match s with
  | EmptyString => Err ErrSyntax
  | _ =>
      if (base <? 2) || (36 <? base) then Err ErrBase
      else if (bitSize <? 0) || (64 <? bitSize) then Err ErrBitSize
      else
        let bitSize := if bitSize =? 0 then 64 else bitSize in
        parseLoop s base ((2 ^ 64 - 1) / base + 1) (2 ^ bitSize - 1) 0
  end.

(** [big.Int.SetBytes]: the bytes as a big-endian unsigned number. *)
Definition big_SetBytes (buf : list byte) : Z :=
  fold_left (fun (n : Z) (b : byte) => 256 * n + Z.of_N (Byte.to_N b)) buf 0.

Module event.

Inductive Source : Type := Source_Node | Source_Other (name : string).
Inductive Component : Type := Component_Sequencer | Component_Other (name : string).
Inductive Level : Type := Level_Critical | Level_Other (name : string).
Inductive EventID : Type := EventID_ReprocessFullBatchOOC | EventID_Other (name : string).

Record Event (Payload : Type) : Type := {
  ReceivedAt : Z;
  Source_ : Source;
  Component_ : Component;
  Level_ : Level;
  EventID_ : EventID;
  Description : string;
  Json : Payload
}.
Arguments ReceivedAt {Payload}.
Arguments Source_ {Payload}.
Arguments Component_ {Payload}.
Arguments Level_ {Payload}.
Arguments EventID_ {Payload}.
Arguments Description {Payload}.
Arguments Json {Payload}.

End event.

Inductive LogLevel : Type := Debug | Info | Error.

(** ** Package sequencer *)

Module sequencer.

(** [Batch] represents a wip or processed batch. *)
Record Batch : Type := {
  batchNumber : Z;
  coinbase : Address;
  timestamp : Z;
  initialStateRoot : Hash;
  imStateRoot : Hash;
  finalStateRoot : Hash;
  localExitRoot : Hash;
  countOfTxs : Z;
  remainingResources : state.BatchResources;
  closingReason : state.ClosingReason
}.

Definition set_remainingResources (r : state.BatchResources) (b : Batch) : Batch :=
  {| batchNumber := batchNumber b; coinbase := coinbase b; timestamp := timestamp b;
     initialStateRoot := initialStateRoot b; imStateRoot := imStateRoot b;
     finalStateRoot := finalStateRoot b; localExitRoot := localExitRoot b;
     countOfTxs := countOfTxs b; remainingResources := r;
     closingReason := closingReason b |}.


(** [ResourcePercentageToCloseBatch] is a uint32. *)
Record Config : Type := {
  ResourcePercentageToCloseBatch : Z;
  SequentialReprocessFullBatch : bool
}.

(** What [batch.go] reads of the wip L2 block: [isEmpty()] and
    [l1InfoTreeExitRoot.GlobalExitRoot.GlobalExitRoot]. *)
Record L2Block : Type := {
  l2block_isEmpty : bool;
  l1InfoTreeExitRoot_GlobalExitRoot : Hash
}.

(** The fields of the finalizer that [batch.go] touches. [wipBatch] is the
    batch the pointer [f.wipBatch] refers to; [nextForcedBatches] keeps the
    numbers of the pending forced batches. *)
Record finalizer : Type := {
  cfg : Config;
  batchConstraints : state.BatchConstraintsCfg;
  wipBatch : Batch;
  wipL2Block : L2Block;
  sequencerAddress : Address;
  nextForcedBatches : list Z
}.

Definition set_wipBatch (b : Batch) (f : finalizer) : finalizer :=
  {| cfg := cfg f; batchConstraints := batchConstraints f; wipBatch := b;
     wipL2Block := wipL2Block f; sequencerAddress := sequencerAddress f;
     nextForcedBatches := nextForcedBatches f |}.

(** *** Resource budget *)

(** [getUsedBatchResources] returns the max resources that can be used in
    a batch. *)
Definition getUsedBatchResources (constraints : state.BatchConstraintsCfg)
    (remainingResources : state.BatchResources) : state.BatchResources :=
  let z := state.RZKCounters remainingResources in
  {| state.RZKCounters :=
       {| state.GasUsed := uint64_sub (state.MaxCumulativeGasUsed constraints) (state.GasUsed z);
          state.UsedKeccakHashes := uint32_sub (state.MaxKeccakHashes constraints) (state.UsedKeccakHashes z);
          state.UsedPoseidonHashes := uint32_sub (state.MaxPoseidonHashes constraints) (state.UsedPoseidonHashes z);
          state.UsedPoseidonPaddings := uint32_sub (state.MaxPoseidonPaddings constraints) (state.UsedPoseidonPaddings z);
          state.UsedMemAligns := uint32_sub (state.MaxMemAligns constraints) (state.UsedMemAligns z);
          state.UsedArithmetics := uint32_sub (state.MaxArithmetics constraints) (state.UsedArithmetics z);
          state.UsedBinaries := uint32_sub (state.MaxBinaries constraints) (state.UsedBinaries z);
          state.UsedSteps := uint32_sub (state.MaxSteps constraints) (state.UsedSteps z);
          state.UsedSha256Hashes_V2 := uint32_sub (state.MaxSHA256Hashes constraints) (state.UsedSha256Hashes_V2 z) |};
     state.Bytes := uint64_sub (state.MaxBatchBytesSize constraints) (state.Bytes remainingResources) |}.

(** [getMaxRemainingResources] returns the max zkcounters that can be used
    in a batch. *)
Definition getMaxRemainingResources (constraints : state.BatchConstraintsCfg)
    : state.BatchResources :=
  {| state.RZKCounters :=
       {| state.GasUsed := state.MaxCumulativeGasUsed constraints;
          state.UsedKeccakHashes := state.MaxKeccakHashes constraints;
          state.UsedPoseidonHashes := state.MaxPoseidonHashes constraints;
          state.UsedPoseidonPaddings := state.MaxPoseidonPaddings constraints;
          state.UsedMemAligns := state.MaxMemAligns constraints;
          state.UsedArithmetics := state.MaxArithmetics constraints;
          state.UsedBinaries := state.MaxBinaries constraints;
          state.UsedSteps := state.MaxSteps constraints;
          state.UsedSha256Hashes_V2 := state.MaxSHA256Hashes constraints |};
     state.Bytes := state.MaxBatchBytesSize constraints |}.

(** [getConstraintThresholdUint64] returns the threshold for the given
    input; the percentage is widened to uint64 before the product. *)
Definition getConstraintThresholdUint64 (f : finalizer) (input : Z) : Z :=
  uint_div (uint64_mul input (ResourcePercentageToCloseBatch (cfg f))) 100.

(** [getConstraintThresholdUint32] returns the threshold for the given
    input. *)
Definition getConstraintThresholdUint32 (f : finalizer) (input : Z) : Z :=
  uint_div (uint32_mul input (ResourcePercentageToCloseBatch (cfg f))) 100.


(** *** The finalizer's methods *)

Section Methods.

(** The store behind [f.state], its transaction handles and the L1 info
    tree data it hands out are not part of [batch.go]. *)
Context {Store DbTx L1Data : Type}.

Definition ProcessRequest : Type := state.ProcessRequest L1Data.

(** What a run leaves behind: log entries (by their format string), events
    handed to the event log, goroutines started, and the call of [Halt]. *)
Inductive Effect : Type :=
| ELog (lvl : LogLevel) (format : string)
| ELogEvent (e : event.Event ProcessRequest)
| EGo_reprocessFullBatch (batchNum : Z) (initialStateRoot expectedNewStateRoot : Hash)
| EHalt (err : error).

Record World : Type := {
  fin : finalizer;
  store : Store;
  trace : list Effect
}.

(** A method returns, ends inside [Halt], or is still polling when the
    fuel of a polling loop runs out. *)
Inductive Outcome (A : Type) : Type :=
| Returned (a : A) (w : World)
| Halted (w : World)
| Polling (w : World).
Arguments Returned {A} a w.
Arguments Halted {A} w.
Arguments Polling {A} w.

Definition M (A : Type) : Type := World -> Outcome A.

Definition ret {A} (a : A) : M A := fun w => Returned a w.

Definition bind {A B} (m : M A) (k : A -> M B) : M B :=
  fun w =>
    match m w with
    | Returned a w' => k a w'
    | Halted w' => Halted w'
    | Polling w' => Polling w'
    end.

Notation "x <- c ;; k" := (bind c (fun x => k))
  (at level 100, c at next level, right associativity).
Notation "c ;;; k" := (bind c (fun _ => k))
  (at level 100, right associativity).

Definition emit (e : Effect) : M unit :=
  fun w => Returned tt {| fin := fin w; store := store w; trace := trace w ++ [e] |}.

Definition log (lvl : LogLevel) (format : string) : M unit := emit (ELog lvl format).

Definition get_fin : M finalizer := fun w => Returned (fin w) w.

Definition put_fin (f : finalizer) : M unit :=
  fun w => Returned tt {| fin := f; store := store w; trace := trace w |}.

Definition read_store {A} (q : Store -> A) : M A := fun w => Returned (q (store w)) w.

Definition on_store {A} (op : Store -> A * Store) : M A :=
  fun w =>
    let '(a, s) := op (store w) in
    Returned a {| fin := fin w; store := s; trace := trace w |}.

(** Modelled from the spec: [Halt] is defined in [finalizer.go]. Section
    4.4.3: it logs and terminates the process; section 5: it is terminal.
    No statement after a call of [Halt] runs; [finalizeBatch] relies on it,
    the statement after its call of [Halt] dereferences [f.wipBatch], which is
    nil there. *)
Definition Halt {A} (err : error) : M A :=
  fun w => Halted {| fin := fin w; store := store w; trace := trace w ++ [EHalt err] |}.

(** The methods of [f.state] that [batch.go] calls, and
    [state.DecodeBatchV2]. Reads take the store, writes return the new
    one. *)
Class stateInterface : Type := {
  GetLastNBatches : Store -> Z -> result error (list state.Batch);
  GetBatchByNumber : Store -> Z -> result error state.Batch;
  GetForkIDByBatchNumber : Store -> Z -> Z;
  GetL1InfoTreeDataFromBatchL2Data : Store -> list byte -> result error L1Data;
  ProcessBatchV2 : Store -> ProcessRequest -> bool -> result error state.ProcessBatchResponse;
  DecodeBatchV2 : list byte -> result error state.BatchRawV2;
  BeginStateTransaction : Store -> result error DbTx * Store;
  OpenWIPBatch : state.Batch -> DbTx -> Store -> option error * Store;
  CloseWIPBatch : state.ProcessingReceipt -> DbTx -> Store -> option error * Store;
  Commit : DbTx -> Store -> option error * Store;
  Rollback : DbTx -> Store -> option error * Store
}.

(** The finalizer's methods of other files, the two wait groups, the event
    log, [json.Marshal], the clock and the package constants
    [mockL1InfoRoot] and [l2BlockUsedResources]. [processTransaction] is
    only called as [processTransaction(ctx, nil, true)]. *)
Class collaborators : Type := {
  finalizeL2Block : M unit;
  pendingL2BlocksToProcessWG_Wait : M unit;
  pendingL2BlocksToStoreWG_Wait : M unit;
  processTransaction_nil_true : M (option error);
  processForcedBatches : Z -> Hash -> M (Z * Hash);
  initWIPL2Block : M unit;
  isSynced : M bool;
  eventLog_LogEvent : event.Event ProcessRequest -> option error;
  json_Marshal : ProcessRequest -> result error string;
  time_Now : Z;
  mockL1InfoRoot : Hash;
  l2BlockUsedResources : state.BatchResources
}.

Context {SI : stateInterface} {CO : collaborators}.

(** [getLastStateRoot] gets the state root from the latest batch. The
    variable [oldStateRoot] starts as the zero hash. *)
Definition getLastStateRoot (s : Store) : result error Hash :=
  match GetLastNBatches s 2 with
  | Err err => Err (Errorf "failed to get last %d batches, err: %w" err)
  | Ok batches =>
      Ok (if decide (length batches = 1%nat)
          then match batches !! 0%nat with Some b => state.StateRoot b | None => state.ZeroHash end
          else if decide (length batches = 2%nat)
          then match batches !! 1%nat with Some b => state.StateRoot b | None => state.ZeroHash end
          else state.ZeroHash)
  end.


(** *** Sanity reprocess *)

(** The closure [reprocessError] of [reprocessFullBatch]: one log entry
    per transaction of the decoded batch, then [Halt]. *)
Definition reprocessError (batch : option state.Batch) : M unit :=
  match batch with
  | None => ret tt
  | Some batch =>
      match DecodeBatchV2 (state.BatchL2Data batch) with
      | Err err =>
          log Error "[reprocessFullBatch] error decoding BatchL2Data for batch %d. Error: %s"
      | Ok rawL2Blocks =>
          log Info "[reprocessFullBatch] BatchNumber: %d, InitialStateRoot: %s, ExpectedNewStateRoot: %s" ;;;
          fold_right
            (fun (rawL2block : state.L2BlockRaw) (rest : M unit) =>
               fold_right
                 (fun (rawTx : Hash) (rest' : M unit) =>
                    log Info "[reprocessFullBatch] BatchNumber: %d, block position: % d, tx position %d, tx hash: %s" ;;;
                    rest')
                 rest (state.raw_Transactions rawL2block))
            (ret tt) (state.Blocks rawL2Blocks) ;;;
          Halt (ErrExternal "error reprocessing full batch (sanity check). Check previous errors in logs to know which was the cause")
      end
  end.

(** The request [reprocessFullBatch] builds; the L1 info tree data is
    assigned to it before its first use. *)
Definition executorBatchRequest (s : Store) (f : finalizer) (batch : state.Batch)
    (initialStateRoot : Hash) (l1data : L1Data) : ProcessRequest :=
  {| state.req_BatchNumber := state.BatchNumber batch;
     state.L1InfoRoot_V2 := mockL1InfoRoot;
     state.OldStateRoot := initialStateRoot;
     state.Transactions := state.BatchL2Data batch;
     state.req_Coinbase := state.Coinbase batch;
     state.TimestampLimit_V2 := time_Now;
     state.ForkID := GetForkIDByBatchNumber s (state.BatchNumber batch);
     state.SkipVerifyL1InfoRoot_V2 := true;
     state.Caller := if SequentialReprocessFullBatch (cfg f)
                     then state.SequencerCallerLabel
                     else state.DiscardCallerLabel;
     state.L1InfoTreeData_V2 := l1data |}.

Definition oocEvent (payload : string) (req : ProcessRequest) : event.Event ProcessRequest :=
  {| event.ReceivedAt := time_Now;
     event.Source_ := event.Source_Node;
     event.Component_ := event.Component_Sequencer;
     event.Level_ := event.Level_Critical;
     event.EventID_ := event.EventID_ReprocessFullBatchOOC;
     event.Description := payload;
     event.Json := req |}.

(** [reprocessFullBatch] reprocesses a batch used as sanity check. *)
Definition reprocessFullBatch (batchNum : Z) (initialStateRoot expectedNewStateRoot : Hash)
    : M (result error state.ProcessBatchResponse) :=
  log Debug "[reprocessFullBatch] reprocessing batch: %d, InitialStateRoot: %s, ExpectedNewStateRoot: %s" ;;;
  f <- get_fin ;;
  r <- read_store (fun s => GetBatchByNumber s batchNum) ;;
  match r with
  | Err err =>
      log Error "[reprocessFullBatch] failed to get batch %d. Error: %w" ;;;
      reprocessError None ;;;
      ret (Err ErrGetBatchByNumber)
  | Ok batch =>
      l <- read_store (fun s => GetL1InfoTreeDataFromBatchL2Data s (state.BatchL2Data batch)) ;;
      match l with
      | Err err =>
          log Error "[reprocessFullBatch] failed to get L1InfoTreeData for batch %d. Error: %w" ;;;
          reprocessError None ;;;
          ret (Err ErrGetBatchByNumber)
      | Ok l1data =>
          req <- read_store (fun s => executorBatchRequest s f batch initialStateRoot l1data) ;;
          p <- read_store (fun s => ProcessBatchV2 s req false) ;;
          match p with
          | Err err =>
              log Error "[reprocessFullBatch] failed to process batch %d. Error: %s" ;;;
              reprocessError (Some batch) ;;;
              ret (Err ErrProcessBatch)
          | Ok result =>
              if bool_decide (state.ExecutorError result <> None) then
                log Error "[reprocessFullBatch] executor error when reprocessing batch %d, error: %s" ;;;
                reprocessError (Some batch) ;;;
                ret (Err ErrExecutorError)
              else if state.IsRomOOCError result then
                log Error "[reprocessFullBatch] failed to process batch %d because OutOfCounters" ;;;
                reprocessError (Some batch) ;;;
                match json_Marshal req with
                | Err err => log Error "[reprocessFullBatch] error marshaling payload: %s"
                | Ok payload =>
                    emit (ELogEvent (oocEvent payload req)) ;;;
                    match eventLog_LogEvent (oocEvent payload req) with
                    | Some err => log Error "[reprocessFullBatch] error storing payload: %s"
                    | None => ret tt
                    end
                end ;;;
                ret (Err ErrProcessBatchOOC)
              else if bool_decide (state.NewStateRoot result <> expectedNewStateRoot) then
                log Error "[reprocessFullBatch] new state root mismatch for batch %d, expected: %s, got: %s" ;;;
                reprocessError (Some batch) ;;;
                ret (Err ErrStateRootNoMatch)
              else
                log Info "[reprocessFullBatch]: reprocess successfully done for batch %d" ;;;
                ret (Ok result)
          end
      end
  end.

(** *** Closing and opening the wip batch *)

(** The loop [for !f.isSynced(ctx) { ...; time.Sleep(time.Second) }]. *)
Fixpoint waitSynced (fuel : nat) : M unit :=
  match fuel with
  | O => fun w => Polling w
  | S fuel' =>
      synced <- isSynced ;;
      if synced then ret tt
      else log Info "wait for synchronizer to sync last batch" ;;; waitSynced fuel'
  end.

(** [openNewWIPBatch] opens a new batch in the state and returns it as
    WipBatch. *)
Definition openNewWIPBatch (fuel : nat) (batchNumber : Z) (ger stateRoot LER : Hash)
    : M (result error Batch) :=
  f <- get_fin ;;
  let newStateBatch :=
    {| state.BatchNumber := batchNumber;
       state.Coinbase := sequencerAddress f;
       state.BatchL2Data := [];
       state.StateRoot := stateRoot;
       state.LocalExitRoot := LER;
       state.AccInputHash := state.ZeroHash;
       state.Timestamp := time_Now;
       state.GlobalExitRoot := ger;
       state.Resources :=
         {| state.RZKCounters := {| state.GasUsed := 0; state.UsedKeccakHashes := 0;
              state.UsedPoseidonHashes := 0; state.UsedPoseidonPaddings := 0;
              state.UsedMemAligns := 0; state.UsedArithmetics := 0; state.UsedBinaries := 0;
              state.UsedSteps := 0; state.UsedSha256Hashes_V2 := 0 |};
            state.Bytes := 0 |};
       state.WIP := false |} in
  t <- on_store BeginStateTransaction ;;
  match t with
  | Err err => ret (Err (Errorf "failed to begin state transaction to open batch, err: %w" err))
  | Ok dbTx =>
      o <- on_store (OpenWIPBatch newStateBatch dbTx) ;;
      match o with
      | Some err =>
          rb <- on_store (Rollback dbTx) ;;
          match rb with
          | Some rollbackErr => ret (Err (Errorf "failed to rollback dbTx: %s. Error: %w" err))
          | None => ret (Err (Errorf "failed to open new wip batch. Error: %w" err))
          end
      | None =>
          c <- on_store (Commit dbTx) ;;
          match c with
          | Some err =>
              ret (Err (Errorf "failed to commit database transaction for opening a wip batch. Error: %w" err))
          | None =>
              waitSynced fuel ;;;
              f <- get_fin ;;
              ret (Ok {| batchNumber := state.BatchNumber newStateBatch;
                         coinbase := state.Coinbase newStateBatch;
                         timestamp := state.Timestamp newStateBatch;
                         initialStateRoot := state.StateRoot newStateBatch;
                         imStateRoot := state.StateRoot newStateBatch;
                         finalStateRoot := state.StateRoot newStateBatch;
                         localExitRoot := state.LocalExitRoot newStateBatch;
                         countOfTxs := 0;
                         remainingResources := getMaxRemainingResources (batchConstraints f);
                         closingReason := state.EmptyClosingReason |})
          end
      end
  end.

(** [closeWIPBatch] closes the current batch in the state. *)
Definition closeWIPBatch : M (option error) :=
  f <- get_fin ;;
  let usedResources :=
    getUsedBatchResources (batchConstraints f) (remainingResources (wipBatch f)) in
  let receipt :=
    {| state.receipt_BatchNumber := batchNumber (wipBatch f);
       state.receipt_BatchResources := usedResources;
       state.receipt_ClosingReason := closingReason (wipBatch f) |} in
  t <- on_store BeginStateTransaction ;;
  match t with
  | Err err => ret (Some err)
  | Ok dbTx =>
      c <- on_store (CloseWIPBatch receipt dbTx) ;;
      match c with
      | Some err =>
          err2 <- on_store (Rollback dbTx) ;;
          (if bool_decide (err2 <> None)
           then log Error "[CloseWIPBatch] error rolling back: %v"
           else ret tt) ;;;
          ret (Some err)
      | None =>
          e <- on_store (Commit dbTx) ;;
          match e with
          | Some err => log Error "[CloseWIPBatch] error committing: %v" ;;; ret (Some err)
          | None => ret None
          end
      end
  end.

(** [closeAndOpenNewWIPBatch] closes the current batch and opens a new
    one, potentially processing forced batches between the batch is closed
    and the resulting new empty batch. The goroutine of the parallel
    reprocess is recorded with the arguments the wip batch has when it is
    started; what it runs is [reprocessFullBatch]. The method does not
    assign [f.wipBatch]: its caller [finalizeBatch] does, with the batch
    returned here. *)
Definition closeAndOpenNewWIPBatch (fuel : nat) : M (result error Batch) :=
  f <- get_fin ;;
  (if negb (l2block_isEmpty (wipL2Block f)) then finalizeL2Block else ret tt) ;;;
  pendingL2BlocksToProcessWG_Wait ;;;
  log Debug "waiting for pending L2 blocks to be processed took: %s" ;;;
  pendingL2BlocksToStoreWG_Wait ;;;
  log Debug "waiting for pending L2 blocks to be stored took: %s" ;;;
  f <- get_fin ;;
  e <- (if bool_decide (initialStateRoot (wipBatch f) = finalStateRoot (wipBatch f))
        then log Info "reprocessing batch because the state root has not changed..." ;;;
             processTransaction_nil_true
        else ret None) ;;
  match e with
  | Some err => ret (Err err)
  | None =>
  f <- get_fin ;;
  e <- (if SequentialReprocessFullBatch (cfg f)
        then r <- reprocessFullBatch (batchNumber (wipBatch f))
                    (initialStateRoot (wipBatch f)) (finalStateRoot (wipBatch f)) ;;
             match r with
             | Err err =>
                 ret (Some (Errorf "halting Sequencer because of error reprocessing full batch %d (sanity check). Error: %s " err))
             | Ok _ => ret None
             end
        else emit (EGo_reprocessFullBatch (batchNumber (wipBatch f))
                     (initialStateRoot (wipBatch f)) (finalStateRoot (wipBatch f))) ;;;
             ret None) ;;
  match e with
  | Some err => ret (Err err)
  | None =>
  e <- closeWIPBatch ;;
  match e with
  | Some err => ret (Err (Errorf "failed to close batch, err: %w" err))
  | None =>
  log Info "batch %d closed" ;;;
  f <- get_fin ;;
  next <- (if bool_decide (nextForcedBatches f <> [])
           then r <- processForcedBatches (batchNumber (wipBatch f)) (finalStateRoot (wipBatch f)) ;;
                initWIPL2Block ;;;
                ret r
           else ret (batchNumber (wipBatch f), finalStateRoot (wipBatch f))) ;;
  let '(lastBatchNumber, stateRoot) := next in
  f <- get_fin ;;
  let currentGER := l1InfoTreeExitRoot_GlobalExitRoot (wipL2Block f) in
  o <- openNewWIPBatch fuel (wrap 64 (lastBatchNumber + 1)) currentGER stateRoot
         (localExitRoot (wipBatch f)) ;;
  match o with
  | Err err => ret (Err (Errorf "failed to open new wip batch. Error: %s" err))
  | Ok batch =>
  f <- get_fin ;;
  match state.Sub (remainingResources (wipBatch f)) l2BlockUsedResources with
  | None =>
      ret (Err (Errorf "failed to subtract L2 block used resources to wip batch %d. Error: %s"
                  (ErrExternal "batch resources underflow")))
  | Some remaining =>
      put_fin (set_wipBatch (set_remainingResources remaining (wipBatch f)) f) ;;;
      ret (Ok batch)
  end
  end
  end
  end
  end.

(** [finalizeBatch] closes the current batch and opens a new one. After an
    error [f.wipBatch] is nil, and the method ends inside [Halt] before it
    reads the batch number for its last log entry. *)
Definition finalizeBatch (fuel : nat) : M unit :=
  r <- closeAndOpenNewWIPBatch fuel ;;
  match r with
  | Err err => Halt (Errorf "failed to create new WIP batch. Error: %s" err)
  | Ok batch =>
      f <- get_fin ;;
      put_fin (set_wipBatch batch f) ;;;
      log Info "new WIP batch %d"
  end.

(** *** Methods of [batch.go] around the life of the wip batch *)

(** [isEmpty]: the batch has no transaction. *)
Definition isEmpty (b : Batch) : bool := countOfTxs b =? 0.

(** [setWIPBatch] builds the wip batch of the finalizer from a batch row that
    is still open in the state. The previous batch is read inside the
    transaction the method begins, that is from the store as
    [BeginStateTransaction] leaves it. The closing reason is not set: it keeps
    its initial value, Empty. *)
Definition setWIPBatch (wipStateBatch : state.Batch) : M (result error Batch) :=
  t <- on_store BeginStateTransaction ;;
  match t with
  | Err err => ret (Err err)
  | Ok dbTx =>
      p <- read_store (fun s => GetBatchByNumber s (wrap 64 (state.BatchNumber wipStateBatch - 1))) ;;
      match p with
      | Err err => ret (Err err)
      | Ok prevStateBatch =>
          match DecodeBatchV2 (state.BatchL2Data wipStateBatch) with
          | Err err => ret (Err err)
          | Ok wipStateBatchBlocks =>
              let wipStateBatchCountOfTxs :=
                fold_left
                  (fun (count : Z) (rawBlock : state.L2BlockRaw) =>
                     count + Z.of_nat (length (state.raw_Transactions rawBlock)))
                  (state.Blocks wipStateBatchBlocks) 0 in
              f <- get_fin ;;
              match state.Sub (getMaxRemainingResources (batchConstraints f))
                      (state.Resources wipStateBatch) with
              | None => ret (Err (ErrExternal "batch resources underflow"))
              | Some remainingResources =>
                  ret (Ok {| batchNumber := state.BatchNumber wipStateBatch;
                             coinbase := state.Coinbase wipStateBatch;
                             timestamp := state.Timestamp wipStateBatch;
                             initialStateRoot := state.StateRoot prevStateBatch;
                             imStateRoot := state.StateRoot wipStateBatch;
                             finalStateRoot := state.StateRoot wipStateBatch;
                             localExitRoot := state.LocalExitRoot wipStateBatch;
                             countOfTxs := wipStateBatchCountOfTxs;
                             remainingResources := remainingResources;
                             closingReason := state.EmptyClosingReason |})
              end
          end
      end
  end.


End Methods.

Arguments Returned {Store L1Data A} a w.
Arguments Halted {Store L1Data A} w.
Arguments Polling {Store L1Data A} w.

End sequencer.

(** ** Package types of the JSON-RPC layer *)

Module types.

(** [Batch] structure; [Number] and [Timestamp] are [ArgUint64], that is
    uint64, and [BatchL2Data] is [ArgBytes]. The slices [Blocks] and
    [Transactions] are not read by the classifier and are left out. *)
Record Batch : Type := {
  Number : Z;
  ForcedBatchNumber : option Z;
  Coinbase : Address;
  StateRoot : Hash;
  GlobalExitRoot : Hash;
  MainnetExitRoot : Hash;
  RollupExitRoot : Hash;
  LocalExitRoot : Hash;
  AccInputHash : Hash;
  Timestamp : Z;
  SendSequencesTxHash : option Hash;
  VerifyBatchTxHash : option Hash;
  Closed : bool;
  BatchL2Data : list byte
}.

(** *** Arguments of the RPC requests

    A text, [[]byte] or [string], is a [string] here. The package [hex] of
    the repository is not among the sources at hand: its constants [Base] and
    [BitSize64] and its functions [EncodeToString] and [DecodeString] are
    parameters. *)

Section Args.

Variables hex_Base hex_BitSize64 : Z.
Variable zkevm_hex_EncodeToString : list byte -> string.
Variable zkevm_hex_DecodeString : string -> result error (list byte).

(** [ArgUint64.MarshalText] marshals into text. *)
Definition ArgUint64_MarshalText (b : Z) : run string :=
  strconv_AppendUint "0x" b hex_Base.

(** [ArgUint64.UnmarshalText] unmarshals from text: the new value of the
    receiver, or the error, with the receiver as it was. *)
Definition ArgUint64_UnmarshalText (input : string) : result NumError Z :=
  let str := strings_TrimPrefix input "0x" in
  strconv_ParseUint str hex_Base hex_BitSize64.

(** [ArgUint64.Hex] returns a hexadecimal representation. *)
Definition ArgUint64_Hex (b : Z) : run string := ArgUint64_MarshalText b.

Definition decodeToHex (b : string) : result error (list byte) :=
  let str := strings_TrimPrefix b "0x" in
  let str := if Nat.odd (String.length str) then String "0" str else str in
  zkevm_hex_DecodeString str.

Definition encodeToHex (b : list byte) : string :=
  let str := zkevm_hex_EncodeToString b in
  let str := if Nat.odd (String.length str) then String "0" str else str in
  String "0" (String "x" str).

(** [ArgBytes.MarshalText] marshals into text. *)
Definition ArgBytes_MarshalText (b : list byte) : string := encodeToHex b.

(** [ArgBytes.UnmarshalText] unmarshals from text: the receiver after the
    call and the error returned. *)
Definition ArgBytes_UnmarshalText (receiver : list byte) (input : string)
    : list byte * option error :=
  match decodeToHex input with
  | Err err => (receiver, None)
  | Ok hh => (hh, None)
  end.

(** [ArgBig.UnmarshalText] unmarshals an instance of ArgBig into an array of
    bytes: the receiver after the call and the error returned. *)
Definition ArgBig_UnmarshalText (receiver : Z) (input : string) : Z * option error :=
  match decodeToHex input with
  | Err err => (receiver, Some err)
  | Ok buf => (big_SetBytes buf, None)
  end.

End Args.

(** [TxArgs] is the transaction argument for the rpc endpoints. *)
Record TxArgs : Type := {
  From : option Address;
  To : option Address;
  Gas : option Z;
  GasPrice : option (list byte);
  Value : option (list byte);
  Data : option (list byte);
  Input : option (list byte);
  Nonce : option Z
}.

(** The fields of [types.LegacyTx] of go-ethereum that [ToTransaction]
    sets. *)
Record LegacyTx : Type := {
  tx_Nonce : Z;
  tx_To : option Address;
  tx_Value : Z;
  tx_Gas : Z;
  tx_GasPrice : Z;
  tx_Data : list byte
}.

(** [ToTransaction] transforms txnArgs into a Transaction. [GetNonce] is the
    method of the state interface. *)
Definition ToTransaction (GetNonce : Address -> Hash -> result error Z) (args : TxArgs)
    (maxCumulativeGasUsed : Z) (root : Hash) (defaultSenderAddress : Address)
    : result error (Address * LegacyTx) :=
  let senderAndNonce : result error (Address * Z) :=
    match From args with
    | Some from =>
        if bool_decide (from <> state.ZeroAddress)
        then match GetNonce from root with
             | Err err => Err err
             | Ok n => Ok (from, n)
             end
        else Ok (defaultSenderAddress, 0)
    | None => Ok (defaultSenderAddress, 0)
    end in
  match senderAndNonce with
  | Err err => Err err
  | Ok (sender, nonce) =>
      let value := match Value args with Some v => big_SetBytes v | None => 0 end in
      let gasPrice := match GasPrice args with Some g => big_SetBytes g | None => 0 end in
      let data : result error (list byte) :=
        match Data args with
        | Some d => Ok d
        | None =>
            match Input args with
            | Some i => Ok i
            | None =>
                match To args with
                | None => Err (ErrExternal "contract creation without data provided")
                | Some _ => Ok []
                end
            end
        end in
      match data with
      | Err err => Err err
      | Ok data =>
          let gas :=
            match Gas args with
            | Some g => if (0 <? g) && (g <? maxCumulativeGasUsed) then g
                        else maxCumulativeGasUsed
            | None => maxCumulativeGasUsed
            end in
          Ok (sender,
              {| tx_Nonce := nonce; tx_To := To args; tx_Value := value; tx_Gas := gas;
                 tx_GasPrice := gasPrice; tx_Data := data |})
      end
  end.

End types.

(** ** Package l2_shared: the trusted-batch classifier and its cache

    The calls of the logger in this package only write to the process log
    and are left out. *)

Module l2_shared.

(** [BatchProcessMode] is the mode for process a batch (full, incremental,
    reprocess, nothing); a Go string type. *)
Definition BatchProcessMode : Type := string.

(** This batch is not on database, so is the first time we process it. *)
Definition FullProcessMode : BatchProcessMode := "full"%string.
(** We have processed this batch before, and we have the intermediate
    state root, so is going to be process only new Tx. *)
Definition IncrementalProcessMode : BatchProcessMode := "incremental"%string.
(** We have processed this batch before, but we don't have the
    intermediate state root, so we need to reprocess it. *)
Definition ReprocessProcessMode : BatchProcessMode := "reprocess"%string.
(** The batch is already synchronized, so we don't need to process it. *)
Definition NothingProcessMode : BatchProcessMode := "nothing"%string.

(** [ProcessData] contains the data required to process a batch. *)
Record ProcessData : Type := {
  BatchNumber : Z;
  Mode : BatchProcessMode;
  OldStateRoot : Hash;
  OldAccInputHash : Hash;
  BatchMustBeClosed : bool;
  TrustedBatch : option types.Batch;
  StateBatch : option state.Batch;
  Now : Z;
  Description : string;
  DebugPrefix : string
}.

(** [ProcessData{}]. *)
Definition ProcessData_zero : ProcessData :=
  {| BatchNumber := 0; Mode := ""%string; OldStateRoot := state.ZeroHash;
     OldAccInputHash := state.ZeroHash; BatchMustBeClosed := false;
     TrustedBatch := None; StateBatch := None; Now := 0;
     Description := ""%string; DebugPrefix := ""%string |}.

(** [ProcessResponse] contains the response of the process of a batch. *)
Record ProcessResponse : Type := {
  ProcessBatchResponse : option state.ProcessBatchResponse;
  ClearCache : bool;
  UpdateBatch : option state.Batch;
  UpdateBatchWithProcessBatchResponse : bool
}.

(** The two-slot cache of the last trusted batches. *)
Record TrustedState : Type := {
  LastTrustedBatches : list (option state.Batch)
}.

(** The four assignments of [updateCache] through [res.LastTrustedBatches[0]]. *)
Definition overwriteFromResponse (r : state.ProcessBatchResponse) (closedBatch : bool)
    (b : state.Batch) : state.Batch :=
  {| state.BatchNumber := state.BatchNumber b;
     state.Coinbase := state.Coinbase b;
     state.BatchL2Data := state.BatchL2Data b;
     state.StateRoot := state.NewStateRoot r;
     state.LocalExitRoot := state.NewLocalExitRoot r;
     state.AccInputHash := state.NewAccInputHash r;
     state.Timestamp := state.Timestamp b;
     state.GlobalExitRoot := state.GlobalExitRoot b;
     state.Resources := state.Resources b;
     state.WIP := negb closedBatch |}.

(** [updateCache]. The result is built in place in the slice [res]; slot 0
    shares the batch [response.UpdateBatch] points to, the value the slot
    holds after each step is the one kept here. *)
Definition updateCache (status : TrustedState) (response : option ProcessResponse)
    (closedBatch : bool) : TrustedState :=
  let res : list (option state.Batch) := [None; None] in
  match response with
  | None => {| LastTrustedBatches := res |}
  | Some response =>
      if ClearCache response then {| LastTrustedBatches := res |}
      else
        let res :=
          match UpdateBatch response with
          | Some b => <[0%nat := Some b]> res
          | None => res
          end in
        let res :=
          match ProcessBatchResponse response, default None (res !! 0%nat) with
          | Some r, Some b =>
              if UpdateBatchWithProcessBatchResponse response
              then <[0%nat := Some (overwriteFromResponse r closedBatch b)]> res
              else res
          | _, _ => res
          end in
        let res :=
          if closedBatch
          then <[0%nat := None]> (<[1%nat := default None (res !! 0%nat)]> res)
          else res in
        {| LastTrustedBatches := res |}
  end.

Section Classifier.

(** [common.Address.String] is the checksummed hex form of go-ethereum;
    [s.timeProvider.Now()] is the clock of the processor. *)
Variable Address_String : Address -> string.
Variable timeProvider_Now : Z.

Definition isTrustedBatchClosed (batch : types.Batch) : bool := types.Closed batch.

(** The loop of [checkIfSyncedWhitoutWIP] over [values] and [names]. *)
Fixpoint debugStr (values : list bool) (names : list string) : string :=
  match values, names with
  | v :: values', n :: names' =>
      ((if v then "" else n ++ ": false, ") ++ debugStr values' names')%string
  | _, _ => ""%string
  end.

(** [checkIfSyncedWhitoutWIP] returns true|false and a debug string. The
    decimal form of the batch number in the string of the equal case is
    not kept. *)
Definition checkIfSyncedWhitoutWIP (stateBatch : option state.Batch)
    (trustedBatch : option types.Batch) : bool * string :=
  match stateBatch, trustedBatch with
  | Some stateBatch, Some trustedBatch =>
      let matchNumber := state.BatchNumber stateBatch =? types.Number trustedBatch in
      let matchGER :=
        String.eqb (Hash_String (state.GlobalExitRoot stateBatch))
                   (Hash_String (types.GlobalExitRoot trustedBatch)) in
      let matchLER :=
        String.eqb (Hash_String (state.LocalExitRoot stateBatch))
                   (Hash_String (types.LocalExitRoot trustedBatch)) in
      let matchSR :=
        String.eqb (Hash_String (state.StateRoot stateBatch))
                   (Hash_String (types.StateRoot trustedBatch)) in
      let matchCoinbase :=
        String.eqb (Address_String (state.Coinbase stateBatch))
                   (Address_String (types.Coinbase trustedBatch)) in
      let matchTimestamp := true in
      let matchL2Data :=
        String.eqb (hex_EncodeToString (state.BatchL2Data stateBatch))
                   (hex_EncodeToString (types.BatchL2Data trustedBatch)) in
      if matchNumber && matchGER && matchLER && matchSR
         && matchCoinbase && matchTimestamp && matchL2Data
      then (true, "Equal batch: %v"%string)
      else
        (false,
         debugStr
           [matchNumber; matchGER; matchLER; matchSR; matchCoinbase; matchTimestamp; matchL2Data]
           ["matchNumber"; "matchGER"; "matchLER"; "matchSR"; "matchCoinbase";
            "matchTimestamp"; "matchL2Data"]%string)
  | _, _ => (false, "nil pointers"%string)
  end.

(** [checkIfSynced]; both pointers are dereferenced, the caller passes
    batches that are not nil. *)
Definition checkIfSynced (stateBatch : state.Batch) (trustedBatch : types.Batch)
    : bool * string :=
  let '(ok, str) := checkIfSyncedWhitoutWIP (Some stateBatch) (Some trustedBatch) in
  if negb (Bool.eqb (state.WIP stateBatch) (negb (types.Closed trustedBatch)))
  then (false, (str ++ "matchWIP: false, ")%string)
  else (ok, str).

Definition with_mode (mode : BatchProcessMode) (oldStateRoot : Hash) (description : string)
    : ProcessData :=
  {| BatchNumber := 0; Mode := mode; OldStateRoot := oldStateRoot;
     OldAccInputHash := state.ZeroHash; BatchMustBeClosed := false;
     TrustedBatch := None; StateBatch := None; Now := 0;
     Description := description; DebugPrefix := ""%string |}.

(** [getModeForProcessBatch]: the pair of its two results. *)
Definition getModeForProcessBatch (trustedNodeBatch : option types.Batch)
    (stateBatch statePreviousBatch : option state.Batch) : ProcessData * option error :=
  match trustedNodeBatch, statePreviousBatch with
  | Some trustedNodeBatch, Some statePreviousBatch =>
      let result :=
        match stateBatch with
        | None =>
            with_mode FullProcessMode (state.StateRoot statePreviousBatch)
              "Batch is not on database, so is the first time we process it"
        | Some stateBatch =>
            let '(batchSynced, strSync) := checkIfSynced stateBatch trustedNodeBatch in
            if batchSynced
            then with_mode NothingProcessMode state.ZeroHash "no new data on batch"
            else if bool_decide (state.StateRoot stateBatch <> state.ZeroHash)
            then with_mode IncrementalProcessMode (state.StateRoot stateBatch)
                   ("batch exists + intermediateStateRoot " ++ strSync)
            else with_mode ReprocessProcessMode (state.StateRoot statePreviousBatch)
                   ("batch exists + StateRoot==Zero" ++ strSync)
        end in
      if String.eqb (Mode result) ""
      then (result, Some (ErrExternal "failed to get mode for process batch %v"))
      else
        ({| BatchNumber := types.Number trustedNodeBatch;
            Mode := Mode result;
            OldStateRoot := OldStateRoot result;
            OldAccInputHash := state.AccInputHash statePreviousBatch;
            BatchMustBeClosed :=
              negb (String.eqb (Mode result) NothingProcessMode)
              && isTrustedBatchClosed trustedNodeBatch;
            TrustedBatch := Some trustedNodeBatch;
            StateBatch := stateBatch;
            Now := timeProvider_Now;
            Description := Description result;
            DebugPrefix := DebugPrefix result |},
         None)
  | _, _ =>
      (ProcessData_zero,
       Some (ErrExternal "trustedNodeBatch and statePreviousBatch can't be nil"))
  end.

(** [checkStateRootAndLER]: the state root is compared first. *)
Definition checkStateRootAndLER (batchNumber : Z) (expectedStateRoot expectedLER : Hash)
    (calculatedStateRoot calculatedLER : Hash) : option error :=
  if bool_decide (calculatedStateRoot <> expectedStateRoot)
  then Some (ErrExternal "batch %v: stareRoot calculated [%s] is different from the one in the batch [%s]")
  else if bool_decide (calculatedLER <> expectedLER)
  then Some (ErrExternal "batch %v: LocalExitRoot calculated [%s] is different from the one in the batch [%s]")
  else None.

(** [checkProcessBatchResultMatchExpected]. Without an executor response the
    roots of [data.StateBatch] are checked, through a pointer that is not
    tested for nil. *)
Definition checkProcessBatchResultMatchExpected (data : ProcessData)
    (processBatchResp : option state.ProcessBatchResponse) : run (option error) :=
  match TrustedBatch data with
  | None => Panics "trustedBatch is nil"
  | Some trustedBatch =>
      match processBatchResp with
      | None =>
          match StateBatch data with
          | None => Panics "nil pointer dereference"
          | Some stateBatch =>
              Done (checkStateRootAndLER (types.Number trustedBatch)
                      (types.StateRoot trustedBatch) (types.LocalExitRoot trustedBatch)
                      (state.StateRoot stateBatch) (state.LocalExitRoot stateBatch))
          end
      | Some resp =>
          Done (checkStateRootAndLER (types.Number trustedBatch)
                  (types.StateRoot trustedBatch) (types.LocalExitRoot trustedBatch)
                  (state.NewStateRoot resp) (state.NewLocalExitRoot resp))
      end
  end.

Definition set_DebugPrefix (prefix : string) (d : ProcessData) : ProcessData :=
  {| BatchNumber := BatchNumber d; Mode := Mode d; OldStateRoot := OldStateRoot d;
     OldAccInputHash := OldAccInputHash d; BatchMustBeClosed := BatchMustBeClosed d;
     TrustedBatch := TrustedBatch d; StateBatch := StateBatch d; Now := Now d;
     Description := Description d; DebugPrefix := prefix |}.

Section Processor.

(** The database behind the transaction [dbTx] that the steps work on. *)
Context {DB : Type}.

(** What a step hands back: its two results, the process data it was given
    a pointer to, and the database. *)
Record StepResult : Type := {
  step_response : option ProcessResponse;
  step_err : option error;
  step_data : ProcessData;
  step_db : DB
}.

(** [SyncTrustedBatchExecutor] is the interface that known how to process a
    batch. *)
Class SyncTrustedBatchExecutor : Type := {
  FullProcess : ProcessData -> DB -> StepResult;
  IncrementalProcess : ProcessData -> DB -> StepResult;
  ReProcess : ProcessData -> DB -> StepResult;
  NothingProcess : ProcessData -> DB -> StepResult
}.

Context {Steps : SyncTrustedBatchExecutor}.

(** [ProcessTrustedBatch] processes a trusted batch and return the new
    state: the pair of its results, or the panic it ends in, and the
    database. The first statement reads [trustedBatch.Number]. *)
Definition ProcessTrustedBatch (trustedBatch : option types.Batch) (status : TrustedState)
    (db : DB) (debugPrefix : string)
    : run (option TrustedState * option error) * DB :=
  match trustedBatch with
  | None => (Panics "nil pointer dereference", db)
  | Some trusted =>
  match LastTrustedBatches status !! 0%nat, LastTrustedBatches status !! 1%nat with
  | Some stateCurrentBatch, Some statePreviousBatch =>
      let '(processMode, err) :=
        getModeForProcessBatch trustedBatch stateCurrentBatch statePreviousBatch in
      let processMode :=
        set_DebugPrefix (debugPrefix ++ " mode " ++ Mode processMode ++ ":")%string processMode in
      match err with
      | Some err => (Done (None, Some err), db)
      | None =>
          let st :=
            if String.eqb (Mode processMode) NothingProcessMode
            then {| step_response := None; step_err := None;
                    step_data := processMode; step_db := db |}
            else if String.eqb (Mode processMode) FullProcessMode
            then FullProcess processMode db
            else if String.eqb (Mode processMode) IncrementalProcessMode
            then IncrementalProcess processMode db
            else if String.eqb (Mode processMode) ReprocessProcessMode
            then ReProcess processMode db
            else {| step_response := None; step_err := None;
                    step_data := processMode; step_db := db |} in
          let processMode := step_data st in
          match step_err st with
          | Some err => (Done (None, Some err), step_db st)
          | None =>
              let checked : run (option error) :=
                if BatchMustBeClosed processMode
                then match step_response st with
                     | None => Panics "nil pointer dereference"
                     | Some resp =>
                         checkProcessBatchResultMatchExpected processMode
                           (ProcessBatchResponse resp)
                     end
                else Done None in
              match checked with
              | Panics msg => (Panics msg, step_db st)
              | Done (Some err) => (Done (None, Some err), step_db st)
              | Done None =>
                  match step_response st with
                  | Some resp =>
                      if ClearCache resp
                      then (Done (None, None), step_db st)
                      else (Done (Some (updateCache status (Some resp)
                                          (BatchMustBeClosed processMode)), None),
                            step_db st)
                  | None => (Done (None, None), step_db st)
                  end
              end
          end
      end
  | _, _ => (Panics "index out of range", db)
  end
  end.

End Processor.

End Classifier.

End l2_shared.

(** ** The claims in the words of the specification

    The definitions of this part follow the text of the specification, they
    are what the code above is compared with. *)

Module claims.

Import sequencer.

(** Component-wise sum of two budgets, in the integers. *)
Definition resources_plus (a b : state.BatchResources) : state.BatchResources :=
  let x := state.RZKCounters a in
  let y := state.RZKCounters b in
  {| state.RZKCounters :=
       {| state.GasUsed := state.GasUsed x + state.GasUsed y;
          state.UsedKeccakHashes := state.UsedKeccakHashes x + state.UsedKeccakHashes y;
          state.UsedPoseidonHashes := state.UsedPoseidonHashes x + state.UsedPoseidonHashes y;
          state.UsedPoseidonPaddings := state.UsedPoseidonPaddings x + state.UsedPoseidonPaddings y;
          state.UsedMemAligns := state.UsedMemAligns x + state.UsedMemAligns y;
          state.UsedArithmetics := state.UsedArithmetics x + state.UsedArithmetics y;
          state.UsedBinaries := state.UsedBinaries x + state.UsedBinaries y;
          state.UsedSteps := state.UsedSteps x + state.UsedSteps y;
          state.UsedSha256Hashes_V2 := state.UsedSha256Hashes_V2 x + state.UsedSha256Hashes_V2 y |};
     state.Bytes := state.Bytes a + state.Bytes b |}.

(** A value of a [w]-bit field that is at most the maximum [m] of the
    same width. *)
Definition at_most (w x m : Z) : Prop := 0 <= x <= m /\ m < 2 ^ w.

(** [remaining] is component-wise at most the maxima of [constraints]. *)
Definition remaining_at_most (c : state.BatchConstraintsCfg) (r : state.BatchResources)
    : Prop :=
  let z := state.RZKCounters r in
  at_most 64 (state.Bytes r) (state.MaxBatchBytesSize c)
  /\ at_most 64 (state.GasUsed z) (state.MaxCumulativeGasUsed c)
  /\ at_most 32 (state.UsedKeccakHashes z) (state.MaxKeccakHashes c)
  /\ at_most 32 (state.UsedPoseidonHashes z) (state.MaxPoseidonHashes c)
  /\ at_most 32 (state.UsedPoseidonPaddings z) (state.MaxPoseidonPaddings c)
  /\ at_most 32 (state.UsedMemAligns z) (state.MaxMemAligns c)
  /\ at_most 32 (state.UsedArithmetics z) (state.MaxArithmetics c)
  /\ at_most 32 (state.UsedBinaries z) (state.MaxBinaries c)
  /\ at_most 32 (state.UsedSteps z) (state.MaxSteps c)
  /\ at_most 32 (state.UsedSha256Hashes_V2 z) (state.MaxSHA256Hashes c).

(** A component of the remaining budget next to its threshold: the name
    the finalizer reports, the remaining amount, the threshold. *)
Record component : Type := {
  comp_name : string;
  comp_remaining : Z;
  comp_threshold : Z
}.

Definition at_or_below (c : component) : bool := comp_remaining c <=? comp_threshold c.




(** [below_threshold]: the name of the first component at or below its
    threshold. *)
Definition below_threshold (cs : list component) : option string :=
  comp_name <$> List.find at_or_below cs.

(** The four failure classes of the sanity reprocess, read off the answer of
    the executor, and the error kind of each. *)
Inductive failureClass : Type :=
| InvocationError
| ExecutorReportedError
| OutOfCountersError
| StateRootMismatch.

Definition classOf (answer : result error state.ProcessBatchResponse)
    (expectedNewStateRoot : Hash) : option failureClass :=
  match answer with
  | Err _ => Some InvocationError
  | Ok r =>
      if bool_decide (state.ExecutorError r <> None) then Some ExecutorReportedError
      else if state.IsRomOOCError r then Some OutOfCountersError
      else if bool_decide (state.NewStateRoot r <> expectedNewStateRoot)
      then Some StateRootMismatch
      else None
  end.

Definition errorKind (c : failureClass) : error :=
  match c with
  | InvocationError => ErrProcessBatch
  | ExecutorReportedError => ErrExecutorError
  | OutOfCountersError => ErrProcessBatchOOC
  | StateRootMismatch => ErrStateRootNoMatch
  end.

(** The row of the store equals the trusted row: number, GER, LER, state
    root, coinbase, L2 data, and wip == !trusted.closed. *)
Definition rowsEqual (b : state.Batch) (t : types.Batch) : Prop :=
  state.BatchNumber b = types.Number t
  /\ state.GlobalExitRoot b = types.GlobalExitRoot t
  /\ state.LocalExitRoot b = types.LocalExitRoot t
  /\ state.StateRoot b = types.StateRoot t
  /\ state.Coinbase b = types.Coinbase t
  /\ state.BatchL2Data b = types.BatchL2Data t
  /\ state.WIP b = negb (types.Closed t).

(** What slot 0 of the cache holds before a closed batch is moved to
    slot 1: the batch of [update_batch], with the state root, LER,
    acc-input-hash and wip of the executor response when
    [update_batch_with_process_batch_response] asks for it. *)
Definition slot0BeforeMove (response : option l2_shared.ProcessResponse) (closedBatch : bool)
    : option state.Batch :=
  match response with
  | None => None
  | Some r =>
      if l2_shared.ClearCache r then None
      else
        match l2_shared.UpdateBatch r with
        | None => None
        | Some b =>
            match l2_shared.ProcessBatchResponse r with
            | Some p =>
                if l2_shared.UpdateBatchWithProcessBatchResponse r
                then Some (l2_shared.overwriteFromResponse p closedBatch b)
                else Some b
            | None => Some b
            end
        end
  end.

(** The world after more effects. *)
Definition extend {Store L1Data : Type} (w : @World Store L1Data)
    (es : list (@Effect L1Data)) : @World Store L1Data :=
  {| fin := fin w; store := store w; trace := trace w ++ es |}.

Definition isLog {L1Data : Type} (e : @Effect L1Data) : Prop :=
  match e with ELog _ _ => True | _ => False end.

Definition isHalt {L1Data : Type} (e : @Effect L1Data) : Prop :=
  match e with EHalt _ => True | _ => False end.


(** The error [reprocessError] hands to [Halt]. *)
Definition sanityCheckHalt : error :=
  ErrExternal "error reprocessing full batch (sanity check). Check previous errors in logs to know which was the cause".

End claims.

(** ** Concrete stores, collaborators and batches

    A store with one batch row and an executor with a fixed answer, in the
    way the mocks of the tests are set up. *)

Module fixtures.

Import sequencer.

Definition hashOf (b : byte) : Hash := repeat b 32%nat.

Definition counters (n : Z) : state.ZKCounters :=
  {| state.GasUsed := n; state.UsedKeccakHashes := n; state.UsedPoseidonHashes := n;
     state.UsedPoseidonPaddings := n; state.UsedMemAligns := n; state.UsedArithmetics := n;
     state.UsedBinaries := n; state.UsedSteps := n; state.UsedSha256Hashes_V2 := n |}.

Definition resources (n : Z) : state.BatchResources :=
  {| state.RZKCounters := counters n; state.Bytes := n |}.

(** Every maximum is 1000, at most 10 transactions per batch. *)
Definition constraints1000 : state.BatchConstraintsCfg :=
  {| state.MaxTxsPerBatch := 10; state.MaxBatchBytesSize := 1000;
     state.MaxCumulativeGasUsed := 1000; state.MaxKeccakHashes := 1000;
     state.MaxPoseidonHashes := 1000; state.MaxPoseidonPaddings := 1000;
     state.MaxMemAligns := 1000; state.MaxArithmetics := 1000; state.MaxBinaries := 1000;
     state.MaxSteps := 1000; state.MaxSHA256Hashes := 1000 |}.

(** Half of every budget is left, but no poseidon hash. *)
Definition noPoseidonHashesLeft : state.BatchResources :=
  {| state.RZKCounters :=
       {| state.GasUsed := 500; state.UsedKeccakHashes := 500; state.UsedPoseidonHashes := 0;
          state.UsedPoseidonPaddings := 500; state.UsedMemAligns := 500;
          state.UsedArithmetics := 500; state.UsedBinaries := 500; state.UsedSteps := 500;
          state.UsedSha256Hashes_V2 := 500 |};
     state.Bytes := 500 |}.

(** Batch 7, with state root 01..01 when it was opened and 02..02 now. *)
Definition wipBatch7 (remaining : state.BatchResources) : Batch :=
  {| batchNumber := 7; coinbase := repeat x0a 20%nat; timestamp := 1700000000;
     initialStateRoot := hashOf x01; imStateRoot := hashOf x02; finalStateRoot := hashOf x02;
     localExitRoot := hashOf x03; countOfTxs := 1; remainingResources := remaining;
     closingReason := state.EmptyClosingReason |}.

(** A finalizer that closes a batch at 10 percent of a budget. *)
Definition finalizer7 (sequential : bool) (remaining : state.BatchResources) : finalizer :=
  {| cfg := {| ResourcePercentageToCloseBatch := 10;
               SequentialReprocessFullBatch := sequential |};
     batchConstraints := constraints1000;
     wipBatch := wipBatch7 remaining;
     wipL2Block := {| l2block_isEmpty := true;
                      l1InfoTreeExitRoot_GlobalExitRoot := hashOf x04 |};
     sequencerAddress := repeat x0a 20%nat;
     nextForcedBatches := [] |}.

Definition stateBatch7 : state.Batch :=
  {| state.BatchNumber := 7; state.Coinbase := repeat x0a 20%nat;
     state.BatchL2Data := [x0b; x00; x00; x00; x00; x00; x00; x00; x00];
     state.StateRoot := hashOf x02; state.LocalExitRoot := hashOf x03;
     state.AccInputHash := hashOf x05; state.Timestamp := 1700000000;
     state.GlobalExitRoot := hashOf x04; state.Resources := resources 0;
     state.WIP := true |}.

Definition stateBatch6 : state.Batch :=
  {| state.BatchNumber := 6; state.Coinbase := repeat x0a 20%nat;
     state.BatchL2Data := []; state.StateRoot := hashOf x01;
     state.LocalExitRoot := hashOf x03; state.AccInputHash := hashOf x06;
     state.Timestamp := 1699999000; state.GlobalExitRoot := hashOf x04;
     state.Resources := resources 0; state.WIP := false |}.

(** The store: [last] is what [GetLastNBatches] answers, [answer] what the
    executor answers, [decoded] what [DecodeBatchV2] makes of the L2 data.
    Every write succeeds. *)
Definition stubState (last : result error (list state.Batch))
    (answer : result error state.ProcessBatchResponse)
    (decoded : result error state.BatchRawV2) : @stateInterface unit unit unit :=
  {| GetLastNBatches := fun _ _ => last;
     GetBatchByNumber := fun _ _ => Ok stateBatch7;
     GetForkIDByBatchNumber := fun _ _ => 7;
     GetL1InfoTreeDataFromBatchL2Data := fun _ _ => Ok tt;
     ProcessBatchV2 := fun _ _ _ => answer;
     DecodeBatchV2 := fun _ => decoded;
     BeginStateTransaction := fun s => (Ok tt, s);
     OpenWIPBatch := fun _ _ s => (None, s);
     CloseWIPBatch := fun _ _ s => (None, s);
     Commit := fun _ s => (None, s);
     Rollback := fun _ s => (None, s) |}.

(** The overhead of an L2 block: 9 bytes and a few counters. *)
Definition blockOverhead : state.BatchResources :=
  {| state.RZKCounters :=
       {| state.GasUsed := 0; state.UsedKeccakHashes := 4; state.UsedPoseidonHashes := 256;
          state.UsedPoseidonPaddings := 0; state.UsedMemAligns := 0;
          state.UsedArithmetics := 0; state.UsedBinaries := 19; state.UsedSteps := 275;
          state.UsedSha256Hashes_V2 := 0 |};
     state.Bytes := 9 |}.

(** Collaborators that do nothing, a synchronizer that is up to date, an
    event log and a serializer that succeed. *)
Definition stubCollaborators : @collaborators unit unit :=
  {| finalizeL2Block := ret tt;
     pendingL2BlocksToProcessWG_Wait := ret tt;
     pendingL2BlocksToStoreWG_Wait := ret tt;
     processTransaction_nil_true := ret None;
     processForcedBatches := fun n r => ret (n, r);
     initWIPL2Block := ret tt;
     isSynced := ret true;
     eventLog_LogEvent := fun _ => None;
     json_Marshal := fun _ => Ok "{}"%string;
     time_Now := 1700000100;
     mockL1InfoRoot := state.ZeroHash;
     l2BlockUsedResources := blockOverhead |}.

Definition world7 (sequential : bool) (remaining : state.BatchResources) : @World unit unit :=
  {| fin := finalizer7 sequential remaining; store := tt; trace := [] |}.

(** Answers of the executor. *)
Definition answerWith (root : Hash) (ooc : bool) : state.ProcessBatchResponse :=
  {| state.NewStateRoot := root; state.NewLocalExitRoot := hashOf x03;
     state.NewAccInputHash := hashOf x05; state.UsedZkCounters := counters 1;
     state.ExecutorError := None; state.IsRomOOCError := ooc |}.

(** One L2 block with one transaction. *)
Definition decodedOneTx : state.BatchRawV2 :=
  {| state.Blocks := [ {| state.raw_Transactions := [hashOf x07] |} ] |}.

(** The trusted batch 7 as the trusted node reports it. *)
Definition trustedBatch7 (closed : bool) : types.Batch :=
  {| types.Number := 7; types.ForcedBatchNumber := None;
     types.Coinbase := repeat x0a 20%nat; types.StateRoot := hashOf x02;
     types.GlobalExitRoot := hashOf x04; types.MainnetExitRoot := hashOf x00;
     types.RollupExitRoot := hashOf x00; types.LocalExitRoot := hashOf x03;
     types.AccInputHash := hashOf x05; types.Timestamp := 1700000000;
     types.SendSequencesTxHash := None; types.VerifyBatchTxHash := None;
     types.Closed := closed;
     types.BatchL2Data := [x0b; x00; x00; x00; x00; x00; x00; x00; x00] |}.

End fixtures.


(** ** Definitions for the further properties *)

Module extras.

Import sequencer.

(** Every component of a budget fits its field: 64 bits for the bytes and
    the gas, 32 bits for the other counters. *)
Definition resources_in_range (r : state.BatchResources) : Prop :=
  let z := state.RZKCounters r in
  in_range 64 (state.Bytes r)
  /\ in_range 64 (state.GasUsed z)
  /\ in_range 32 (state.UsedKeccakHashes z)
  /\ in_range 32 (state.UsedPoseidonHashes z)
  /\ in_range 32 (state.UsedPoseidonPaddings z)
  /\ in_range 32 (state.UsedMemAligns z)
  /\ in_range 32 (state.UsedArithmetics z)
  /\ in_range 32 (state.UsedBinaries z)
  /\ in_range 32 (state.UsedSteps z)
  /\ in_range 32 (state.UsedSha256Hashes_V2 z).

(** The transactions of a decoded batch, block after block. *)
Definition allTransactions (raw : state.BatchRawV2) : list Hash :=
  concat (map state.raw_Transactions (state.Blocks raw)).

(** A collaborator that leaves the pending forced batches, or the whole
    finalizer, as they are. *)
Definition keeps_forced_batches {Store L1Data A : Type} (m : @M Store L1Data A) : Prop :=
  forall w a w1, m w = Returned a w1 -> nextForcedBatches (fin w1) = nextForcedBatches (fin w).

Definition keeps_finalizer {Store L1Data A : Type} (m : @M Store L1Data A) : Prop :=
  forall w a w1, m w = Returned a w1 -> fin w1 = fin w.

(** The store of the fixtures: it holds batch 7, its executor confirms the
    state root 02..02, and the L2 data of batch 7 decodes to one
    transaction. *)
Definition storeOk : @stateInterface unit unit unit :=
  fixtures.stubState (Ok [fixtures.stateBatch7; fixtures.stateBatch6])
    (Ok (fixtures.answerWith (fixtures.hashOf x02) false))
    (Ok fixtures.decodedOneTx).

(** A store that does not find the batch it is asked for. *)
Definition storeWithoutBatch : @stateInterface unit unit unit :=
  {| GetLastNBatches := fun _ _ => Ok [];
     GetBatchByNumber := fun _ _ => Err (ErrExternal "not found");
     GetForkIDByBatchNumber := fun _ _ => 7;
     GetL1InfoTreeDataFromBatchL2Data := fun _ _ => Ok tt;
     ProcessBatchV2 := fun _ _ _ => Err (ErrExternal "executor unavailable");
     DecodeBatchV2 := fun _ => Ok fixtures.decodedOneTx;
     BeginStateTransaction := fun s => (Ok tt, s);
     OpenWIPBatch := fun _ _ s => (None, s);
     CloseWIPBatch := fun _ _ s => (None, s);
     Commit := fun _ s => (None, s);
     Rollback := fun _ s => (None, s) |}.

(** A store whose [CloseWIPBatch] fails, and whose rollback fails too. *)
Definition storeThatCannotClose : @stateInterface unit unit unit :=
  {| GetLastNBatches := fun _ _ => Ok [];
     GetBatchByNumber := fun _ _ => Ok fixtures.stateBatch7;
     GetForkIDByBatchNumber := fun _ _ => 7;
     GetL1InfoTreeDataFromBatchL2Data := fun _ _ => Ok tt;
     ProcessBatchV2 := fun _ _ _ => Err (ErrExternal "executor unavailable");
     DecodeBatchV2 := fun _ => Ok fixtures.decodedOneTx;
     BeginStateTransaction := fun s => (Ok tt, s);
     OpenWIPBatch := fun _ _ s => (None, s);
     CloseWIPBatch := fun _ _ s => (Some (ErrExternal "batch is not open"), s);
     Commit := fun _ s => (None, s);
     Rollback := fun _ s => (Some (ErrExternal "connection lost"), s) |}.


(** *** The processor of trusted batches *)

(** The process data [ProcessTrustedBatch] hands to [FullProcess] for the
    trusted batch [t] after the batch [prev]. *)
Definition fullProcessData (now : Z) (t : types.Batch) (prev : state.Batch)
    (debugPrefix : string) : l2_shared.ProcessData :=
  {| l2_shared.BatchNumber := types.Number t;
     l2_shared.Mode := l2_shared.FullProcessMode;
     l2_shared.OldStateRoot := state.StateRoot prev;
     l2_shared.OldAccInputHash := state.AccInputHash prev;
     l2_shared.BatchMustBeClosed := types.Closed t;
     l2_shared.TrustedBatch := Some t;
     l2_shared.StateBatch := None;
     l2_shared.Now := now;
     l2_shared.Description := "Batch is not on database, so is the first time we process it";
     l2_shared.DebugPrefix := (debugPrefix ++ " mode full:")%string |}.

(** A step that does not change the flag [BatchMustBeClosed] of the process
    data it is given a pointer to. *)
Definition keeps_closing_flag {DB : Type}
    (step : l2_shared.ProcessData -> DB -> @l2_shared.StepResult DB) : Prop :=
  forall d db,
    l2_shared.BatchMustBeClosed (l2_shared.step_data (step d db))
    = l2_shared.BatchMustBeClosed d.

(** The error of [getModeForProcessBatch] for a missing batch. *)
Definition errNilBatch : error :=
  ErrExternal "trustedNodeBatch and statePreviousBatch can't be nil".

(** Steps over a database that is the list of the steps run, latest first.
    Every step executes the batch: it answers with the row of batch 7 and an
    executor response with the state root [root]. *)
Definition executed (root : Hash) : l2_shared.ProcessResponse :=
  {| l2_shared.ProcessBatchResponse := Some (fixtures.answerWith root false);
     l2_shared.ClearCache := false;
     l2_shared.UpdateBatch := Some fixtures.stateBatch7;
     l2_shared.UpdateBatchWithProcessBatchResponse := true |}.

Definition stepsThatExecute (root : Hash) : @l2_shared.SyncTrustedBatchExecutor (list string) :=
  let step (name : string) (d : l2_shared.ProcessData) (db : list string) :=
    {| l2_shared.step_response := Some (executed root);
       l2_shared.step_err := None;
       l2_shared.step_data := d;
       l2_shared.step_db := name :: db |} in
  {| l2_shared.FullProcess := step "full"%string;
     l2_shared.IncrementalProcess := step "incremental"%string;
     l2_shared.ReProcess := step "reprocess"%string;
     l2_shared.NothingProcess := step "nothing"%string |}.

(** Steps that fail, or that answer with neither a response nor an error. *)
Definition stepsThatAnswer (err : option error)
    : @l2_shared.SyncTrustedBatchExecutor (list string) :=
  let step (name : string) (d : l2_shared.ProcessData) (db : list string) :=
    {| l2_shared.step_response := None;
       l2_shared.step_err := err;
       l2_shared.step_data := d;
       l2_shared.step_db := name :: db |} in
  {| l2_shared.FullProcess := step "full"%string;
     l2_shared.IncrementalProcess := step "incremental"%string;
     l2_shared.ReProcess := step "reprocess"%string;
     l2_shared.NothingProcess := step "nothing"%string |}.

(** The cache after batch 6: no current batch, batch 6 as the previous one. *)
Definition cacheAfter6 : l2_shared.TrustedState :=
  {| l2_shared.LastTrustedBatches := [None; Some fixtures.stateBatch6] |}.

(** The cache that holds batch 7 as it is in the state, after batch 6. *)
Definition cacheWith7 : l2_shared.TrustedState :=
  {| l2_shared.LastTrustedBatches := [Some fixtures.stateBatch7; Some fixtures.stateBatch6] |}.

(** An address as the bytes it is made of; injective. *)
Definition addressText (a : Address) : string := hex_EncodeToString a.

(** *** The arguments of the RPC requests *)

(** The number a text denotes in a base, read without any bound on the
    value, after the number [n] read so far. *)
Fixpoint numeral (base : Z) (s : string) (n : Z) : option Z :=
  match s with
  | EmptyString => Some n
  | String c rest =>
      match digitValue c with
      | Some d => if d <? base then numeral base rest (n * base + d) else None
      | None => None
      end
  end.

(** A transfer of 1 wei from 0b..0b to 0c..0c that asks for no gas and for
    the nonce 99. *)
Definition transferArgs : types.TxArgs :=
  {| types.From := Some (repeat x0b 20%nat); types.To := Some (repeat x0c 20%nat);
     types.Gas := Some 0; types.GasPrice := None; types.Value := Some [x01];
     types.Data := None; types.Input := None; types.Nonce := Some 99 |}.

(** Arguments without sender, destination, data and input. *)
Definition creationWithoutData : types.TxArgs :=
  {| types.From := None; types.To := None; types.Gas := None; types.GasPrice := None;
     types.Value := None; types.Data := None; types.Input := None; types.Nonce := None |}.

(** A decoder for the text of [hex_EncodeToString]. *)
Fixpoint hexDecode (s : string) : result error (list byte) :=
  match s with
  | EmptyString => Ok []
  | String _ EmptyString => Err (ErrExternal "odd length hex string")
  | String hi (String lo rest) =>
      match Byte.of_N (16 * hex_value hi + hex_value lo), hexDecode rest with
      | Some b, Ok bs => Ok (b :: bs)
      | _, _ => Err (ErrExternal "invalid byte")
      end
  end.

End extras.

(** * Properties *)

Import sequencer claims.

(** ** Machine arithmetic *)

Lemma wrap_small (w x : Z) : 0 <= x < 2 ^ w -> wrap w x = x.
Proof. intros Hx. unfold wrap. apply Z.mod_small. exact Hx. Qed.

Lemma wrap_in_range (w x : Z) : 0 <= w -> in_range w (wrap w x).
Proof.
  intros Hw. unfold in_range, wrap. apply Z.mod_pos_bound.
  apply Z.pow_pos_nonneg; lia.
Qed.

(** Reducing [x] modulo [m] before dividing by 100 loses at least
    [m / 100] when [x] has reached [m]. *)
Lemma quotient_after_wrap_smaller (m x : Z) :
  100 <= m -> m <= x -> (x mod m) / 100 < x / 100.
Proof.
  intros Hm Hx.
  assert (Hmod : 0 <= x mod m < m) by (apply Z.mod_pos_bound; lia).
  assert (Hdiv : x = m * (x / m) + x mod m) by (apply Z.div_mod; lia).
  assert (Hq : 1 <= x / m) by (apply Z.div_le_lower_bound; lia).
  assert (Hle : x mod m + 100 <= x) by nia.
  apply Z.lt_le_trans with ((x mod m + 1 * 100) / 100).
  - rewrite Z.div_add by lia. lia.
  - apply Z.div_le_mono; lia.
Qed.

(** ** Resource budget *)

Lemma at_most_sub (w x m : Z) : at_most w x m -> wrap w (m - x) + x = m.
Proof.
  intros [Hx Hm]. rewrite wrap_small; lia.
Qed.

(** C7. For every constraints value and every remaining budget that is
    component-wise at most the maxima of the constraints, the used budget
    [getUsedBatchResources constraints remaining] plus the remaining budget is
    the full budget [getMaxRemainingResources constraints], for the nine zk
    counters and for the bytes. *)
Theorem used_plus_remaining_is_max
    (constraints : state.BatchConstraintsCfg) (remaining : state.BatchResources) :
  remaining_at_most constraints remaining ->
  resources_plus (getUsedBatchResources constraints remaining) remaining
  = getMaxRemainingResources constraints.
Proof.
  intros H. unfold remaining_at_most in H.
  destruct H as (Hb & Hg & Hk & Hph & Hpp & Hm & Ha & Hbi & Hs & Hsh).
  unfold resources_plus, getUsedBatchResources, getMaxRemainingResources,
    uint64_sub, uint32_sub. cbn [state.RZKCounters state.Bytes state.GasUsed
    state.UsedKeccakHashes state.UsedPoseidonHashes state.UsedPoseidonPaddings
    state.UsedMemAligns state.UsedArithmetics state.UsedBinaries state.UsedSteps
    state.UsedSha256Hashes_V2].
  rewrite (at_most_sub _ _ _ Hb), (at_most_sub _ _ _ Hg), (at_most_sub _ _ _ Hk),
    (at_most_sub _ _ _ Hph), (at_most_sub _ _ _ Hpp), (at_most_sub _ _ _ Hm),
    (at_most_sub _ _ _ Ha), (at_most_sub _ _ _ Hbi), (at_most_sub _ _ _ Hs),
    (at_most_sub _ _ _ Hsh).
  reflexivity.
Qed.

Lemma used_plus_remaining_is_max_witness :
  resources_plus
    (getUsedBatchResources fixtures.constraints1000 fixtures.noPoseidonHashesLeft)
    fixtures.noPoseidonHashesLeft
  = getMaxRemainingResources fixtures.constraints1000.
Proof.
  apply (used_plus_remaining_is_max fixtures.constraints1000 fixtures.noPoseidonHashesLeft).
  unfold remaining_at_most, at_most. simpl. lia.
Defined.

(** C8. The two threshold functions compute input * percentage / 100 with the
    product reduced modulo 2^32 and 2^64. Whenever the product reaches 2^32
    (2^64 for the wide one) the returned threshold is strictly smaller than the
    exact quotient; a product below the modulus gives the exact quotient. *)
Theorem getConstraintThreshold_wraps_around (f : finalizer) (input : Z) :
  let pct := ResourcePercentageToCloseBatch (cfg f) in
  (getConstraintThresholdUint32 f input = ((input * pct) mod 2 ^ 32) / 100
   /\ getConstraintThresholdUint64 f input = ((input * pct) mod 2 ^ 64) / 100)
  /\ (2 ^ 32 <= input * pct ->
      getConstraintThresholdUint32 f input < input * pct / 100)
  /\ (2 ^ 64 <= input * pct ->
      getConstraintThresholdUint64 f input < input * pct / 100)
  /\ (0 <= input * pct < 2 ^ 32 ->
      getConstraintThresholdUint32 f input = input * pct / 100)
  /\ (0 <= input * pct < 2 ^ 64 ->
      getConstraintThresholdUint64 f input = input * pct / 100).
Proof.
  intros pct.
  unfold getConstraintThresholdUint32, getConstraintThresholdUint64,
    uint_div, uint32_mul, uint64_mul, wrap. fold pct.
  repeat split.
  - intros H. apply quotient_after_wrap_smaller; lia.
  - intros H. apply quotient_after_wrap_smaller; lia.
  - intros H. rewrite Z.mod_small by lia. reflexivity.
  - intros H. rewrite Z.mod_small by lia. reflexivity.
Qed.

(** At 10 percent the maximum 2^31 gives the threshold 0, not 214748364. *)
Lemma getConstraintThreshold_wraps_around_witness :
  getConstraintThresholdUint32 (fixtures.finalizer7 false (fixtures.resources 500)) (2 ^ 31)
  < 2 ^ 31 * 10 / 100.
Proof.
  apply (getConstraintThreshold_wraps_around
           (fixtures.finalizer7 false (fixtures.resources 500)) (2 ^ 31)).
  simpl. lia.
Defined.

(** ** Closing-reason classifier *)








(** ** The last state root *)

(** C9. When [GetLastNBatches] succeeds: with an empty list
    [getLastStateRoot] returns the zero hash and no error, with exactly one
    batch that batch's state root, and with two batches the state root of the
    older, second one. *)
Theorem getLastStateRoot_by_count {Store DbTx L1Data : Type}
    {SI : @stateInterface Store DbTx L1Data} (s : Store) (batches : list state.Batch) :
  GetLastNBatches s 2 = Ok batches ->
  (batches = [] -> getLastStateRoot s = Ok state.ZeroHash)
  /\ (forall b, batches = [b] -> getLastStateRoot s = Ok (state.StateRoot b))
  /\ (forall b0 b1, batches = [b0; b1] -> getLastStateRoot s = Ok (state.StateRoot b1)).
Proof.
  intros Hlast. unfold getLastStateRoot. rewrite Hlast.
  split; [|split].
  - intros ->. reflexivity.
  - intros b ->. reflexivity.
  - intros b0 b1 ->. reflexivity.
Qed.

Lemma getLastStateRoot_by_count_witness :
  getLastStateRoot
    (SI := fixtures.stubState (Ok [fixtures.stateBatch7; fixtures.stateBatch6])
            (Ok (fixtures.answerWith (fixtures.hashOf x02) false))
            (Ok fixtures.decodedOneTx))
    tt
  = Ok (fixtures.hashOf x01).
Proof.
  destruct (getLastStateRoot_by_count
              (SI := fixtures.stubState (Ok [fixtures.stateBatch7; fixtures.stateBatch6])
                       (Ok (fixtures.answerWith (fixtures.hashOf x02) false))
                       (Ok fixtures.decodedOneTx))
              tt [fixtures.stateBatch7; fixtures.stateBatch6] eq_refl)
    as (_ & _ & Htwo).
  exact (Htwo fixtures.stateBatch7 fixtures.stateBatch6 eq_refl).
Defined.

(** ** The cache of the last two trusted batches *)

(** C10. For every response whose [UpdateBatch] is nil, [updateCache] leaves
    slot 0 nil, also when [UpdateBatchWithProcessBatchResponse] is true: the
    overwrites from the executor response are applied to the batch of
    [UpdateBatch] only. For every closed batch the result has slot 0 nil and
    slot 1 holds what slot 0 held before the move. *)
Theorem updateCache_slots (status : l2_shared.TrustedState) :
  (forall (r : l2_shared.ProcessResponse) (closedBatch : bool),
      l2_shared.UpdateBatch r = None ->
      l2_shared.LastTrustedBatches (l2_shared.updateCache status (Some r) closedBatch)
      = [None; None])
  /\ (forall (response : option l2_shared.ProcessResponse),
         l2_shared.LastTrustedBatches (l2_shared.updateCache status response true)
         = [None; slot0BeforeMove response true])
  /\ (forall (response : option l2_shared.ProcessResponse),
         l2_shared.LastTrustedBatches (l2_shared.updateCache status response false)
         = [slot0BeforeMove response false; None])
  /\ (forall (r : l2_shared.ProcessResponse) (b : state.Batch)
             (p : state.ProcessBatchResponse) (closedBatch : bool),
         l2_shared.ClearCache r = false ->
         l2_shared.UpdateBatch r = Some b ->
         l2_shared.ProcessBatchResponse r = Some p ->
         l2_shared.UpdateBatchWithProcessBatchResponse r = true ->
         slot0BeforeMove (Some r) closedBatch
         = Some (l2_shared.overwriteFromResponse p closedBatch b)).
Proof.
  repeat split.
  - intros r closedBatch Hnil. unfold l2_shared.updateCache. rewrite Hnil.
    destruct (l2_shared.ClearCache r); [reflexivity|].
    destruct (l2_shared.ProcessBatchResponse r), closedBatch; reflexivity.
  - intros [r|]; [|reflexivity].
    unfold l2_shared.updateCache, slot0BeforeMove.
    destruct (l2_shared.ClearCache r); [reflexivity|].
    destruct (l2_shared.UpdateBatch r) as [b|];
      destruct (l2_shared.ProcessBatchResponse r) as [p|];
      try destruct (l2_shared.UpdateBatchWithProcessBatchResponse r); reflexivity.
  - intros [r|]; [|reflexivity].
    unfold l2_shared.updateCache, slot0BeforeMove.
    destruct (l2_shared.ClearCache r); [reflexivity|].
    destruct (l2_shared.UpdateBatch r) as [b|];
      destruct (l2_shared.ProcessBatchResponse r) as [p|];
      try destruct (l2_shared.UpdateBatchWithProcessBatchResponse r); reflexivity.
  - intros r b p closedBatch Hclear Hupd Hresp Hflag.
    unfold slot0BeforeMove. rewrite Hclear, Hupd, Hresp, Hflag. reflexivity.
Qed.

(** A response without [UpdateBatch] that asks for the overwrite from the
    executor response, for a closed batch. *)
Lemma updateCache_slots_witness :
  l2_shared.LastTrustedBatches
    (l2_shared.updateCache
       {| l2_shared.LastTrustedBatches := [Some fixtures.stateBatch7; Some fixtures.stateBatch6] |}
       (Some {| l2_shared.ProcessBatchResponse :=
                  Some (fixtures.answerWith (fixtures.hashOf x02) false);
                l2_shared.ClearCache := false;
                l2_shared.UpdateBatch := None;
                l2_shared.UpdateBatchWithProcessBatchResponse := true |})
       true)
  = [None; None].
Proof.
  destruct (updateCache_slots
              {| l2_shared.LastTrustedBatches :=
                   [Some fixtures.stateBatch7; Some fixtures.stateBatch6] |})
    as (Hnil & _).
  apply Hnil. reflexivity.
Defined.

(** ** Trusted-batch sync classifier *)

Lemma hex_digits_decode (b : byte) :
  Byte.of_N (16 * hex_value (hex_digit (N.div (Byte.to_N b) 16))
             + hex_value (hex_digit (N.modulo (Byte.to_N b) 16)))%N
  = Some b.
Proof. destruct b; vm_compute; reflexivity. Qed.

Lemma hex_EncodeToString_inj (x y : list byte) :
  hex_EncodeToString x = hex_EncodeToString y -> x = y.
Proof.
  revert y. induction x as [|a x IH]; intros [|b y] Heq; simpl in Heq;
    try discriminate.
  - reflexivity.
  - injection Heq as Hhi Hlo Hrest.
    pose proof (hex_digits_decode a) as Ha.
    pose proof (hex_digits_decode b) as Hb.
    rewrite Hhi, Hlo in Ha. rewrite Ha in Hb. injection Hb as ->.
    f_equal. apply IH. exact Hrest.
Qed.

Lemma Hash_String_inj (x y : Hash) : Hash_String x = Hash_String y -> x = y.
Proof.
  unfold Hash_String. intros Heq. injection Heq as Heq.
  apply hex_EncodeToString_inj. exact Heq.
Qed.

Lemma Hash_String_eqb (x y : Hash) :
  String.eqb (Hash_String x) (Hash_String y) = true <-> x = y.
Proof.
  rewrite String.eqb_eq. split; [apply Hash_String_inj|intros ->; reflexivity].
Qed.

Section ClassifierProperties.

Variable Address_String : Address -> string.
Variable timeProvider_Now : Z.
Hypothesis Address_String_inj : forall a b, Address_String a = Address_String b -> a = b.

Lemma checkIfSyncedWhitoutWIP_fst (b : state.Batch) (t : types.Batch) :
  fst (l2_shared.checkIfSyncedWhitoutWIP Address_String (Some b) (Some t)) = true
  <-> state.BatchNumber b = types.Number t
      /\ state.GlobalExitRoot b = types.GlobalExitRoot t
      /\ state.LocalExitRoot b = types.LocalExitRoot t
      /\ state.StateRoot b = types.StateRoot t
      /\ state.Coinbase b = types.Coinbase t
      /\ state.BatchL2Data b = types.BatchL2Data t.
Proof.
  unfold l2_shared.checkIfSyncedWhitoutWIP.
  match goal with
  | |- fst (if ?c then _ else _) = true <-> _ =>
      assert (Hfst : forall x y : string, fst (if c then (true, x) else (false, y)) = c)
        by (intros; destruct c; reflexivity);
      rewrite Hfst; clear Hfst
  end.
  rewrite !andb_true_iff, Z.eqb_eq, !Hash_String_eqb, !String.eqb_eq.
  split.
  - intros ((((((Hn & Hg) & Hl) & Hs) & Hc) & _) & Hd).
    apply Address_String_inj in Hc. apply hex_EncodeToString_inj in Hd. tauto.
  - intros (Hn & Hg & Hl & Hs & Hc & Hd). rewrite Hc, Hd. tauto.
Qed.

(** [checkIfSynced] answers true exactly for equal rows. *)
Lemma checkIfSynced_rowsEqual (b : state.Batch) (t : types.Batch) :
  fst (l2_shared.checkIfSynced Address_String b t) = true <-> rowsEqual b t.
Proof.
  unfold rowsEqual.
  pose proof (checkIfSyncedWhitoutWIP_fst b t) as Hw.
  unfold l2_shared.checkIfSynced.
  destruct (l2_shared.checkIfSyncedWhitoutWIP Address_String (Some b) (Some t))
    as [ok str].
  cbn [fst] in Hw.
  destruct (state.WIP b), (types.Closed t); cbn [negb Bool.eqb fst];
    rewrite ?Hw; intuition congruence.
Qed.

#[local] Arguments state.ZeroHash : simpl never.

Ltac table_row :=
  intros; simplify_eq; try tauto; try (split; reflexivity); try (exfalso; eauto).

Ltac closed_row :=
  cbn; split;
  [ let H := fresh in
    intros H; first [discriminate H | split; [discriminate | exact H]]
  | let Hm := fresh in
    let Hc := fresh in
    intros [Hm Hc]; first [exact Hc | exfalso; apply Hm; reflexivity] ].

(** C4, as the code has it. For every trusted batch and every cache state
    with a previous batch, [getModeForProcessBatch] returns no error and
    chooses the mode by the four rows: no state batch, Full with the state
    root of the previous batch; state batch equal to the trusted batch,
    Nothing with the zero hash; unequal with a state root that is not zero,
    Incremental with the state root of the state batch; unequal with a zero
    state root, Reprocess with the state root of the previous batch. In every
    row BatchMustBeClosed = (mode is not Nothing) and trusted.closed. Without
    a trusted batch or without a previous batch it returns an error. *)
Theorem getModeForProcessBatch_table
    (trusted : types.Batch) (stateBatch : option state.Batch) (previous : state.Batch) :
  (exists pd : l2_shared.ProcessData,
      l2_shared.getModeForProcessBatch Address_String timeProvider_Now
        (Some trusted) stateBatch (Some previous) = (pd, None)
      /\ (stateBatch = None ->
          l2_shared.Mode pd = l2_shared.FullProcessMode
          /\ l2_shared.OldStateRoot pd = state.StateRoot previous)
      /\ (forall b, stateBatch = Some b -> rowsEqual b trusted ->
          l2_shared.Mode pd = l2_shared.NothingProcessMode
          /\ l2_shared.OldStateRoot pd = state.ZeroHash)
      /\ (forall b, stateBatch = Some b -> ~ rowsEqual b trusted ->
          state.StateRoot b <> state.ZeroHash ->
          l2_shared.Mode pd = l2_shared.IncrementalProcessMode
          /\ l2_shared.OldStateRoot pd = state.StateRoot b)
      /\ (forall b, stateBatch = Some b -> ~ rowsEqual b trusted ->
          state.StateRoot b = state.ZeroHash ->
          l2_shared.Mode pd = l2_shared.ReprocessProcessMode
          /\ l2_shared.OldStateRoot pd = state.StateRoot previous)
      /\ (l2_shared.BatchMustBeClosed pd = true
          <-> l2_shared.Mode pd <> l2_shared.NothingProcessMode
              /\ types.Closed trusted = true))
  /\ (forall sb prev,
         snd (l2_shared.getModeForProcessBatch Address_String timeProvider_Now
                None sb prev) <> None)
  /\ (forall t sb,
         snd (l2_shared.getModeForProcessBatch Address_String timeProvider_Now
                t sb None) <> None).
Proof.
  split; [|split; [intros sb [prev|]; cbn; discriminate
                  |intros [t|] sb; cbn; discriminate]].
  unfold l2_shared.getModeForProcessBatch.
  destruct stateBatch as [b|].
  - pose proof (checkIfSynced_rowsEqual b trusted) as Hsync.
    destruct (l2_shared.checkIfSynced Address_String b trusted) as [synced strSync].
    cbn [fst] in Hsync.
    destruct synced.
    + assert (Heq : rowsEqual b trusted) by (apply Hsync; reflexivity).
      cbn. eexists. split; [reflexivity|]. cbn.
      refine (conj _ (conj _ (conj _ (conj _ _)))); [table_row..|closed_row].
    + assert (Hne : ~ rowsEqual b trusted)
        by (intros Heq; apply Hsync in Heq; discriminate).
      destruct (bool_decide (state.StateRoot b <> state.ZeroHash)) eqn:Hroot;
        [apply bool_decide_eq_true in Hroot | apply bool_decide_eq_false in Hroot];
        cbn; (eexists; split; [reflexivity|]); cbn;
        (refine (conj _ (conj _ (conj _ (conj _ _)))); [table_row..|closed_row]).
  - cbn. eexists. split; [reflexivity|]. cbn.
    refine (conj _ (conj _ (conj _ (conj _ _)))); [table_row..|closed_row].
Qed.

End ClassifierProperties.

(** A closed trusted batch 7 that is not in the store yet, after batch 6. *)
Lemma getModeForProcessBatch_table_witness :
  exists pd : l2_shared.ProcessData,
    l2_shared.getModeForProcessBatch Hash_String 1700000200
      (Some (fixtures.trustedBatch7 true)) None (Some fixtures.stateBatch6) = (pd, None)
    /\ l2_shared.Mode pd = l2_shared.FullProcessMode
    /\ l2_shared.OldStateRoot pd = fixtures.hashOf x01.
Proof.
  destruct (getModeForProcessBatch_table Hash_String 1700000200 Hash_String_inj
              (fixtures.trustedBatch7 true) None fixtures.stateBatch6)
    as [(pd & Hrun & Hfull & _) _].
  exists pd. split; [exact Hrun|]. apply Hfull. reflexivity.
Defined.

(** C4, as it is stated, fails: a cache without a previous batch is a cache
    state, and there a trusted batch with no state batch is not classified as
    Full; an error is returned. *)
Lemma getModeForProcessBatch_without_previous :
  l2_shared.Mode
    (fst (l2_shared.getModeForProcessBatch Hash_String 1700000200
            (Some (fixtures.trustedBatch7 true)) None None))
  <> l2_shared.FullProcessMode
  /\ snd (l2_shared.getModeForProcessBatch Hash_String 1700000200
            (Some (fixtures.trustedBatch7 true)) None None)
     = Some (ErrExternal "trustedNodeBatch and statePreviousBatch can't be nil").
Proof.
  split.
  - cbn. discriminate.
  - reflexivity.
Qed.

(** ** Sanity reprocess *)

Section SanityReprocess.

Context {Store DbTx L1Data : Type}.
Context {SI : @stateInterface Store DbTx L1Data} {CO : @collaborators Store L1Data}.

Implicit Types w : @World Store L1Data.

Lemma extend_nil w : extend w [] = w.
Proof. destruct w. unfold extend. cbn. rewrite app_nil_r. reflexivity. Qed.

Lemma extend_extend w (a b : list (@Effect L1Data)) :
  extend (extend w a) b = extend w (a ++ b).
Proof. unfold extend. cbn. rewrite app_assoc. reflexivity. Qed.

Lemma bind_log {A} (lvl : LogLevel) (msg : string) (k : M A) w :
  bind (log lvl msg) (fun _ => k) w = k (extend w [ELog lvl msg]).
Proof. reflexivity. Qed.

Lemma bind_emit {A} (e : @Effect L1Data) (k : M A) w :
  bind (emit e) (fun _ => k) w = k (extend w [e]).
Proof. reflexivity. Qed.

Lemma bind_ret {A B} (a : A) (k : A -> M B) w : bind (ret a) k w = k a w.
Proof. reflexivity. Qed.

Lemma bind_get_fin {A} (k : finalizer -> M A) w : bind get_fin k w = k (fin w) w.
Proof. reflexivity. Qed.

Lemma bind_read_store {A B} (q : Store -> A) (k : A -> M B) w :
  bind (read_store q) k w = k (q (store w)) w.
Proof. reflexivity. Qed.

Lemma tx_logs_run (msg : string) (rest : M unit) (txs : list Hash) w :
  exists logs,
    Forall isLog logs
    /\ fold_right (fun (rawTx : Hash) (rest' : M unit) =>
                     bind (log Info msg) (fun _ => rest')) rest txs w
       = rest (extend w logs).
Proof.
  revert w. induction txs as [|tx txs IH]; intros w; cbn [fold_right].
  - exists []. split; [constructor|]. rewrite extend_nil. reflexivity.
  - destruct (IH (extend w [ELog Info msg])) as (logs & Hlogs & Hrun).
    exists (ELog Info msg :: logs). split; [constructor; [exact I|exact Hlogs]|].
    rewrite bind_log, Hrun, extend_extend. reflexivity.
Qed.

Lemma block_logs_run (msg : string) (blocks : list state.L2BlockRaw) w :
  exists logs,
    Forall isLog logs
    /\ fold_right
         (fun (rawL2block : state.L2BlockRaw) (rest : M unit) =>
            fold_right (fun (rawTx : Hash) (rest' : M unit) =>
                          bind (log Info msg) (fun _ => rest'))
              rest (state.raw_Transactions rawL2block))
         (ret tt) blocks w
       = Returned tt (extend w logs).
Proof.
  revert w. induction blocks as [|blk blocks IH]; intros w; cbn [fold_right].
  - exists []. split; [constructor|]. rewrite extend_nil. reflexivity.
  - destruct (tx_logs_run msg
                (fold_right
                   (fun (rawL2block : state.L2BlockRaw) (rest : M unit) =>
                      fold_right (fun (rawTx : Hash) (rest' : M unit) =>
                                    bind (log Info msg) (fun _ => rest'))
                        rest (state.raw_Transactions rawL2block))
                   (ret tt) blocks)
                (state.raw_Transactions blk) w) as (logs1 & Hlogs1 & Hrun1).
    destruct (IH (extend w logs1)) as (logs2 & Hlogs2 & Hrun2).
    exists (logs1 ++ logs2). split; [apply Forall_app; split; assumption|].
    rewrite Hrun1, Hrun2, extend_extend. reflexivity.
Qed.

(** With L2 data that decodes, [reprocessError] ends in [Halt]. *)
Lemma reprocessError_halts (batch : state.Batch) (raw : state.BatchRawV2) w :
  DecodeBatchV2 (state.BatchL2Data batch) = Ok raw ->
  exists logs,
    Forall isLog logs
    /\ reprocessError (Some batch) w = Halted (extend w (logs ++ [EHalt sanityCheckHalt])).
Proof.
  intros Hdec. unfold reprocessError. rewrite Hdec.
  match goal with
  | |- context [fold_right _ (ret tt) (state.Blocks raw)] =>
      destruct (block_logs_run
                  "[reprocessFullBatch] BatchNumber: %d, block position: % d, tx position %d, tx hash: %s"
                  (state.Blocks raw)
                  (extend w [ELog Info "[reprocessFullBatch] BatchNumber: %d, InitialStateRoot: %s, ExpectedNewStateRoot: %s"]))
        as (logs & Hlogs & Hrun)
  end.
  exists (ELog Info "[reprocessFullBatch] BatchNumber: %d, InitialStateRoot: %s, ExpectedNewStateRoot: %s" :: logs).
  split; [constructor; [exact I|exact Hlogs]|].
  rewrite bind_log. unfold bind at 1. rewrite Hrun. unfold Halt.
  unfold extend. cbn. rewrite <- !app_assoc. reflexivity.
Qed.

(** With L2 data that does not decode, [reprocessError] logs and returns. *)
Lemma reprocessError_returns (batch : state.Batch) (err : error) w :
  DecodeBatchV2 (state.BatchL2Data batch) = Err err ->
  reprocessError (Some batch) w
  = Returned tt
      (extend w [ELog Error "[reprocessFullBatch] error decoding BatchL2Data for batch %d. Error: %s"]).
Proof. intros Hdec. unfold reprocessError. rewrite Hdec. reflexivity. Qed.

Ltac halt_branch Hdec :=
  rewrite bind_log; unfold bind at 1;
  match goal with
  | |- context [reprocessError (Some ?b) ?W] =>
      let logs := fresh "logs" in
      let Hl := fresh "Hl" in
      let Hrun := fresh "Hrun" in
      destruct (reprocessError_halts b _ W Hdec) as (logs & Hl & Hrun);
      rewrite Hrun;
      match W with
      | extend (extend _ [?e1]) [?e2] => exists (e1 :: e2 :: logs)
      end;
      split; [repeat constructor; assumption | rewrite !extend_extend; reflexivity]
  end.

Ltac return_branch Hdec :=
  rewrite bind_log; unfold bind at 1;
  rewrite (reprocessError_returns _ _ _ Hdec);
  unfold ret; rewrite !extend_extend;
  eexists; split; [reflexivity|]; cbn [app];
  split; [repeat constructor; intros []|];
  split; [intros _; repeat constructor|];
  let Hc := fresh in intros ? Hc; discriminate Hc.

Section AfterTheAnswer.

Variables (batchNum : Z) (initialStateRoot expectedNewStateRoot : Hash).
Variable w : @World Store L1Data.
Variables (batch : state.Batch) (l1data : L1Data).

Hypothesis batch_found : GetBatchByNumber (store w) batchNum = Ok batch.
Hypothesis l1data_found :
  GetL1InfoTreeDataFromBatchL2Data (store w) (state.BatchL2Data batch) = Ok l1data.

Let req : ProcessRequest :=
  executorBatchRequest (store w) (fin w) batch initialStateRoot l1data.

(** A failure of any of the four classes on a batch whose L2 data decodes
    ends inside [Halt]: nothing is returned and no event is emitted. *)
Lemma reprocessFullBatch_failure_halts (c : failureClass) (raw : state.BatchRawV2) :
  classOf (ProcessBatchV2 (store w) req false) expectedNewStateRoot = Some c ->
  DecodeBatchV2 (state.BatchL2Data batch) = Ok raw ->
  exists logs,
    Forall isLog logs
    /\ reprocessFullBatch batchNum initialStateRoot expectedNewStateRoot w
       = Halted (extend w (logs ++ [EHalt sanityCheckHalt])).
Proof.
  intros Hclass Hdec. unfold reprocessFullBatch.
  rewrite bind_log, bind_get_fin, bind_read_store. cbn [store fin extend].
  rewrite batch_found, bind_read_store. cbn [store fin extend].
  rewrite l1data_found, !bind_read_store. cbn [store fin extend]. fold req.
  unfold classOf in Hclass.
  destruct (ProcessBatchV2 (store w) req false) as [result|err].
  - destruct (bool_decide (state.ExecutorError result <> None)); [halt_branch Hdec|].
    destruct (state.IsRomOOCError result); [halt_branch Hdec|].
    destruct (bool_decide (state.NewStateRoot result <> expectedNewStateRoot));
      [halt_branch Hdec|discriminate Hclass].
  - halt_branch Hdec.
Qed.

(** A failure on a batch whose L2 data does not decode is logged and the
    error kind of its class is returned, without [Halt]. Out of counters
    with a request that serializes emits one event in between. *)
Lemma reprocessFullBatch_failure_returns (c : failureClass) (err : error) :
  classOf (ProcessBatchV2 (store w) req false) expectedNewStateRoot = Some c ->
  DecodeBatchV2 (state.BatchL2Data batch) = Err err ->
  exists effects,
    reprocessFullBatch batchNum initialStateRoot expectedNewStateRoot w
    = Returned (Err (errorKind c)) (extend w effects)
    /\ Forall (fun e => ~ isHalt e) effects
    /\ (c <> OutOfCountersError -> Forall isLog effects)
    /\ (forall payload, c = OutOfCountersError -> json_Marshal req = Ok payload ->
        exists pre post,
          effects = pre ++ ELogEvent (oocEvent payload req) :: post
          /\ Forall isLog pre /\ Forall isLog post).
Proof.
  intros Hclass Hdec. unfold reprocessFullBatch.
  rewrite bind_log, bind_get_fin, bind_read_store. cbn [store fin extend].
  rewrite batch_found, bind_read_store. cbn [store fin extend].
  rewrite l1data_found, !bind_read_store. cbn [store fin extend]. fold req.
  unfold classOf in Hclass.
  destruct (ProcessBatchV2 (store w) req false) as [result|err'].
  - destruct (bool_decide (state.ExecutorError result <> None)).
    { injection Hclass as <-. return_branch Hdec. }
    destruct (state.IsRomOOCError result).
    { injection Hclass as <-.
      rewrite bind_log. unfold bind at 1.
      rewrite (reprocessError_returns batch err _ Hdec).
      destruct (json_Marshal req) as [payload|merr];
        [destruct (eventLog_LogEvent (oocEvent payload req)) as [lerr|]|];
        unfold bind, log, emit, ret, extend; cbn [fin store trace];
        rewrite <- !app_assoc; cbn [app];
        (eexists; split; [reflexivity|]);
        (split; [repeat constructor; intros []|]);
        (split; [intros Hc; contradiction Hc; reflexivity|]);
        intros payload' _ Hp; try discriminate Hp; injection Hp as <-.
      - eexists [_; _; _], [_]. split; [reflexivity|]. split; repeat constructor.
      - eexists [_; _; _], []. split; [reflexivity|]. split; repeat constructor. }
    destruct (bool_decide (state.NewStateRoot result <> expectedNewStateRoot));
      [|discriminate Hclass].
    injection Hclass as <-. return_branch Hdec.
  - injection Hclass as <-. return_branch Hdec.
Qed.


End AfterTheAnswer.

End SanityReprocess.

(** C2, as the code has it. With [SequentialReprocessFullBatch] false the
    result of [reprocessFullBatch] is discarded by the goroutine that runs it,
    but [reprocessFullBatch] itself, through [reprocessError], calls [Halt] on
    each of the four failures (invocation error, executor-reported error,
    out-of-counters, state-root mismatch) whenever the L2 data of the batch
    decodes. Only when the L2 data does not decode is the failure just logged
    and the error returned, without [Halt]. *)
Theorem async_reprocess_failure_halts_when_decoded {Store DbTx L1Data : Type}
    {SI : @stateInterface Store DbTx L1Data} {CO : @collaborators Store L1Data}
    (w : @World Store L1Data) (batchNum : Z) (initialStateRoot expectedNewStateRoot : Hash)
    (batch : state.Batch) (l1data : L1Data) (c : failureClass) :
  SequentialReprocessFullBatch (cfg (fin w)) = false ->
  GetBatchByNumber (store w) batchNum = Ok batch ->
  GetL1InfoTreeDataFromBatchL2Data (store w) (state.BatchL2Data batch) = Ok l1data ->
  classOf
    (ProcessBatchV2 (store w)
       (executorBatchRequest (store w) (fin w) batch initialStateRoot l1data) false)
    expectedNewStateRoot = Some c ->
  (forall raw, DecodeBatchV2 (state.BatchL2Data batch) = Ok raw ->
     exists logs,
       Forall isLog logs
       /\ reprocessFullBatch batchNum initialStateRoot expectedNewStateRoot w
          = Halted (extend w (logs ++ [EHalt sanityCheckHalt])))
  /\ (forall err, DecodeBatchV2 (state.BatchL2Data batch) = Err err ->
        exists effects,
          reprocessFullBatch batchNum initialStateRoot expectedNewStateRoot w
          = Returned (Err (errorKind c)) (extend w effects)
          /\ Forall (fun e => ~ isHalt e) effects).
Proof.
  intros _ Hbatch Hl1 Hclass. split.
  - intros raw Hdec.
    exact (reprocessFullBatch_failure_halts batchNum initialStateRoot expectedNewStateRoot
             w batch l1data Hbatch Hl1 c raw Hclass Hdec).
  - intros err Hdec.
    destruct (reprocessFullBatch_failure_returns batchNum initialStateRoot
                expectedNewStateRoot w batch l1data Hbatch Hl1 c err Hclass Hdec)
      as (effects & Hrun & Hnohalt & _).
    exists effects. split; assumption.
Qed.

(** In the parallel mode a state-root mismatch on batch 7, whose L2 data
    decodes to one transaction, ends inside [Halt]. *)
Lemma async_reprocess_failure_halts_when_decoded_witness :
  exists logs : list (@Effect unit),
    Forall isLog logs
    /\ reprocessFullBatch
         (SI := fixtures.stubState (Ok [])
                  (Ok (fixtures.answerWith (fixtures.hashOf x09) false))
                  (Ok fixtures.decodedOneTx))
         (CO := fixtures.stubCollaborators)
         7 (fixtures.hashOf x01) (fixtures.hashOf x02)
         (fixtures.world7 false (fixtures.resources 500))
       = Halted (extend (fixtures.world7 false (fixtures.resources 500))
                   (logs ++ [EHalt sanityCheckHalt])).
Proof.
  destruct (async_reprocess_failure_halts_when_decoded
              (SI := fixtures.stubState (Ok [])
                       (Ok (fixtures.answerWith (fixtures.hashOf x09) false))
                       (Ok fixtures.decodedOneTx))
              (CO := fixtures.stubCollaborators)
              (fixtures.world7 false (fixtures.resources 500))
              7 (fixtures.hashOf x01) (fixtures.hashOf x02)
              fixtures.stateBatch7 tt StateRootMismatch
              eq_refl eq_refl eq_refl eq_refl) as [Hhalts _].
  exact (Hhalts fixtures.decodedOneTx eq_refl).
Defined.

(** C2, as it is stated, fails: the finalizer reprocesses in parallel, the
    executor answers with another state root than the expected one, and the
    run of [reprocessFullBatch] ends with the call of [Halt]. *)
Lemma async_reprocess_mismatch_calls_Halt :
  SequentialReprocessFullBatch (cfg (fin (fixtures.world7 false (fixtures.resources 500))))
  = false
  /\ exists w' : @World unit unit,
       reprocessFullBatch
         (SI := fixtures.stubState (Ok [])
                  (Ok (fixtures.answerWith (fixtures.hashOf x09) false))
                  (Ok fixtures.decodedOneTx))
         (CO := fixtures.stubCollaborators)
         7 (fixtures.hashOf x01) (fixtures.hashOf x02)
         (fixtures.world7 false (fixtures.resources 500))
       = Halted w'
       /\ last (trace w') = Some (EHalt sanityCheckHalt).
Proof.
  split; [reflexivity|].
  eexists. split; reflexivity.
Qed.







(** ** Closing and opening the wip batch *)

(** C1, on the code: batch 7 with 500 of every budget left is closed and
    batch 8 is opened. The batch the method returns, batch 8, has the full
    budget; the overhead of the L2 block has been taken from the budget of
    batch 7, the batch [f.wipBatch] still refers to. Once [finalizeBatch] has
    made batch 8 the wip batch, the overhead is charged nowhere. *)
Theorem closeAndOpenNewWIPBatch_charges_the_closed_batch :
  (exists (batch : Batch) (w' : @World unit unit),
      closeAndOpenNewWIPBatch
        (SI := fixtures.stubState (Ok [])
                 (Ok (fixtures.answerWith (fixtures.hashOf x02) false))
                 (Ok fixtures.decodedOneTx))
        (CO := fixtures.stubCollaborators)
        1 (fixtures.world7 true (fixtures.resources 500))
      = Returned (Ok batch) w'
      /\ batchNumber batch = 8
      /\ remainingResources batch = getMaxRemainingResources fixtures.constraints1000
      /\ state.Sub (getMaxRemainingResources fixtures.constraints1000) fixtures.blockOverhead
         <> Some (remainingResources batch)
      /\ batchNumber (wipBatch (fin w')) = 7
      /\ state.Sub (fixtures.resources 500) fixtures.blockOverhead
         = Some (remainingResources (wipBatch (fin w'))))
  /\ (exists w'' : @World unit unit,
        finalizeBatch
          (SI := fixtures.stubState (Ok [])
                   (Ok (fixtures.answerWith (fixtures.hashOf x02) false))
                   (Ok fixtures.decodedOneTx))
          (CO := fixtures.stubCollaborators)
          1 (fixtures.world7 true (fixtures.resources 500))
        = Returned tt w''
        /\ batchNumber (wipBatch (fin w'')) = 8
        /\ remainingResources (wipBatch (fin w''))
           = getMaxRemainingResources fixtures.constraints1000).
Proof.
  split.
  - eexists _, _. split; [cbv; reflexivity|].
    repeat split; try reflexivity.
    cbv. discriminate.
  - eexists. split; [cbv; reflexivity|]. split; reflexivity.
Qed.

(** A batch that is closed with less left than the overhead of an L2 block
    cannot be closed at all: the subtraction from the closed batch fails and
    [closeAndOpenNewWIPBatch] returns its error. *)
Lemma closeAndOpenNewWIPBatch_fails_on_exhausted_batch :
  exists (err : error) (w' : @World unit unit),
    closeAndOpenNewWIPBatch
      (SI := fixtures.stubState (Ok [])
               (Ok (fixtures.answerWith (fixtures.hashOf x02) false))
               (Ok fixtures.decodedOneTx))
      (CO := fixtures.stubCollaborators)
      1 (fixtures.world7 true (fixtures.resources 5))
    = Returned (Err err) w'.
Proof. eexists _, _. cbv. reflexivity. Qed.

Section ReturnedBatch.

Context {Store DbTx L1Data : Type}.
Context {SI : @stateInterface Store DbTx L1Data} {CO : @collaborators Store L1Data}.

Lemma bind_Returned {A B} (m : M A) (k : A -> M B) (w w' : @World Store L1Data) (b : B) :
  bind m k w = Returned b w' ->
  exists a w1, m w = Returned a w1 /\ k a w1 = Returned b w'.
Proof.
  unfold bind. destruct (m w) as [a w1|w1|w1]; intros Hrun; try discriminate Hrun.
  exists a, w1. split; [reflexivity|exact Hrun].
Qed.

Tactic Notation "inv_bind" hyp(H) "as" simple_intropattern(a) ident(Hm) :=
  let w1 := fresh "w" in
  apply bind_Returned in H as (a & w1 & Hm & H).

(** A batch that [openNewWIPBatch] returns has the full budget. *)
Lemma openNewWIPBatch_full_budget (fuel : nat) (n : Z) (ger stateRoot LER : Hash)
    (w w' : @World Store L1Data) (batch : Batch) :
  openNewWIPBatch fuel n ger stateRoot LER w = Returned (Ok batch) w' ->
  remainingResources batch = getMaxRemainingResources (batchConstraints (fin w'))
  /\ batchNumber batch = n.
Proof.
  unfold openNewWIPBatch, bind, get_fin, on_store, ret. cbn [store fin trace].
  destruct (BeginStateTransaction (store w)) as [[dbTx|e] s1];
    cbv beta iota zeta; cbn [store fin trace]; [|discriminate].
  match goal with
  | |- context [OpenWIPBatch ?b dbTx s1] => destruct (OpenWIPBatch b dbTx s1) as [[e|] s2]
  end; cbv beta iota zeta; cbn [store fin trace].
  - destruct (Rollback dbTx s2) as [[e'|] s3]; discriminate.
  - destruct (Commit dbTx s2) as [[e|] s3]; cbv beta iota zeta; cbn [store fin trace];
      [discriminate|].
    match goal with
    | |- context [waitSynced fuel ?w0] => destruct (waitSynced fuel w0) as [[] w1|w1|w1]
    end; try discriminate.
    intros Hret. injection Hret as <- <-. split; reflexivity.
Qed.

(** Whatever the collaborators do, a batch returned by
    [closeAndOpenNewWIPBatch] has the full budget of the constraints: the
    overhead of the L2 block is not taken from it. *)
Lemma closeAndOpenNewWIPBatch_returns_full_budget (fuel : nat)
    (w w' : @World Store L1Data) (batch : Batch) :
  closeAndOpenNewWIPBatch fuel w = Returned (Ok batch) w' ->
  remainingResources batch = getMaxRemainingResources (batchConstraints (fin w')).
Proof.
  unfold closeAndOpenNewWIPBatch. intros Hrun.
  inv_bind Hrun as f0 Hf0.
  inv_bind Hrun as [] Hfinalize.
  inv_bind Hrun as [] Hwait1.
  inv_bind Hrun as [] Hlog1.
  inv_bind Hrun as [] Hwait2.
  inv_bind Hrun as [] Hlog2.
  inv_bind Hrun as f1 Hf1.
  inv_bind Hrun as [err|] Hprocess; [discriminate Hrun|].
  inv_bind Hrun as f2 Hf2.
  inv_bind Hrun as [err|] Hsanity; [discriminate Hrun|].
  inv_bind Hrun as [err|] Hclose; [discriminate Hrun|].
  inv_bind Hrun as [] Hlog3.
  inv_bind Hrun as f3 Hf3.
  inv_bind Hrun as [lastBatchNumber stateRoot] Hforced.
  inv_bind Hrun as f4 Hf4.
  cbv zeta in Hrun.
  inv_bind Hrun as [opened|err] Hopen; [|discriminate Hrun].
  inv_bind Hrun as f5 Hf5.
  unfold get_fin in Hf5. injection Hf5 as <- <-.
  apply openNewWIPBatch_full_budget in Hopen as [Hbudget _].
  destruct (state.Sub _ _) as [remaining|]; [|discriminate Hrun].
  unfold bind, put_fin, ret in Hrun. injection Hrun as <- <-.
  exact Hbudget.
Qed.

End ReturnedBatch.

(** * Further properties of the code *)

Import extras.

(** ** The wip batch: transaction count, close, open, adopt *)

Tactic Notation "invert_bind" hyp(H) "as" simple_intropattern(a) ident(Hm) :=
  let w1 := fresh "w" in
  apply bind_Returned in H as (a & w1 & Hm & H).

Section WipBatchLife.

Context {Store DbTx L1Data : Type}.
Context {SI : @stateInterface Store DbTx L1Data} {CO : @collaborators Store L1Data}.

Implicit Types w : @World Store L1Data.


Lemma closeWIPBatch_keeps_finalizer : keeps_finalizer closeWIPBatch.
Proof.
  intros w e w'.
  unfold closeWIPBatch, bind, get_fin, on_store, log, emit, ret. cbn [fin store trace].
  destruct (BeginStateTransaction (store w)) as [[dbTx|berr] s1]; cbn [fin store trace].
  - match goal with
    | |- context [CloseWIPBatch ?r dbTx s1] =>
        destruct (CloseWIPBatch r dbTx s1) as [[cerr|] s2]
    end; cbn [fin store trace].
    + destruct (Rollback dbTx s2) as [[rerr|] s3]; cbn [fin store trace];
        intros H; injection H as _ <-; reflexivity.
    + destruct (Commit dbTx s2) as [[merr|] s3]; cbn [fin store trace];
        intros H; injection H as _ <-; reflexivity.
  - intros H. injection H as _ <-. reflexivity.
Qed.

(** X2. [closeWIPBatch] hands the state the number of the wip batch, its used
    resources [getUsedBatchResources constraints remaining] and its closing
    reason. It returns the error of [BeginStateTransaction]; after a failure of
    [CloseWIPBatch] it rolls back and returns the error of [CloseWIPBatch],
    whatever the rollback answers; otherwise it returns what [Commit] returns.
    It never changes the finalizer and never ends in [Halt]. *)
Theorem closeWIPBatch_outcome w :
  let receipt :=
    {| state.receipt_BatchNumber := batchNumber (wipBatch (fin w));
       state.receipt_BatchResources :=
         getUsedBatchResources (batchConstraints (fin w))
           (remainingResources (wipBatch (fin w)));
       state.receipt_ClosingReason := closingReason (wipBatch (fin w)) |} in
  exists (e : option error) (w' : World),
    closeWIPBatch w = Returned e w'
    /\ fin w' = fin w
    /\ (forall err s1,
          BeginStateTransaction (store w) = (Err err, s1) ->
          e = Some err /\ store w' = s1)
    /\ (forall dbTx s1 err s2,
          BeginStateTransaction (store w) = (Ok dbTx, s1) ->
          CloseWIPBatch receipt dbTx s1 = (Some err, s2) ->
          e = Some err /\ store w' = snd (Rollback dbTx s2))
    /\ (forall dbTx s1 s2,
          BeginStateTransaction (store w) = (Ok dbTx, s1) ->
          CloseWIPBatch receipt dbTx s1 = (None, s2) ->
          e = fst (Commit dbTx s2) /\ store w' = snd (Commit dbTx s2)).
Proof.
  intros receipt.
  unfold closeWIPBatch, bind, get_fin, on_store, log, emit, ret. cbn [fin store trace].
  fold receipt.
  destruct (BeginStateTransaction (store w)) as [[dbTx|berr] s1] eqn:Hbegin;
    cbn [fin store trace].
  - destruct (CloseWIPBatch receipt dbTx s1) as [[cerr|] s2] eqn:Hclose;
      cbn [fin store trace].
    + destruct (Rollback dbTx s2) as [[rerr|] s3] eqn:Hroll; cbn [fin store trace];
        (eexists _, _; split; [reflexivity|]; cbn [fin store trace];
         split; [reflexivity|]; split; [intros ? ? H; discriminate H|]; split;
         [ intros ? ? ? ? H1 H2; injection H1 as <- <-; rewrite Hclose in H2;
           injection H2 as <- <-; rewrite Hroll; split; reflexivity
         | intros ? ? ? H1 H2; injection H1 as <- <-; rewrite Hclose in H2;
           discriminate H2 ]).
    + destruct (Commit dbTx s2) as [[merr|] s3] eqn:Hcommit; cbn [fin store trace];
        (eexists _, _; split; [reflexivity|]; cbn [fin store trace];
         split; [reflexivity|]; split; [intros ? ? H; discriminate H|]; split;
         [ intros ? ? ? ? H1 H2; injection H1 as <- <-; rewrite Hclose in H2;
           discriminate H2
         | intros ? ? ? H1 H2; injection H1 as <- <-; rewrite Hclose in H2;
           injection H2 as <-; rewrite Hcommit; split; reflexivity ]).
  - eexists _, _. split; [reflexivity|]. cbn [fin store trace].
    split; [reflexivity|]. split; [|split].
    + intros ? ? H. injection H as <- <-. split; reflexivity.
    + intros ? ? ? ? H. discriminate H.
    + intros ? ? ? H. discriminate H.
Qed.

Lemma openNewWIPBatch_batch (fuel : nat) (n : Z) (ger stateRoot LER : Hash)
    w w' (batch : Batch) :
  openNewWIPBatch fuel n ger stateRoot LER w = Returned (Ok batch) w' ->
  batchNumber batch = n
  /\ initialStateRoot batch = stateRoot
  /\ imStateRoot batch = stateRoot
  /\ finalStateRoot batch = stateRoot
  /\ localExitRoot batch = LER
  /\ isEmpty batch = true
  /\ closingReason batch = state.EmptyClosingReason
  /\ remainingResources batch = getMaxRemainingResources (batchConstraints (fin w')).
Proof.
  unfold openNewWIPBatch, bind, get_fin, on_store, ret. cbn [store fin trace].
  destruct (BeginStateTransaction (store w)) as [[dbTx|e] s1];
    cbv beta iota zeta; cbn [store fin trace]; [|discriminate].
  match goal with
  | |- context [OpenWIPBatch ?b dbTx s1] => destruct (OpenWIPBatch b dbTx s1) as [[e|] s2]
  end; cbv beta iota zeta; cbn [store fin trace].
  - destruct (Rollback dbTx s2) as [[e'|] s3]; discriminate.
  - destruct (Commit dbTx s2) as [[e|] s3];
      cbv beta iota zeta; cbn [store fin trace]; [discriminate|].
    match goal with
    | |- context [waitSynced fuel ?w0] => destruct (waitSynced fuel w0) as [[] w1|w1|w1]
    end; try discriminate.
    intros Hret. injection Hret as <- <-. repeat split; reflexivity.
Qed.

(** X3. A batch that [openNewWIPBatch] returns is fresh: it has the number,
    the state root (as initial, intermediate and final root) and the local
    exit root it was asked for, the address of the sequencer as coinbase, no
    transaction, the closing reason Empty and the full budget of the
    constraints; and it is returned only after the row was opened and the
    transaction committed. *)
Theorem openNewWIPBatch_fresh (fuel : nat) (n : Z) (ger stateRoot LER : Hash)
    w w' (batch : Batch) :
  openNewWIPBatch fuel n ger stateRoot LER w = Returned (Ok batch) w' ->
  (batchNumber batch = n
   /\ initialStateRoot batch = stateRoot
   /\ imStateRoot batch = stateRoot
   /\ finalStateRoot batch = stateRoot
   /\ localExitRoot batch = LER
   /\ coinbase batch = sequencerAddress (fin w)
   /\ isEmpty batch = true
   /\ closingReason batch = state.EmptyClosingReason
   /\ remainingResources batch = getMaxRemainingResources (batchConstraints (fin w')))
  /\ exists dbTx s1 row s2 s3,
       BeginStateTransaction (store w) = (Ok dbTx, s1)
       /\ OpenWIPBatch row dbTx s1 = (None, s2)
       /\ state.BatchNumber row = n
       /\ state.StateRoot row = stateRoot
       /\ state.GlobalExitRoot row = ger
       /\ Commit dbTx s2 = (None, s3).
Proof.
  unfold openNewWIPBatch, bind, get_fin, on_store, ret. cbn [store fin trace].
  destruct (BeginStateTransaction (store w)) as [[dbTx|e] s1] eqn:Hbegin;
    cbv beta iota zeta; cbn [store fin trace]; [|discriminate].
  match goal with
  | |- context [OpenWIPBatch ?b dbTx s1] =>
      destruct (OpenWIPBatch b dbTx s1) as [[e|] s2] eqn:Hopen
  end; cbv beta iota zeta; cbn [store fin trace].
  - destruct (Rollback dbTx s2) as [[e'|] s3]; discriminate.
  - destruct (Commit dbTx s2) as [[e|] s3] eqn:Hcommit;
      cbv beta iota zeta; cbn [store fin trace]; [discriminate|].
    match goal with
    | |- context [waitSynced fuel ?w0] => destruct (waitSynced fuel w0) as [[] w1|w1|w1]
    end; try discriminate.
    intros Hret. injection Hret as <- <-. split.
    + repeat split; reflexivity.
    + eexists dbTx, s1, _, s2, s3. split; [reflexivity|]. split; [exact Hopen|].
      repeat split; try reflexivity. exact Hcommit.
Qed.

Lemma double_complement (wd c r : Z) :
  in_range wd r -> wrap wd (c - wrap wd (c - r)) = r.
Proof.
  intros Hr. unfold wrap, in_range in *.
  rewrite Zminus_mod_idemp_r.
  replace (c - (c - r)) with r by lia.
  apply Z.mod_small. exact Hr.
Qed.

(** X4. [getUsedBatchResources] is its own inverse on budgets that fit their
    fields: what is used when the used budget is left is what was left, for
    any constraints. *)
Theorem getUsedBatchResources_involutive
    (constraints : state.BatchConstraintsCfg) (r : state.BatchResources) :
  resources_in_range r ->
  getUsedBatchResources constraints (getUsedBatchResources constraints r) = r.
Proof.
  intros (Hb & Hg & Hk & Hph & Hpp & Hm & Ha & Hbi & Hs & Hsh).
  destruct r as [[g k ph pp m a bi st sh] b].
  cbn [state.RZKCounters state.Bytes state.GasUsed state.UsedKeccakHashes
       state.UsedPoseidonHashes state.UsedPoseidonPaddings state.UsedMemAligns
       state.UsedArithmetics state.UsedBinaries state.UsedSteps
       state.UsedSha256Hashes_V2] in *.
  unfold getUsedBatchResources, uint64_sub, uint32_sub.
  cbn [state.RZKCounters state.Bytes state.GasUsed state.UsedKeccakHashes
       state.UsedPoseidonHashes state.UsedPoseidonPaddings state.UsedMemAligns
       state.UsedArithmetics state.UsedBinaries state.UsedSteps
       state.UsedSha256Hashes_V2].
  rewrite !double_complement by assumption. reflexivity.
Qed.

Lemma count_transactions (blocks : list state.L2BlockRaw) (count : Z) :
  fold_left
    (fun (count : Z) (rawBlock : state.L2BlockRaw) =>
       count + Z.of_nat (length (state.raw_Transactions rawBlock)))
    blocks count
  = count + Z.of_nat (length (concat (map state.raw_Transactions blocks))).
Proof.
  revert count. induction blocks as [|blk blocks IH]; intros count; cbn [fold_left map concat].
  - cbn. lia.
  - rewrite IH, length_app. lia.
Qed.

(** X5. [setWIPBatch] leaves the store as [BeginStateTransaction] left it,
    on success and on every error: the transaction it begins is neither
    committed nor rolled back. It changes neither the finalizer nor the log.
    The batch it returns counts the transactions of all decoded blocks, starts
    from the state root of the batch numbered one less, has the state root of
    the row as intermediate and final root, and its remaining budget plus the
    resources of the row is the full budget. *)
Theorem setWIPBatch_adopts (wipStateBatch : state.Batch) w :
  exists (r : result error Batch) (w' : World),
    setWIPBatch wipStateBatch w = Returned r w'
    /\ fin w' = fin w /\ trace w' = trace w
    /\ store w' = snd (BeginStateTransaction (store w))
    /\ (forall batch, r = Ok batch ->
        exists prevStateBatch raw,
          GetBatchByNumber (store w') (wrap 64 (state.BatchNumber wipStateBatch - 1))
          = Ok prevStateBatch
          /\ DecodeBatchV2 (state.BatchL2Data wipStateBatch) = Ok raw
          /\ batchNumber batch = state.BatchNumber wipStateBatch
          /\ initialStateRoot batch = state.StateRoot prevStateBatch
          /\ imStateRoot batch = state.StateRoot wipStateBatch
          /\ finalStateRoot batch = state.StateRoot wipStateBatch
          /\ countOfTxs batch = Z.of_nat (length (allTransactions raw))
          /\ resources_plus (remainingResources batch) (state.Resources wipStateBatch)
             = getMaxRemainingResources (batchConstraints (fin w))).
Proof.
  unfold setWIPBatch, bind, get_fin, on_store, read_store, ret. cbn [fin store trace].
  destruct (BeginStateTransaction (store w)) as [[dbTx|berr] s1];
    cbv beta iota zeta; cbn [fin store trace snd].
  2:{ eexists _, _. split; [reflexivity|]. cbn [fin store trace].
      repeat split; try reflexivity. intros batch H. discriminate H. }
  destruct (GetBatchByNumber s1 _) as [prev|gerr] eqn:Hprev; cbn [fin store trace].
  2:{ eexists _, _. split; [reflexivity|]. cbn [fin store trace].
      repeat split; try reflexivity. intros batch H. discriminate H. }
  destruct (DecodeBatchV2 _) as [raw|derr] eqn:Hdec; cbn [fin store trace].
  2:{ eexists _, _. split; [reflexivity|]. cbn [fin store trace].
      repeat split; try reflexivity. intros batch H. discriminate H. }
  destruct (state.Sub _ _) as [remaining|] eqn:Hsub; cbn [fin store trace].
  2:{ eexists _, _. split; [reflexivity|]. cbn [fin store trace].
      repeat split; try reflexivity. intros batch H. discriminate H. }
  eexists _, _. split; [reflexivity|]. cbn [fin store trace].
  repeat split; try reflexivity.
  intros batch Hbatch. injection Hbatch as <-.
  exists prev, raw. split; [exact Hprev|]. split; [reflexivity|].
  cbn [batchNumber initialStateRoot imStateRoot finalStateRoot countOfTxs remainingResources].
  repeat split; try reflexivity.
  - rewrite count_transactions. unfold allTransactions. lia.
  - unfold state.Sub in Hsub.
    destruct (_ && _); [|discriminate Hsub]. injection Hsub as <-.
    unfold resources_plus, state.zk_minus.
    cbn [state.RZKCounters state.Bytes state.GasUsed state.UsedKeccakHashes
         state.UsedPoseidonHashes state.UsedPoseidonPaddings state.UsedMemAligns
         state.UsedArithmetics state.UsedBinaries state.UsedSteps
         state.UsedSha256Hashes_V2].
    unfold getMaxRemainingResources.
    f_equal; [f_equal|]; cbn; lia.
Qed.

(** What [closeAndOpenNewWIPBatch] returns is a fresh batch, and the
    overhead of the L2 block went to the batch the finalizer still holds. *)
Lemma closeAndOpenNewWIPBatch_returns_fresh (fuel : nat) w w' (batch : Batch) :
  closeAndOpenNewWIPBatch fuel w = Returned (Ok batch) w' ->
  isEmpty batch = true
  /\ closingReason batch = state.EmptyClosingReason
  /\ imStateRoot batch = initialStateRoot batch
  /\ finalStateRoot batch = initialStateRoot batch
  /\ remainingResources batch = getMaxRemainingResources (batchConstraints (fin w')).
Proof.
  unfold closeAndOpenNewWIPBatch. intros Hrun.
  invert_bind Hrun as f0 Hf0.
  invert_bind Hrun as [] Hfinalize.
  invert_bind Hrun as [] Hwait1.
  invert_bind Hrun as [] Hlog1.
  invert_bind Hrun as [] Hwait2.
  invert_bind Hrun as [] Hlog2.
  invert_bind Hrun as f1 Hf1.
  invert_bind Hrun as [err|] Hprocess; [discriminate Hrun|].
  invert_bind Hrun as f2 Hf2.
  invert_bind Hrun as [err|] Hsanity; [discriminate Hrun|].
  invert_bind Hrun as [err|] Hclose; [discriminate Hrun|].
  invert_bind Hrun as [] Hlog3.
  invert_bind Hrun as f3 Hf3.
  invert_bind Hrun as [lastBatchNumber stateRoot] Hforced.
  invert_bind Hrun as f4 Hf4.
  cbv zeta in Hrun.
  invert_bind Hrun as [opened|err] Hopen; [|discriminate Hrun].
  invert_bind Hrun as f5 Hf5.
  unfold get_fin in Hf5. injection Hf5 as <- <-.
  apply openNewWIPBatch_batch in Hopen
    as (_ & Hinit & Him & Hfinal & _ & Hempty & Hreason & Hbudget).
  destruct (state.Sub _ _) as [remaining|]; [|discriminate Hrun].
  unfold bind, put_fin, ret in Hrun. injection Hrun as <- <-.
  cbn [fin set_wipBatch batchConstraints].
  rewrite Him, Hfinal, Hinit. repeat split; assumption.
Qed.

(** X6. Whenever [finalizeBatch] returns, the wip batch of the finalizer is a
    fresh batch: it has no transaction, the closing reason Empty, its three
    state roots are equal, and its remaining budget is the full budget of the
    constraints; the overhead of an L2 block is not taken from it. *)
Theorem finalizeBatch_installs_fresh_batch (fuel : nat) w w' :
  finalizeBatch fuel w = Returned tt w' ->
  isEmpty (wipBatch (fin w')) = true
  /\ closingReason (wipBatch (fin w')) = state.EmptyClosingReason
  /\ imStateRoot (wipBatch (fin w')) = initialStateRoot (wipBatch (fin w'))
  /\ finalStateRoot (wipBatch (fin w')) = initialStateRoot (wipBatch (fin w'))
  /\ remainingResources (wipBatch (fin w'))
     = getMaxRemainingResources (batchConstraints (fin w')).
Proof.
  unfold finalizeBatch. intros Hrun.
  invert_bind Hrun as [batch|err] Hclose; [|discriminate Hrun].
  apply closeAndOpenNewWIPBatch_returns_fresh in Hclose.
  unfold bind, get_fin, put_fin, log, emit in Hrun. injection Hrun as <-.
  cbn [fin set_wipBatch wipBatch batchConstraints]. exact Hclose.
Qed.

(** X7. When the batch or its L1 info tree data cannot be read,
    [reprocessFullBatch] returns [ErrGetBatchByNumber] and only writes to the
    log: on these two failures, unlike on the failures of the executor, it
    never ends in [Halt]. *)
Theorem reprocessFullBatch_fetch_failure (batchNum : Z)
    (initialStateRoot expectedNewStateRoot : Hash) w :
  (forall err, GetBatchByNumber (store w) batchNum = Err err ->
     exists logs,
       Forall isLog logs
       /\ reprocessFullBatch batchNum initialStateRoot expectedNewStateRoot w
          = Returned (Err ErrGetBatchByNumber) (extend w logs))
  /\ (forall batch err,
        GetBatchByNumber (store w) batchNum = Ok batch ->
        GetL1InfoTreeDataFromBatchL2Data (store w) (state.BatchL2Data batch) = Err err ->
        exists logs,
          Forall isLog logs
          /\ reprocessFullBatch batchNum initialStateRoot expectedNewStateRoot w
             = Returned (Err ErrGetBatchByNumber) (extend w logs)).
Proof.
  split.
  - intros err Hbatch. unfold reprocessFullBatch.
    rewrite bind_log, bind_get_fin, bind_read_store. cbn [store fin extend].
    rewrite Hbatch, bind_log. unfold reprocessError. rewrite bind_ret.
    unfold ret. rewrite extend_extend.
    eexists. split; [|reflexivity]. repeat constructor.
  - intros batch err Hbatch Hl1. unfold reprocessFullBatch.
    rewrite bind_log, bind_get_fin, bind_read_store. cbn [store fin extend].
    rewrite Hbatch, bind_read_store. cbn [store fin extend].
    rewrite Hl1, bind_log. unfold reprocessError. rewrite bind_ret.
    unfold ret. rewrite extend_extend.
    eexists. split; [|reflexivity]. repeat constructor.
Qed.

Lemma reprocessError_keeps_finalizer (batch : option state.Batch) :
  keeps_finalizer (reprocessError batch).
Proof.
  intros w [] w1 Hrun. destruct batch as [batch|].
  - unfold reprocessError in Hrun.
    destruct (DecodeBatchV2 (state.BatchL2Data batch)) as [raw|err] eqn:Hdec.
    + exfalso.
      destruct (reprocessError_halts batch raw w Hdec) as (logs & _ & Hhalt).
      unfold reprocessError in Hhalt. rewrite Hdec in Hhalt.
      rewrite Hhalt in Hrun. discriminate Hrun.
    + injection Hrun as <-. reflexivity.
  - injection Hrun as <-. reflexivity.
Qed.

Ltac keeps_fin_step Hrun :=
  first
    [ rewrite bind_log in Hrun
    | rewrite bind_emit in Hrun
    | rewrite bind_get_fin in Hrun
    | rewrite bind_read_store in Hrun
    | rewrite bind_ret in Hrun ];
  cbn [fin store extend] in Hrun.

(** The sanity reprocess never changes the finalizer. *)
Lemma reprocessFullBatch_keeps_finalizer (batchNum : Z)
    (initialStateRoot expectedNewStateRoot : Hash) :
  keeps_finalizer (reprocessFullBatch batchNum initialStateRoot expectedNewStateRoot).
Proof.
  intros w r w1 Hrun. unfold reprocessFullBatch in Hrun.
  do 3 keeps_fin_step Hrun.
  assert (Herr : forall (msg : string) (b : option state.Batch) (e : error) w0,
             fin w0 = fin w ->
             bind (log Error msg)
               (fun _ => bind (reprocessError b) (fun _ => ret (Err e))) w0
             = Returned r w1 -> fin w1 = fin w).
  { intros msg b e w0 Hw0 H. rewrite bind_log in H.
    invert_bind H as [] Hre. apply reprocessError_keeps_finalizer in Hre.
    injection H as _ <-. rewrite Hre. exact Hw0. }
  destruct (GetBatchByNumber (store w) batchNum) as [batch|err].
  2:{ eapply Herr; [|exact Hrun]. reflexivity. }
  keeps_fin_step Hrun.
  destruct (GetL1InfoTreeDataFromBatchL2Data (store w) _) as [l1|err].
  2:{ eapply Herr; [|exact Hrun]. reflexivity. }
  do 2 keeps_fin_step Hrun.
  destruct (ProcessBatchV2 (store w) _ false) as [result|err].
  2:{ eapply Herr; [|exact Hrun]. reflexivity. }
  destruct (bool_decide (state.ExecutorError result <> None)).
  { eapply Herr; [|exact Hrun]. reflexivity. }
  destruct (state.IsRomOOCError result).
  { rewrite bind_log in Hrun. invert_bind Hrun as [] Hre.
    apply reprocessError_keeps_finalizer in Hre. cbn [fin extend] in Hre.
    invert_bind Hrun as [] Hev. injection Hrun as _ <-.
    rewrite <- Hre.
    destruct (json_Marshal _) as [payload|merr].
    - rewrite bind_emit in Hev.
      destruct (eventLog_LogEvent _); injection Hev as <-; reflexivity.
    - injection Hev as <-. reflexivity. }
  destruct (bool_decide (state.NewStateRoot result <> expectedNewStateRoot)).
  { eapply Herr; [|exact Hrun]. reflexivity. }
  rewrite bind_log in Hrun. injection Hrun as _ <-. reflexivity.
Qed.

Lemma waitSynced_keeps_finalizer (fuel : nat) :
  keeps_finalizer isSynced -> keeps_finalizer (waitSynced fuel).
Proof.
  intros Hsync. induction fuel as [|fuel IH]; intros w [] w1 Hrun; cbn [waitSynced] in Hrun.
  - discriminate Hrun.
  - invert_bind Hrun as [|] Hs; apply Hsync in Hs.
    + injection Hrun as <-. exact Hs.
    + rewrite bind_log in Hrun. apply IH in Hrun. cbn [fin extend] in Hrun.
      rewrite Hrun. exact Hs.
Qed.

Lemma openNewWIPBatch_keeps_finalizer (fuel : nat) (n : Z) (ger stateRoot LER : Hash) :
  keeps_finalizer isSynced -> keeps_finalizer (openNewWIPBatch fuel n ger stateRoot LER).
Proof.
  intros Hsync w r w1.
  unfold openNewWIPBatch, bind, get_fin, on_store, ret. cbn [store fin trace].
  destruct (BeginStateTransaction (store w)) as [[dbTx|e] s1];
    cbv beta iota zeta; cbn [store fin trace].
  2:{ intros H. injection H as _ <-. reflexivity. }
  match goal with
  | |- context [OpenWIPBatch ?b dbTx s1] => destruct (OpenWIPBatch b dbTx s1) as [[e|] s2]
  end; cbv beta iota zeta; cbn [store fin trace].
  - destruct (Rollback dbTx s2) as [[e'|] s3]; intros H; injection H as _ <-; reflexivity.
  - destruct (Commit dbTx s2) as [[e|] s3]; cbv beta iota zeta; cbn [store fin trace].
    + intros H. injection H as _ <-. reflexivity.
    + match goal with
      | |- context [waitSynced fuel ?w0] =>
          destruct (waitSynced fuel w0) as [[] w2|w2|w2] eqn:Hwait
      end; try discriminate.
      apply (waitSynced_keeps_finalizer fuel Hsync) in Hwait. cbn [fin] in Hwait.
      intros H. injection H as _ <-. exact Hwait.
Qed.

(** What a successful sanity reprocess has seen: the batch and its L1 info
    tree data were read, and the executor answered the request without an
    error, within the counters, with the expected state root. *)
Lemma reprocessFullBatch_success_inversion (batchNum : Z)
    (initialStateRoot expectedNewStateRoot : Hash) w w'
    (result : state.ProcessBatchResponse) :
  reprocessFullBatch batchNum initialStateRoot expectedNewStateRoot w
  = Returned (Ok result) w' ->
  exists batch l1data,
    GetBatchByNumber (store w) batchNum = Ok batch
    /\ GetL1InfoTreeDataFromBatchL2Data (store w) (state.BatchL2Data batch) = Ok l1data
    /\ ProcessBatchV2 (store w)
         (executorBatchRequest (store w) (fin w) batch initialStateRoot l1data) false
       = Ok result
    /\ state.ExecutorError result = None
    /\ state.IsRomOOCError result = false
    /\ state.NewStateRoot result = expectedNewStateRoot.
Proof.
  intros Hrun. unfold reprocessFullBatch in Hrun.
  do 3 keeps_fin_step Hrun.
  assert (Herr : forall (msg : string) (b : option state.Batch) (e : error) w0,
             bind (log Error msg)
               (fun _ => bind (reprocessError b) (fun _ => ret (Err e))) w0
             <> Returned (Ok result) w').
  { intros msg b e w0 H. rewrite bind_log in H.
    invert_bind H as [] Hre. discriminate H. }
  destruct (GetBatchByNumber (store w) batchNum) as [batch|err] eqn:Hbatch;
    [|exfalso; exact (Herr _ _ _ _ Hrun)].
  keeps_fin_step Hrun.
  destruct (GetL1InfoTreeDataFromBatchL2Data (store w) _) as [l1|err] eqn:Hl1;
    [|exfalso; exact (Herr _ _ _ _ Hrun)].
  do 2 keeps_fin_step Hrun.
  destruct (ProcessBatchV2 (store w) _ false) as [r|err] eqn:Hprocess;
    [|exfalso; exact (Herr _ _ _ _ Hrun)].
  destruct (bool_decide (state.ExecutorError r <> None)) eqn:Hexec;
    [exfalso; exact (Herr _ _ _ _ Hrun)|].
  apply bool_decide_eq_false in Hexec. apply dec_stable in Hexec.
  destruct (state.IsRomOOCError r) eqn:Hooc.
  { exfalso. rewrite bind_log in Hrun. invert_bind Hrun as [] Hre.
    invert_bind Hrun as [] Hev. discriminate Hrun. }
  destruct (bool_decide (state.NewStateRoot r <> expectedNewStateRoot)) eqn:Hroot;
    [exfalso; exact (Herr _ _ _ _ Hrun)|].
  apply bool_decide_eq_false in Hroot. apply dec_stable in Hroot.
  rewrite bind_log in Hrun. injection Hrun as <- _.
  exists batch, l1. repeat split; assumption.
Qed.

(** The stages of a successful [closeAndOpenNewWIPBatch] when no forced batch
    is pending: the world [w3] the sanity check starts in, the world [w4] it
    ends in, and the finalizer that is left. *)
Lemma closeAndOpenNewWIPBatch_stages (fuel : nat) w w' (batch : Batch) :
  keeps_forced_batches finalizeL2Block ->
  keeps_forced_batches pendingL2BlocksToProcessWG_Wait ->
  keeps_forced_batches pendingL2BlocksToStoreWG_Wait ->
  keeps_forced_batches processTransaction_nil_true ->
  keeps_finalizer isSynced ->
  nextForcedBatches (fin w) = [] ->
  closeAndOpenNewWIPBatch fuel w = Returned (Ok batch) w' ->
  exists (w3 w4 : World) (remaining : state.BatchResources),
    (SequentialReprocessFullBatch (cfg (fin w3)) = true ->
     exists result,
       reprocessFullBatch (batchNumber (wipBatch (fin w3)))
         (initialStateRoot (wipBatch (fin w3))) (finalStateRoot (wipBatch (fin w3))) w3
       = Returned (Ok result) w4)
    /\ batchNumber batch = wrap 64 (batchNumber (wipBatch (fin w3)) + 1)
    /\ initialStateRoot batch = finalStateRoot (wipBatch (fin w3))
    /\ localExitRoot batch = localExitRoot (wipBatch (fin w3))
    /\ fin w' = set_wipBatch (set_remainingResources remaining (wipBatch (fin w3))) (fin w3).
Proof.
  intros Hfinalize Hwait1 Hwait2 Hprocess Hsync Hnone Hrun.
  unfold closeAndOpenNewWIPBatch in Hrun.
  invert_bind Hrun as f0 Hf0. injection Hf0 as <- <-.
  invert_bind Hrun as [] Hfin.
  assert (Hn1 : nextForcedBatches (fin w0) = []).
  { rewrite <- Hnone. destruct (negb _).
    - eapply Hfinalize. exact Hfin.
    - injection Hfin as <-. reflexivity. }
  invert_bind Hrun as [] Hw1. apply Hwait1 in Hw1.
  rewrite bind_log in Hrun.
  invert_bind Hrun as [] Hw2. apply Hwait2 in Hw2. cbn [fin extend] in Hw2.
  rewrite bind_log, bind_get_fin in Hrun. cbn [fin extend] in Hrun.
  invert_bind Hrun as [err|] Hproc; [discriminate Hrun|].
  assert (Hn4 : nextForcedBatches (fin w3) = []).
  { destruct (bool_decide _).
    - rewrite bind_log in Hproc. apply Hprocess in Hproc. cbn [fin extend] in Hproc.
      congruence.
    - injection Hproc as <-. cbn [fin extend]. congruence. }
  rewrite bind_get_fin in Hrun.
  invert_bind Hrun as [err|] Hsanity; [discriminate Hrun|].
  assert (Hf5 : fin w4 = fin w3
                /\ (SequentialReprocessFullBatch (cfg (fin w3)) = true ->
                    exists result,
                      reprocessFullBatch (batchNumber (wipBatch (fin w3)))
                        (initialStateRoot (wipBatch (fin w3)))
                        (finalStateRoot (wipBatch (fin w3))) w3
                      = Returned (Ok result) w4)).
  { destruct (SequentialReprocessFullBatch _).
    - invert_bind Hsanity as r Hre.
      destruct r as [result|]; [|discriminate Hsanity]. injection Hsanity as <-.
      split; [exact (reprocessFullBatch_keeps_finalizer _ _ _ _ _ _ Hre)|].
      intros _. exists result. exact Hre.
    - rewrite bind_emit in Hsanity. injection Hsanity as <-.
      split; [reflexivity|discriminate]. }
  destruct Hf5 as [Hf5 Hchecked].
  invert_bind Hrun as [err|] Hclose; [discriminate Hrun|].
  assert (Hf6 : fin w5 = fin w4).
  { exact (closeWIPBatch_keeps_finalizer _ _ _ Hclose). }
  rewrite bind_log, bind_get_fin in Hrun. cbn [fin extend] in Hrun.
  rewrite Hf6, Hf5 in Hrun.
  rewrite bool_decide_eq_false_2 in Hrun by (rewrite Hn4; intros Hne; apply Hne; reflexivity).
  rewrite bind_ret in Hrun. cbv beta iota zeta in Hrun.
  rewrite bind_get_fin in Hrun. cbn [fin extend] in Hrun. rewrite Hf6, Hf5 in Hrun.
  invert_bind Hrun as [opened|err] Hopen; [|discriminate Hrun].
  pose proof (openNewWIPBatch_keeps_finalizer _ _ _ _ _ Hsync _ _ _ Hopen) as Hf7.
  cbn [fin extend] in Hf7.
  apply openNewWIPBatch_batch in Hopen as (Hnum & Hinit & _ & _ & Hler & _).
  rewrite bind_get_fin in Hrun.
  destruct (state.Sub _ _) as [remaining|]; [|discriminate Hrun].
  unfold bind, put_fin, ret in Hrun. injection Hrun as <- <-.
  exists w3, w4, remaining. cbn [fin].
  rewrite Hf7, Hf6, Hf5. repeat split; assumption.
Qed.

(** X8. With no forced batch pending, and collaborators that add none and a
    synchronizer check that leaves the finalizer alone, the batch
    [closeAndOpenNewWIPBatch] returns continues the batch it closed, the one
    the finalizer still holds: its number is the next one modulo 2^64, its
    initial state root is the final state root of the closed batch, and it has
    the same local exit root. *)
Theorem closeAndOpenNewWIPBatch_continues_closed_batch (fuel : nat) w w' (batch : Batch) :
  keeps_forced_batches finalizeL2Block ->
  keeps_forced_batches pendingL2BlocksToProcessWG_Wait ->
  keeps_forced_batches pendingL2BlocksToStoreWG_Wait ->
  keeps_forced_batches processTransaction_nil_true ->
  keeps_finalizer isSynced ->
  nextForcedBatches (fin w) = [] ->
  closeAndOpenNewWIPBatch fuel w = Returned (Ok batch) w' ->
  batchNumber batch = wrap 64 (batchNumber (wipBatch (fin w')) + 1)
  /\ initialStateRoot batch = finalStateRoot (wipBatch (fin w'))
  /\ localExitRoot batch = localExitRoot (wipBatch (fin w')).
Proof.
  intros Hfinalize Hwait1 Hwait2 Hprocess Hsync Hnone Hrun.
  destruct (closeAndOpenNewWIPBatch_stages fuel w w' batch
              Hfinalize Hwait1 Hwait2 Hprocess Hsync Hnone Hrun)
    as (w3 & w4 & remaining & _ & Hnum & Hinit & Hler & ->).
  repeat split; assumption.
Qed.

(** X9. In the sequential mode a new batch is opened only after the executor
    has reproduced the batch to close. With no forced batch pending, and
    collaborators that add none and a synchronizer check that leaves the
    finalizer alone: when [closeAndOpenNewWIPBatch] returns a batch, the
    executor has answered a request that starts from the initial state root of
    the closed batch, without an error and within the counters, with the final
    state root of the closed batch, which is the state root the returned batch
    starts from. *)
Theorem closeAndOpenNewWIPBatch_sanity_checked (fuel : nat) w w' (batch : Batch) :
  keeps_forced_batches finalizeL2Block ->
  keeps_forced_batches pendingL2BlocksToProcessWG_Wait ->
  keeps_forced_batches pendingL2BlocksToStoreWG_Wait ->
  keeps_forced_batches processTransaction_nil_true ->
  keeps_finalizer isSynced ->
  nextForcedBatches (fin w) = [] ->
  SequentialReprocessFullBatch (cfg (fin w')) = true ->
  closeAndOpenNewWIPBatch fuel w = Returned (Ok batch) w' ->
  exists (s : Store) (request : ProcessRequest) (result : state.ProcessBatchResponse),
    ProcessBatchV2 s request false = Ok result
    /\ state.OldStateRoot request = initialStateRoot (wipBatch (fin w'))
    /\ state.Caller request = state.SequencerCallerLabel
    /\ state.ExecutorError result = None
    /\ state.IsRomOOCError result = false
    /\ state.NewStateRoot result = finalStateRoot (wipBatch (fin w'))
    /\ initialStateRoot batch = state.NewStateRoot result.
Proof.
  intros Hfinalize Hwait1 Hwait2 Hprocess Hsync Hnone Hsequential Hrun.
  destruct (closeAndOpenNewWIPBatch_stages fuel w w' batch
              Hfinalize Hwait1 Hwait2 Hprocess Hsync Hnone Hrun)
    as (w3 & w4 & remaining & Hchecked & _ & Hinit & _ & Hfin).
  rewrite Hfin in Hsequential |- *. cbn [cfg set_wipBatch] in Hsequential.
  cbn [wipBatch set_wipBatch set_remainingResources initialStateRoot finalStateRoot].
  destruct (Hchecked Hsequential) as [result Hre].
  apply reprocessFullBatch_success_inversion in Hre
    as (row & l1data & _ & _ & Hprocessed & Hexec & Hooc & Hroot).
  eexists _, _, result. split; [exact Hprocessed|].
  cbn [state.OldStateRoot state.Caller executorBatchRequest]. rewrite Hsequential.
  repeat split; try assumption; try reflexivity. congruence.
Qed.

End WipBatchLife.

(** ** The properties of the wip batch on batch 7 *)


Lemma closeWIPBatch_outcome_witness :
  exists w',
    closeWIPBatch (SI := storeThatCannotClose)
      (fixtures.world7 true (fixtures.resources 500))
    = Returned (Some (ErrExternal "batch is not open")) w'.
Proof.
  destruct (closeWIPBatch_outcome (SI := storeThatCannotClose)
              (fixtures.world7 true (fixtures.resources 500)))
    as (e & w' & Hrun & _ & _ & Hclose & _).
  destruct (Hclose tt tt (ErrExternal "batch is not open") tt eq_refl eq_refl) as [He _].
  rewrite He in Hrun. exists w'. exact Hrun.
Defined.

Lemma openNewWIPBatch_fresh_witness :
  match openNewWIPBatch (SI := storeOk) (CO := fixtures.stubCollaborators)
          1 8 (fixtures.hashOf x04) (fixtures.hashOf x02) (fixtures.hashOf x03)
          (fixtures.world7 true (fixtures.resources 500)) with
  | Returned (Ok batch) _ =>
      batchNumber batch = 8
      /\ initialStateRoot batch = fixtures.hashOf x02
      /\ isEmpty batch = true
  | _ => False
  end.
Proof.
  destruct (openNewWIPBatch (SI := storeOk) (CO := fixtures.stubCollaborators)
              1 8 (fixtures.hashOf x04) (fixtures.hashOf x02) (fixtures.hashOf x03)
              (fixtures.world7 true (fixtures.resources 500)))
    as [[batch|err] w'|w'|w'] eqn:Hrun; try (cbv in Hrun; discriminate Hrun).
  destruct (openNewWIPBatch_fresh _ _ _ _ _ _ _ _ Hrun)
    as [(Hn & Hroot & _ & _ & _ & _ & Hempty & _) _].
  repeat split; assumption.
Defined.

Lemma getUsedBatchResources_involutive_witness :
  getUsedBatchResources fixtures.constraints1000
    (getUsedBatchResources fixtures.constraints1000 fixtures.blockOverhead)
  = fixtures.blockOverhead.
Proof.
  apply getUsedBatchResources_involutive.
  unfold resources_in_range, in_range. cbn. lia.
Defined.

Lemma setWIPBatch_adopts_witness :
  exists batch w',
    setWIPBatch (SI := storeOk) fixtures.stateBatch7
      (fixtures.world7 true (fixtures.resources 500))
    = Returned (Ok batch) w'
    /\ countOfTxs batch = 1
    /\ initialStateRoot batch = fixtures.hashOf x02.
Proof.
  destruct (setWIPBatch_adopts (SI := storeOk) fixtures.stateBatch7
              (fixtures.world7 true (fixtures.resources 500)))
    as (r & w' & Hrun & _ & _ & _ & Hbatch).
  destruct r as [batch|err]; [|cbv in Hrun; discriminate Hrun].
  destruct (Hbatch batch eq_refl) as (prev & raw & Hprev & Hraw & _ & Hinit & _ & _ & Hcount & _).
  exists batch, w'. split; [exact Hrun|].
  injection Hprev as <-. injection Hraw as <-.
  split; assumption.
Defined.

Lemma finalizeBatch_installs_fresh_batch_witness :
  match finalizeBatch (SI := storeOk) (CO := fixtures.stubCollaborators) 1
          (fixtures.world7 true (fixtures.resources 500)) with
  | Returned _ w' =>
      isEmpty (wipBatch (fin w')) = true
      /\ remainingResources (wipBatch (fin w'))
         = getMaxRemainingResources (batchConstraints (fin w'))
  | _ => False
  end.
Proof.
  destruct (finalizeBatch (SI := storeOk) (CO := fixtures.stubCollaborators) 1
              (fixtures.world7 true (fixtures.resources 500)))
    as [[] w'|w'|w'] eqn:Hrun; try (cbv in Hrun; discriminate Hrun).
  destruct (finalizeBatch_installs_fresh_batch _ _ _ Hrun) as (Hempty & _ & _ & _ & Hbudget).
  split; assumption.
Defined.

Lemma reprocessFullBatch_fetch_failure_witness :
  exists logs,
    Forall isLog logs
    /\ reprocessFullBatch (SI := storeWithoutBatch) (CO := fixtures.stubCollaborators)
         7 (fixtures.hashOf x01) (fixtures.hashOf x02)
         (fixtures.world7 true (fixtures.resources 500))
       = Returned (Err ErrGetBatchByNumber)
           (extend (fixtures.world7 true (fixtures.resources 500)) logs).
Proof.
  destruct (reprocessFullBatch_fetch_failure
              (SI := storeWithoutBatch) (CO := fixtures.stubCollaborators)
              7 (fixtures.hashOf x01) (fixtures.hashOf x02)
              (fixtures.world7 true (fixtures.resources 500))) as [Hnone _].
  exact (Hnone (ErrExternal "not found") eq_refl).
Defined.

Lemma closeAndOpenNewWIPBatch_continues_closed_batch_witness :
  match closeAndOpenNewWIPBatch (SI := storeOk) (CO := fixtures.stubCollaborators) 1
          (fixtures.world7 true (fixtures.resources 500)) with
  | Returned (Ok batch) w' =>
      batchNumber batch = wrap 64 (batchNumber (wipBatch (fin w')) + 1)
      /\ initialStateRoot batch = finalStateRoot (wipBatch (fin w'))
      /\ localExitRoot batch = localExitRoot (wipBatch (fin w'))
  | _ => False
  end.
Proof.
  destruct (closeAndOpenNewWIPBatch (SI := storeOk) (CO := fixtures.stubCollaborators) 1
              (fixtures.world7 true (fixtures.resources 500)))
    as [[batch|err] w'|w'|w'] eqn:Hrun; try (cbv in Hrun; discriminate Hrun).
  apply (closeAndOpenNewWIPBatch_continues_closed_batch
           (SI := storeOk) (CO := fixtures.stubCollaborators) 1
           (fixtures.world7 true (fixtures.resources 500)) w' batch);
    try (intros w0 a w1 H; injection H as _ <-; reflexivity).
  - reflexivity.
  - exact Hrun.
Defined.

Lemma closeAndOpenNewWIPBatch_sanity_checked_witness :
  match closeAndOpenNewWIPBatch (SI := storeOk) (CO := fixtures.stubCollaborators) 1
          (fixtures.world7 true (fixtures.resources 500)) with
  | Returned (Ok batch) w' =>
      exists (request : @ProcessRequest unit) (result : state.ProcessBatchResponse),
        ProcessBatchV2 (stateInterface := storeOk) tt request false = Ok result
        /\ state.OldStateRoot request = fixtures.hashOf x01
        /\ initialStateRoot batch = state.NewStateRoot result
  | _ => False
  end.
Proof.
  destruct (closeAndOpenNewWIPBatch (SI := storeOk) (CO := fixtures.stubCollaborators) 1
              (fixtures.world7 true (fixtures.resources 500)))
    as [[batch|err] w'|w'|w'] eqn:Hrun; try (cbv in Hrun; discriminate Hrun).
  destruct (closeAndOpenNewWIPBatch_sanity_checked
              (SI := storeOk) (CO := fixtures.stubCollaborators) 1
              (fixtures.world7 true (fixtures.resources 500)) w' batch)
    as (s & request & result & Hprocessed & Hold & _ & _ & _ & _ & Hinit);
    try (intros w0 a w1 H; injection H as _ <-; reflexivity).
  - reflexivity.
  - assert (Hw : Returned (Ok batch) w'
                 = closeAndOpenNewWIPBatch (SI := storeOk) (CO := fixtures.stubCollaborators) 1
                     (fixtures.world7 true (fixtures.resources 500)))
      by (symmetry; exact Hrun).
    cbv in Hw. injection Hw as _ ->. reflexivity.
  - exact Hrun.
  - destruct s. exists request, result. split; [exact Hprocessed|].
    split; [|exact Hinit].
    rewrite Hold.
    assert (Hw : Returned (Ok batch) w'
                 = closeAndOpenNewWIPBatch (SI := storeOk) (CO := fixtures.stubCollaborators) 1
                     (fixtures.world7 true (fixtures.resources 500)))
      by (symmetry; exact Hrun).
    cbv in Hw. injection Hw as _ ->. reflexivity.
Defined.

(** ** The processor of trusted batches *)

Section TrustedBatchProcessing.

Variable Address_String : Address -> string.
Variable timeProvider_Now : Z.
Context {DB : Type} {Steps : @l2_shared.SyncTrustedBatchExecutor DB}.

#[local] Abbreviation ProcessTrustedBatch :=
  (l2_shared.ProcessTrustedBatch Address_String timeProvider_Now).
#[local] Abbreviation getModeForProcessBatch :=
  (l2_shared.getModeForProcessBatch Address_String timeProvider_Now).

Lemma getModeForProcessBatch_facts (t : types.Batch) (c : option state.Batch)
    (prev : state.Batch) (pm : l2_shared.ProcessData) (err : option error) :
  getModeForProcessBatch (Some t) c (Some prev) = (pm, err) ->
  err = None
  /\ l2_shared.TrustedBatch pm = Some t
  /\ l2_shared.StateBatch pm = c
  /\ l2_shared.BatchMustBeClosed pm
     = negb (String.eqb (l2_shared.Mode pm) l2_shared.NothingProcessMode) && types.Closed t
  /\ (l2_shared.Mode pm = l2_shared.NothingProcessMode
      \/ l2_shared.Mode pm = l2_shared.FullProcessMode
      \/ l2_shared.Mode pm = l2_shared.IncrementalProcessMode
      \/ l2_shared.Mode pm = l2_shared.ReprocessProcessMode).
Proof.
  unfold l2_shared.getModeForProcessBatch.
  destruct c as [c|].
  - destruct (l2_shared.checkIfSynced Address_String c t) as [[] str].
    + cbn. intros H. injection H as <- <-. cbn. tauto.
    + destruct (bool_decide _); cbn; intros H; injection H as <- <-; cbn; tauto.
  - cbn. intros H. injection H as <- <-. cbn. tauto.
Qed.

Ltac after_step Hrun Hmode Enothing :=
  let st := fresh "st" in
  let Herr := fresh "Herr" in
  let Hresp := fresh "Hresp" in
  let Hflag := fresh "Hflag" in
  let Hcheck := fresh "Hcheck" in
  let Hclear := fresh "Hclear" in
  let resp := fresh "resp" in
  match type of Hrun with
  | context [l2_shared.step_err ?s] => set (st := s) in *
  end;
  destruct (l2_shared.step_err st) eqn:Herr; [discriminate Hrun|];
  destruct (l2_shared.step_response st) as [resp|] eqn:Hresp;
  [|destruct (l2_shared.BatchMustBeClosed (l2_shared.step_data st)); discriminate Hrun];
  exists resp;
  split; [reflexivity|]; split; [reflexivity|]; split; [exact Hmode|];
  split; [exact Enothing|]; split; [tauto|];
  cbv zeta; fold st;
  destruct (l2_shared.BatchMustBeClosed (l2_shared.step_data st)) eqn:Hflag;
  [destruct (l2_shared.checkProcessBatchResultMatchExpected _ _) as [[?|]|?] eqn:Hcheck;
   try discriminate Hrun|];
  destruct (l2_shared.ClearCache resp) eqn:Hclear; try discriminate Hrun;
  injection Hrun as <- <-;
  (split; [first [exact Herr | reflexivity]|];
   split; [first [exact Hresp | reflexivity]|];
   split; [first [exact Hclear | reflexivity]|];
   split; [reflexivity|]; split; [reflexivity|];
   first [intros _; first [exact Hcheck | reflexivity]
         | let Hf := fresh in intros Hf; discriminate Hf]).

Lemma ProcessTrustedBatch_inversion (t : types.Batch) (status st' : l2_shared.TrustedState)
    (db db' : DB) (p : string) :
  ProcessTrustedBatch (Some t) status db p = (Done (Some st', None), db') ->
  exists (c : option state.Batch) (prev : state.Batch) (pm : l2_shared.ProcessData)
         (step : l2_shared.ProcessData -> DB -> l2_shared.StepResult)
         (resp : l2_shared.ProcessResponse),
    l2_shared.LastTrustedBatches status !! 0%nat = Some c
    /\ l2_shared.LastTrustedBatches status !! 1%nat = Some (Some prev)
    /\ getModeForProcessBatch (Some t) c (Some prev) = (pm, None)
    /\ l2_shared.Mode pm <> l2_shared.NothingProcessMode
    /\ (step = l2_shared.FullProcess \/ step = l2_shared.IncrementalProcess
        \/ step = l2_shared.ReProcess)
    /\ let d := l2_shared.set_DebugPrefix
                  (p ++ " mode " ++ l2_shared.Mode pm ++ ":")%string pm in
       let st := step d db in
       l2_shared.step_err st = None
       /\ l2_shared.step_response st = Some resp
       /\ l2_shared.ClearCache resp = false
       /\ db' = l2_shared.step_db st
       /\ st' = l2_shared.updateCache status (Some resp)
                  (l2_shared.BatchMustBeClosed (l2_shared.step_data st))
       /\ (l2_shared.BatchMustBeClosed (l2_shared.step_data st) = true ->
           l2_shared.checkProcessBatchResultMatchExpected (l2_shared.step_data st)
             (l2_shared.ProcessBatchResponse resp) = Done None).
Proof.
  intros Hrun. unfold l2_shared.ProcessTrustedBatch in Hrun.
  destruct (l2_shared.LastTrustedBatches status !! 0%nat) as [c|] eqn:H0; [|discriminate Hrun].
  destruct (l2_shared.LastTrustedBatches status !! 1%nat) as [[prev|]|] eqn:H1;
    [| discriminate Hrun | discriminate Hrun].
  destruct (getModeForProcessBatch (Some t) c (Some prev)) as [pm err] eqn:Hmode.
  pose proof (getModeForProcessBatch_facts _ _ _ _ _ Hmode) as (-> & _ & _ & _ & Hmodes).
  exists c, prev, pm.
  set (d := l2_shared.set_DebugPrefix _ pm) in *.
  change (l2_shared.Mode d) with (l2_shared.Mode pm) in Hrun.
  destruct (String.eqb (l2_shared.Mode pm) l2_shared.NothingProcessMode) eqn:Enothing.
  { cbn in Hrun. destruct (l2_shared.BatchMustBeClosed _); discriminate Hrun. }
  apply String.eqb_neq in Enothing.
  destruct (String.eqb (l2_shared.Mode pm) l2_shared.FullProcessMode).
  { exists l2_shared.FullProcess. after_step Hrun Hmode Enothing. }
  destruct (String.eqb (l2_shared.Mode pm) l2_shared.IncrementalProcessMode).
  { exists l2_shared.IncrementalProcess. after_step Hrun Hmode Enothing. }
  destruct (String.eqb (l2_shared.Mode pm) l2_shared.ReprocessProcessMode).
  { exists l2_shared.ReProcess. after_step Hrun Hmode Enothing. }
  cbn in Hrun. destruct (l2_shared.BatchMustBeClosed _); discriminate Hrun.
Qed.


Lemma updateCache_slots_after (status : l2_shared.TrustedState)
    (resp : l2_shared.ProcessResponse) (closedBatch : bool) :
  l2_shared.ClearCache resp = false ->
  exists slot,
    l2_shared.LastTrustedBatches (l2_shared.updateCache status (Some resp) closedBatch)
    = if closedBatch then [None; slot] else [slot; None].
Proof.
  intros Hclear. unfold l2_shared.updateCache. rewrite Hclear.
  destruct (l2_shared.UpdateBatch resp), (l2_shared.ProcessBatchResponse resp),
    (l2_shared.UpdateBatchWithProcessBatchResponse resp), closedBatch; cbn; eauto.
Qed.

(** X10. When the cache holds the trusted batch as the trusted node reports
    it, and the batch before it, [ProcessTrustedBatch] runs no step: whatever
    the steps are, the database is the one it was given and the call returns
    no cache and no error. *)
Theorem ProcessTrustedBatch_synced_batch (t : types.Batch) (c prev : state.Batch)
    (status : l2_shared.TrustedState) (db : DB) (p : string) :
  l2_shared.LastTrustedBatches status !! 0%nat = Some (Some c) ->
  l2_shared.LastTrustedBatches status !! 1%nat = Some (Some prev) ->
  fst (l2_shared.checkIfSynced Address_String c t) = true ->
  ProcessTrustedBatch (Some t) status db p = (Done (None, None), db).
Proof.
  intros H0 H1 Hsynced.
  unfold l2_shared.ProcessTrustedBatch, l2_shared.getModeForProcessBatch.
  rewrite H0, H1.
  destruct (l2_shared.checkIfSynced Address_String c t) as [synced str].
  cbn [fst] in Hsynced. subst synced. reflexivity.
Qed.

(** X11. A cache that [ProcessTrustedBatch] returns has two slots, one of
    them nil. With steps that leave the flag [BatchMustBeClosed] as they find
    it: after a closed trusted batch slot 0 is nil; after an open one slot 1
    is nil, and the cache cannot be handed back as it is, the next call fails
    for the missing previous batch before any step is run. *)
Theorem ProcessTrustedBatch_returned_cache (t : types.Batch)
    (status st' : l2_shared.TrustedState) (db db' : DB) (p : string) :
  keeps_closing_flag l2_shared.FullProcess ->
  keeps_closing_flag l2_shared.IncrementalProcess ->
  keeps_closing_flag l2_shared.ReProcess ->
  ProcessTrustedBatch (Some t) status db p = (Done (Some st', None), db') ->
  exists slot : option state.Batch,
    (types.Closed t = true -> l2_shared.LastTrustedBatches st' = [None; slot])
    /\ (types.Closed t = false ->
        l2_shared.LastTrustedBatches st' = [slot; None]
        /\ forall (t2 : types.Batch) (db2 : DB) (p2 : string),
             ProcessTrustedBatch (Some t2) st' db2 p2
             = (Done (None, Some errNilBatch), db2)).
Proof.
  intros Hfull Hincremental Hreprocess Hrun.
  apply ProcessTrustedBatch_inversion in Hrun
    as (c & prev & pm & step & resp & _ & _ & Hmode & Hnothing & Hstep & Hrest).
  cbv zeta in Hrest. destruct Hrest as (_ & _ & Hclear & _ & -> & _).
  apply getModeForProcessBatch_facts in Hmode as (_ & _ & _ & Hflag & _).
  apply String.eqb_neq in Hnothing. rewrite Hnothing in Hflag. cbn [negb andb] in Hflag.
  assert (Hkeep : keeps_closing_flag step) by (destruct Hstep as [->|[->| ->]]; assumption).
  rewrite Hkeep. change (l2_shared.BatchMustBeClosed (l2_shared.set_DebugPrefix _ pm))
    with (l2_shared.BatchMustBeClosed pm). rewrite Hflag.
  destruct (updateCache_slots_after status resp (types.Closed t) Hclear) as [slot Hslots].
  exists slot. split; intros Hclosed; rewrite Hclosed in Hslots |- *; [exact Hslots|].
  split; [exact Hslots|].
  intros t2 db2 p2. unfold l2_shared.ProcessTrustedBatch. rewrite Hslots.
  reflexivity.
Qed.

Lemma ProcessTrustedBatch_first_time_eq (t : types.Batch) (prev : state.Batch)
    (status : l2_shared.TrustedState) (db : DB) (p : string) :
  l2_shared.LastTrustedBatches status !! 0%nat = Some None ->
  l2_shared.LastTrustedBatches status !! 1%nat = Some (Some prev) ->
  ProcessTrustedBatch (Some t) status db p
  = let st := l2_shared.FullProcess (fullProcessData timeProvider_Now t prev p) db in
    match l2_shared.step_err st with
    | Some err => (Done (None, Some err), l2_shared.step_db st)
    | None =>
        match (if l2_shared.BatchMustBeClosed (l2_shared.step_data st)
               then match l2_shared.step_response st with
                    | None => Panics "nil pointer dereference"
                    | Some resp =>
                        l2_shared.checkProcessBatchResultMatchExpected
                          (l2_shared.step_data st) (l2_shared.ProcessBatchResponse resp)
                    end
               else Done None) with
        | Panics msg => (Panics msg, l2_shared.step_db st)
        | Done (Some err) => (Done (None, Some err), l2_shared.step_db st)
        | Done None =>
            match l2_shared.step_response st with
            | Some resp =>
                if l2_shared.ClearCache resp
                then (Done (None, None), l2_shared.step_db st)
                else (Done (Some (l2_shared.updateCache status (Some resp)
                                    (l2_shared.BatchMustBeClosed (l2_shared.step_data st))),
                            None),
                      l2_shared.step_db st)
            | None => (Done (None, None), l2_shared.step_db st)
            end
        end
    end.
Proof.
  intros H0 H1. unfold l2_shared.ProcessTrustedBatch. rewrite H0, H1. reflexivity.
Qed.

Lemma ProcessTrustedBatch_first_time_db (t : types.Batch) (prev : state.Batch)
    (status : l2_shared.TrustedState) (db : DB) (p : string) :
  l2_shared.LastTrustedBatches status !! 0%nat = Some None ->
  l2_shared.LastTrustedBatches status !! 1%nat = Some (Some prev) ->
  snd (ProcessTrustedBatch (Some t) status db p)
  = l2_shared.step_db
      (l2_shared.FullProcess (fullProcessData timeProvider_Now t prev p) db).
Proof.
  intros H0 H1.
  rewrite (ProcessTrustedBatch_first_time_eq t prev status db p H0 H1).
  cbv zeta.
  destruct (l2_shared.step_err _); [reflexivity|].
  destruct (l2_shared.BatchMustBeClosed _).
  - destruct (l2_shared.step_response _) as [resp|]; [|reflexivity].
    destruct (l2_shared.checkProcessBatchResultMatchExpected _ _) as [[e|]|msg];
      try reflexivity.
    destruct (l2_shared.ClearCache resp); reflexivity.
  - destruct (l2_shared.step_response _) as [resp|]; [|reflexivity].
    destruct (l2_shared.ClearCache resp); reflexivity.
Qed.

(** X12. A trusted batch that is not in the cache, after a previous batch that
    is, goes to [FullProcess], with the state root and the acc input hash of
    the previous batch as the old ones. The database is the one the step
    leaves, also when the call fails; an error of the step is returned as it
    is; a step that returns neither a response nor an error for a batch that
    must be closed makes the call panic; and an executor response whose state
    root is not the one of the trusted batch to close is answered with an
    error. *)
Theorem ProcessTrustedBatch_first_time (t : types.Batch) (prev : state.Batch)
    (status : l2_shared.TrustedState) (db : DB) (p : string) :
  l2_shared.LastTrustedBatches status !! 0%nat = Some None ->
  l2_shared.LastTrustedBatches status !! 1%nat = Some (Some prev) ->
  let st := l2_shared.FullProcess (fullProcessData timeProvider_Now t prev p) db in
  snd (ProcessTrustedBatch (Some t) status db p) = l2_shared.step_db st
  /\ (forall e, l2_shared.step_err st = Some e ->
        fst (ProcessTrustedBatch (Some t) status db p) = Done (None, Some e))
  /\ (l2_shared.step_err st = None ->
      l2_shared.step_response st = None ->
      l2_shared.BatchMustBeClosed (l2_shared.step_data st) = true ->
      exists msg, fst (ProcessTrustedBatch (Some t) status db p) = Panics msg)
  /\ (forall resp r t',
        l2_shared.step_err st = None ->
        l2_shared.step_response st = Some resp ->
        l2_shared.BatchMustBeClosed (l2_shared.step_data st) = true ->
        l2_shared.TrustedBatch (l2_shared.step_data st) = Some t' ->
        l2_shared.ProcessBatchResponse resp = Some r ->
        state.NewStateRoot r <> types.StateRoot t' ->
        exists e, fst (ProcessTrustedBatch (Some t) status db p) = Done (None, Some e)).
Proof.
  intros H0 H1 st.
  split; [exact (ProcessTrustedBatch_first_time_db t prev status db p H0 H1)|].
  rewrite (ProcessTrustedBatch_first_time_eq t prev status db p H0 H1).
  cbv zeta. fold st.
  split; [|split].
  - intros e ->. reflexivity.
  - intros -> -> ->. eexists. reflexivity.
  - intros resp r t' -> -> -> Htrusted Hresp Hroot.
    unfold l2_shared.checkProcessBatchResultMatchExpected, l2_shared.checkStateRootAndLER.
    rewrite Htrusted, Hresp.
    rewrite bool_decide_eq_true_2 by exact Hroot.
    eexists. reflexivity.
Qed.

(** X13. The state root is handed on from a closed batch to the next one.
    When [FullProcess] has executed a closed trusted batch, leaving the
    process data as it was and answering with an executor response to update
    the row with, and [ProcessTrustedBatch] returns a cache, then slot 1 of
    that cache is the row with the state root and the local exit root of the
    trusted batch, no longer wip; and the next trusted batch processed with
    that cache goes to [FullProcess] with that state root as the old one. *)
Theorem ProcessTrustedBatch_chain (t : types.Batch) (prev : state.Batch)
    (status st' : l2_shared.TrustedState) (db db' : DB) (p : string)
    (resp : l2_shared.ProcessResponse) (r : state.ProcessBatchResponse) (b : state.Batch) :
  l2_shared.LastTrustedBatches status !! 0%nat = Some None ->
  l2_shared.LastTrustedBatches status !! 1%nat = Some (Some prev) ->
  types.Closed t = true ->
  l2_shared.step_data (l2_shared.FullProcess (fullProcessData timeProvider_Now t prev p) db)
  = fullProcessData timeProvider_Now t prev p ->
  l2_shared.step_response
    (l2_shared.FullProcess (fullProcessData timeProvider_Now t prev p) db) = Some resp ->
  l2_shared.ProcessBatchResponse resp = Some r ->
  l2_shared.UpdateBatch resp = Some b ->
  l2_shared.UpdateBatchWithProcessBatchResponse resp = true ->
  ProcessTrustedBatch (Some t) status db p = (Done (Some st', None), db') ->
  exists row : state.Batch,
    l2_shared.LastTrustedBatches st' = [None; Some row]
    /\ state.BatchNumber row = state.BatchNumber b
    /\ state.StateRoot row = types.StateRoot t
    /\ state.LocalExitRoot row = types.LocalExitRoot t
    /\ state.WIP row = false
    /\ forall (t2 : types.Batch) (p2 : string),
         snd (ProcessTrustedBatch (Some t2) st' db' p2)
         = l2_shared.step_db
             (l2_shared.FullProcess (fullProcessData timeProvider_Now t2 row p2) db')
         /\ l2_shared.OldStateRoot (fullProcessData timeProvider_Now t2 row p2)
            = types.StateRoot t.
Proof.
  intros H0 H1 Hclosed Hdata Hresp Hr Hb Hupdate Hrun.
  rewrite (ProcessTrustedBatch_first_time_eq t prev status db p H0 H1) in Hrun.
  cbv zeta in Hrun. rewrite Hdata, Hresp, Hr in Hrun.
  cbn [l2_shared.BatchMustBeClosed fullProcessData] in Hrun. rewrite Hclosed in Hrun.
  destruct (l2_shared.step_err _); [discriminate Hrun|].
  unfold l2_shared.checkProcessBatchResultMatchExpected, l2_shared.checkStateRootAndLER in Hrun.
  cbn [l2_shared.TrustedBatch fullProcessData] in Hrun.
  destruct (bool_decide (state.NewStateRoot r <> types.StateRoot t)) eqn:Hroot;
    [discriminate Hrun|].
  destruct (bool_decide (state.NewLocalExitRoot r <> types.LocalExitRoot t)) eqn:Hler;
    [discriminate Hrun|].
  apply bool_decide_eq_false in Hroot. apply dec_stable in Hroot.
  apply bool_decide_eq_false in Hler. apply dec_stable in Hler.
  destruct (l2_shared.ClearCache resp) eqn:Hclear; [discriminate Hrun|].
  injection Hrun as <- <-.
  exists (l2_shared.overwriteFromResponse r true b).
  assert (Hslots : l2_shared.LastTrustedBatches (l2_shared.updateCache status (Some resp) true)
                   = [None; Some (l2_shared.overwriteFromResponse r true b)]).
  { unfold l2_shared.updateCache. rewrite Hclear, Hb, Hr, Hupdate. reflexivity. }
  split; [exact Hslots|].
  split; [reflexivity|]. split; [exact Hroot|]. split; [exact Hler|].
  split; [reflexivity|].
  intros t2 p2. split; [|exact Hroot].
  pose proof (ProcessTrustedBatch_first_time_db t2 (l2_shared.overwriteFromResponse r true b)
                (l2_shared.updateCache status (Some resp) true)
                (l2_shared.step_db
                   (l2_shared.FullProcess (fullProcessData timeProvider_Now t prev p) db))
                p2) as Hdb.
  rewrite Hslots in Hdb. exact (Hdb eq_refl eq_refl).
Qed.

End TrustedBatchProcessing.

(** ** The processor of trusted batches on batch 7 *)

Lemma ProcessTrustedBatch_synced_batch_witness :
  l2_shared.ProcessTrustedBatch addressText 1700000200
    (Steps := stepsThatExecute (fixtures.hashOf x02))
    (Some (fixtures.trustedBatch7 false)) cacheWith7 [] "sync"
  = (Done (None, None), []).
Proof.
  apply (ProcessTrustedBatch_synced_batch addressText 1700000200
           (Steps := stepsThatExecute (fixtures.hashOf x02))
           (fixtures.trustedBatch7 false) fixtures.stateBatch7 fixtures.stateBatch6);
    reflexivity.
Defined.

Lemma ProcessTrustedBatch_returned_cache_witness :
  exists st' db',
    l2_shared.ProcessTrustedBatch addressText 1700000200
      (Steps := stepsThatExecute (fixtures.hashOf x02))
      (Some (fixtures.trustedBatch7 false)) cacheAfter6 [] "sync"
    = (Done (Some st', None), db')
    /\ l2_shared.ProcessTrustedBatch addressText 1700000200
         (Steps := stepsThatExecute (fixtures.hashOf x02))
         (Some (fixtures.trustedBatch7 true)) st' db' "sync"
       = (Done (None, Some errNilBatch), db').
Proof.
  destruct (l2_shared.ProcessTrustedBatch addressText 1700000200
              (Steps := stepsThatExecute (fixtures.hashOf x02))
              (Some (fixtures.trustedBatch7 false)) cacheAfter6 [] "sync")
    as [[[[st'|] [e|]]|msg] db'] eqn:Hrun; try (vm_compute in Hrun; discriminate Hrun).
  exists st', db'. split; [reflexivity|].
  destruct (ProcessTrustedBatch_returned_cache addressText 1700000200
              (Steps := stepsThatExecute (fixtures.hashOf x02))
              (fixtures.trustedBatch7 false) cacheAfter6 st' [] db' "sync")
    as (slot & _ & Hopen); try (intros d db; reflexivity); [exact Hrun|].
  destruct (Hopen eq_refl) as [_ Hnext]. apply Hnext.
Defined.

Lemma ProcessTrustedBatch_first_time_witness :
  exists msg,
    fst (l2_shared.ProcessTrustedBatch addressText 1700000200
           (Steps := stepsThatAnswer None)
           (Some (fixtures.trustedBatch7 true)) cacheAfter6 [] "sync")
    = Panics msg.
Proof.
  destruct (ProcessTrustedBatch_first_time addressText 1700000200
              (Steps := stepsThatAnswer None)
              (fixtures.trustedBatch7 true) fixtures.stateBatch6 cacheAfter6 [] "sync"
              eq_refl eq_refl) as (_ & _ & Hpanic & _).
  exact (Hpanic eq_refl eq_refl eq_refl).
Defined.

Lemma ProcessTrustedBatch_chain_witness :
  exists st' db' row,
    l2_shared.ProcessTrustedBatch addressText 1700000200
      (Steps := stepsThatExecute (fixtures.hashOf x02))
      (Some (fixtures.trustedBatch7 true)) cacheAfter6 [] "sync"
    = (Done (Some st', None), db')
    /\ l2_shared.LastTrustedBatches st' = [None; Some row]
    /\ state.StateRoot row = fixtures.hashOf x02
    /\ state.WIP row = false.
Proof.
  destruct (l2_shared.ProcessTrustedBatch addressText 1700000200
              (Steps := stepsThatExecute (fixtures.hashOf x02))
              (Some (fixtures.trustedBatch7 true)) cacheAfter6 [] "sync")
    as [[[[st'|] [e|]]|msg] db'] eqn:Hrun; try (vm_compute in Hrun; discriminate Hrun).
  destruct (ProcessTrustedBatch_chain addressText 1700000200
              (Steps := stepsThatExecute (fixtures.hashOf x02))
              (fixtures.trustedBatch7 true) fixtures.stateBatch6 cacheAfter6 st' [] db' "sync"
              (executed (fixtures.hashOf x02))
              (fixtures.answerWith (fixtures.hashOf x02) false) fixtures.stateBatch7
              eq_refl eq_refl eq_refl eq_refl eq_refl eq_refl eq_refl eq_refl Hrun)
    as (row & Hslots & _ & Hroot & _ & Hwip & _).
  exists st', db', row. repeat split; assumption.
Defined.

(** ** The arguments of the RPC requests *)

Lemma digitValue_digitChar (d : Z) : 0 <= d < 36 -> digitValue (digitChar d) = Some d.
Proof.
  intros Hd.
  assert (Hnat : d = Z.of_nat (Z.to_nat d)) by lia.
  assert (Hlt : (Z.to_nat d < 36)%nat) by lia.
  rewrite Hnat. generalize dependent (Z.to_nat d). clear. intros n _.
  do 36 (destruct n as [|n]; [intros _; reflexivity|]).
  intros H. exfalso. lia.
Qed.

Section ParseFormat.

Variable base : Z.
Hypothesis base_ok : 2 <= base <= 36.

Lemma parseLoop_digit (u n : Z) (acc : string) :
  0 <= u < base -> 0 <= n -> n * base + u < 2 ^ 64 ->
  parseLoop (String (digitChar u) acc) base ((2 ^ 64 - 1) / base + 1) (2 ^ 64 - 1) n
  = parseLoop acc base ((2 ^ 64 - 1) / base + 1) (2 ^ 64 - 1) (n * base + u).
Proof.
  intros Hu Hn Hfit. cbn [parseLoop].
  rewrite digitValue_digitChar by lia.
  assert (Hcut : n < (2 ^ 64 - 1) / base + 1).
  { apply Z.lt_succ_r. apply Z.div_le_lower_bound; nia. }
  assert (Hmul : wrap 64 (n * base) = n * base).
  { unfold wrap. apply Z.mod_small. nia. }
  assert (Hadd : wrap 64 (n * base + u) = n * base + u).
  { unfold wrap. apply Z.mod_small. nia. }
  rewrite Hmul, Hadd.
  replace (base <=? u) with false by (symmetry; apply Z.leb_gt; lia).
  replace ((2 ^ 64 - 1) / base + 1 <=? n) with false by (symmetry; apply Z.leb_gt; lia).
  replace (n * base + u <? n * base) with false by (symmetry; apply Z.ltb_ge; lia).
  replace (2 ^ 64 - 1 <? n * base + u) with false by (symmetry; apply Z.ltb_ge; lia).
  reflexivity.
Qed.

Lemma parseLoop_formatBits (fuel : nat) (u : Z) (acc : string) :
  0 <= u < 2 ^ 64 -> u < base ^ Z.of_nat fuel ->
  parseLoop (formatBits fuel u base acc) base ((2 ^ 64 - 1) / base + 1) (2 ^ 64 - 1) 0
  = parseLoop acc base ((2 ^ 64 - 1) / base + 1) (2 ^ 64 - 1) u.
Proof.
  revert u acc. induction fuel as [|fuel IH]; intros u acc Hu Hfuel.
  - cbn in Hfuel. cbn [formatBits]. replace u with 0 by lia. reflexivity.
  - cbn [formatBits]. destruct (u <? base) eqn:Hlt.
    + apply Z.ltb_lt in Hlt. rewrite parseLoop_digit by lia.
      f_equal.
    + apply Z.ltb_ge in Hlt.
      assert (Hdm : u = base * (u / base) + u mod base) by (apply Z.div_mod; lia).
      assert (Hmod : 0 <= u mod base < base) by (apply Z.mod_pos_bound; lia).
      assert (Hq : 0 <= u / base) by (apply Z.div_pos; lia).
      rewrite IH.
      * rewrite parseLoop_digit by nia. f_equal. lia.
      * split; [exact Hq|]. nia.
      * apply Z.div_lt_upper_bound; [lia|].
        rewrite Nat2Z.inj_succ, Z.pow_succ_r in Hfuel by lia. exact Hfuel.
Qed.

Lemma formatBits_nonempty (fuel : nat) (u : Z) (acc : string) :
  formatBits (S fuel) u base acc <> EmptyString.
Proof.
  revert u acc. induction fuel as [|fuel IH]; intros u acc.
  - cbn [formatBits]. destruct (u <? base); discriminate.
  - change (formatBits (S (S fuel)) u base acc)
      with (if u <? base then String (digitChar u) acc
            else formatBits (S fuel) (u / base) base (String (digitChar (u mod base)) acc)).
    destruct (u <? base); [discriminate|apply IH].
Qed.

End ParseFormat.

(** X14. A uint64 survives [ArgUint64.MarshalText] followed by
    [ArgUint64.UnmarshalText], for every base of the package [hex] that
    [strconv] accepts, 16 among them, and a bit size of 64: marshalling does
    not panic, and unmarshalling its text gives the number back. *)
Theorem ArgUint64_round_trip (hex_Base hex_BitSize64 x : Z) :
  2 <= hex_Base <= 36 -> hex_BitSize64 = 64 -> 0 <= x < 2 ^ 64 ->
  exists text,
    types.ArgUint64_MarshalText hex_Base x = Done text
    /\ types.ArgUint64_UnmarshalText hex_Base hex_BitSize64 text = Ok x.
Proof.
  intros Hbase -> Hx.
  unfold types.ArgUint64_MarshalText, strconv_AppendUint.
  replace ((hex_Base <? 2) || (36 <? hex_Base)) with false
    by (symmetry; apply orb_false_iff; split; [apply Z.ltb_ge|apply Z.ltb_ge]; lia).
  eexists. split; [reflexivity|].
  unfold types.ArgUint64_UnmarshalText.
  change (strings_TrimPrefix ("0x" ++ formatBits 64 x hex_Base "")%string "0x")
    with (formatBits 64 x hex_Base "").
  unfold strconv_ParseUint.
  pose proof (formatBits_nonempty hex_Base 63 x "") as Hne.
  destruct (formatBits 64 x hex_Base "") as [|c rest] eqn:Htext; [contradiction|].
  replace ((hex_Base <? 2) || (36 <? hex_Base)) with false
    by (symmetry; apply orb_false_iff; split; [apply Z.ltb_ge|apply Z.ltb_ge]; lia).
  cbn [Z.ltb Z.eqb orb Z.compare Pos.compare Pos.compare_cont].
  rewrite <- Htext.
  rewrite (parseLoop_formatBits hex_Base Hbase 64 x "" Hx).
  - reflexivity.
  - apply Z.lt_le_trans with (2 ^ 64); [lia|].
    change (Z.of_nat 64) with 64. apply Z.pow_le_mono_l. lia.
Qed.

Lemma digitValue_nonneg (c : ascii) (d : Z) : digitValue c = Some d -> 0 <= d.
Proof.
  unfold digitValue.
  destruct ((48 <=? _) && (_ <=? 57)) eqn:Hdigit.
  - apply andb_true_iff in Hdigit as [Hlo _]. apply Z.leb_le in Hlo.
    intros H. injection H as <-. lia.
  - destruct ((97 <=? _) && (_ <=? 122)) eqn:Hletter; [|discriminate].
    apply andb_true_iff in Hletter as [Hlo _]. apply Z.leb_le in Hlo.
    intros H. injection H as <-. lia.
Qed.

Lemma numeral_grows (base : Z) (s : string) (m n : Z) :
  1 <= base -> 0 <= m -> numeral base s m = Some n -> m <= n.
Proof.
  intros Hbase. revert m. induction s as [|c rest IH]; intros m Hm; cbn [numeral].
  - intros H. injection H as <-. lia.
  - destruct (digitValue c) as [d|] eqn:Hd; [|discriminate].
    apply digitValue_nonneg in Hd.
    destruct (d <? base); [|discriminate].
    intros H. apply IH in H; nia.
Qed.

Lemma parseLoop_numeral (base : Z) (s : string) (n0 n : Z) :
  2 <= base <= 36 -> 0 <= n0 < 2 ^ 64 ->
  parseLoop s base ((2 ^ 64 - 1) / base + 1) (2 ^ 64 - 1) n0 = Ok n
  <-> numeral base s n0 = Some n /\ n < 2 ^ 64.
Proof.
  intros Hbase. revert n0. induction s as [|c rest IH]; intros n0 Hn0;
    cbn [parseLoop numeral].
  - split.
    + intros H. injection H as <-. split; [reflexivity|lia].
    + intros [H _]. injection H as <-. reflexivity.
  - destruct (digitValue c) as [d|] eqn:Hd.
    2:{ split; [discriminate|intros [H _]; discriminate H]. }
    apply digitValue_nonneg in Hd.
    rewrite Z.leb_antisym.
    destruct (d <? base) eqn:Hdb; cbn [negb].
    2:{ split; [discriminate|intros [H _]; discriminate H]. }
    apply Z.ltb_lt in Hdb.
    assert (Hgrow : forall v, numeral base rest (n0 * base + d) = Some v ->
                              n0 * base + d <= v).
    { intros v. apply numeral_grows; nia. }
    destruct ((2 ^ 64 - 1) / base + 1 <=? n0) eqn:Hcut.
    { apply Z.leb_le in Hcut.
      assert (Hsucc : 2 ^ 64 - 1 < base * ((2 ^ 64 - 1) / base + 1))
        by (apply Z.mul_succ_div_gt; lia).
      split; [discriminate|]. intros [H Hlt]. apply Hgrow in H. exfalso. nia. }
    apply Z.leb_gt in Hcut.
    assert (Hprod : n0 * base <= 2 ^ 64 - 1).
    { assert (Hle : n0 <= (2 ^ 64 - 1) / base) by lia.
      pose proof (Z.mul_div_le (2 ^ 64 - 1) base) as Hdiv. nia. }
    assert (Hmul : wrap 64 (n0 * base) = n0 * base).
    { unfold wrap. apply Z.mod_small. nia. }
    rewrite Hmul.
    destruct (Z_lt_le_dec (n0 * base + d) (2 ^ 64)) as [Hfit|Hover].
    + assert (Hadd : wrap 64 (n0 * base + d) = n0 * base + d).
      { unfold wrap. apply Z.mod_small. nia. }
      rewrite Hadd.
      replace (n0 * base + d <? n0 * base) with false by (symmetry; apply Z.ltb_ge; lia).
      replace (2 ^ 64 - 1 <? n0 * base + d) with false by (symmetry; apply Z.ltb_ge; lia).
      cbn [orb]. apply IH. nia.
    + assert (Hadd : wrap 64 (n0 * base + d) = n0 * base + d - 2 ^ 64).
      { unfold wrap. symmetry. apply Z.mod_unique with 1; lia. }
      rewrite Hadd.
      replace (n0 * base + d - 2 ^ 64 <? n0 * base) with true
        by (symmetry; apply Z.ltb_lt; lia).
      cbn [orb]. split; [discriminate|].
      intros [H Hlt]. apply Hgrow in H. exfalso. lia.
Qed.

(** X15. [ArgUint64.UnmarshalText] never lets a number wrap around: with a
    base that [strconv] accepts and a bit size of 64, it succeeds exactly when
    the text, without a leading 0x, is not empty and denotes a number below
    2^64 in that base, and then it returns that number. *)
Theorem ArgUint64_UnmarshalText_value (hex_Base hex_BitSize64 : Z) (input : string) (n : Z) :
  2 <= hex_Base <= 36 -> hex_BitSize64 = 64 ->
  types.ArgUint64_UnmarshalText hex_Base hex_BitSize64 input = Ok n
  <-> strings_TrimPrefix input "0x" <> EmptyString
      /\ numeral hex_Base (strings_TrimPrefix input "0x") 0 = Some n
      /\ n < 2 ^ 64.
Proof.
  intros Hbase ->.
  unfold types.ArgUint64_UnmarshalText, strconv_ParseUint.
  destruct (strings_TrimPrefix input "0x") as [|c rest] eqn:Htext.
  { split; [discriminate|]. intros [H _]. contradiction. }
  replace ((hex_Base <? 2) || (36 <? hex_Base)) with false
    by (symmetry; apply orb_false_iff; split; [apply Z.ltb_ge|apply Z.ltb_ge]; lia).
  cbn [Z.ltb Z.eqb orb Z.compare Pos.compare Pos.compare_cont].
  rewrite parseLoop_numeral by lia.
  split; [intros H; split; [discriminate|exact H]|intros [_ H]; exact H].
Qed.

(** X16. [ArgBytes.UnmarshalText] hides the error of the decoder: it returns
    nil for every text, and after a text that does not decode the receiver is
    what it was. On the same text [ArgBig.UnmarshalText] returns the error. *)
Theorem ArgBytes_UnmarshalText_hides_errors
    (zkevm_hex_DecodeString : string -> result error (list byte))
    (receiver : list byte) (number : Z) (input : string) :
  snd (types.ArgBytes_UnmarshalText zkevm_hex_DecodeString receiver input) = None
  /\ forall err,
       types.decodeToHex zkevm_hex_DecodeString input = Err err ->
       types.ArgBytes_UnmarshalText zkevm_hex_DecodeString receiver input = (receiver, None)
       /\ types.ArgBig_UnmarshalText zkevm_hex_DecodeString number input
          = (number, Some err).
Proof.
  unfold types.ArgBytes_UnmarshalText, types.ArgBig_UnmarshalText.
  destruct (types.decodeToHex zkevm_hex_DecodeString input) as [hh|e].
  - split; [reflexivity|]. intros err H. discriminate H.
  - split; [reflexivity|]. intros err H. injection H as <-. split; reflexivity.
Qed.

Lemma hexDecode_hex_EncodeToString (b : list byte) :
  hexDecode (hex_EncodeToString b) = Ok b.
Proof.
  induction b as [|x b IH]; [reflexivity|].
  cbn [hex_EncodeToString hexDecode]. rewrite hex_digits_decode, IH. reflexivity.
Qed.

Lemma hex_EncodeToString_even (b : list byte) :
  Nat.odd (String.length (hex_EncodeToString b)) = false.
Proof.
  induction b as [|x b IH]; [reflexivity|].
  cbn [hex_EncodeToString String.length]. rewrite Nat.odd_succ, Nat.even_succ. exact IH.
Qed.

(** X17. Bytes survive [ArgBytes.MarshalText] followed by
    [ArgBytes.UnmarshalText], whatever the receiver held, with an encoder of
    the package [hex] that writes an even number of characters and a decoder
    that reads them back: the prefix 0x is put in front and taken off again,
    and no 0 is put in front of the digits. *)
Theorem ArgBytes_round_trip (zkevm_hex_EncodeToString : list byte -> string)
    (zkevm_hex_DecodeString : string -> result error (list byte))
    (receiver b : list byte) :
  (forall bs, zkevm_hex_DecodeString (zkevm_hex_EncodeToString bs) = Ok bs) ->
  (forall bs, Nat.odd (String.length (zkevm_hex_EncodeToString bs)) = false) ->
  types.ArgBytes_UnmarshalText zkevm_hex_DecodeString receiver
    (types.ArgBytes_MarshalText zkevm_hex_EncodeToString b)
  = (b, None).
Proof.
  intros Hdecode Heven.
  unfold types.ArgBytes_UnmarshalText, types.ArgBytes_MarshalText, types.decodeToHex,
    types.encodeToHex.
  rewrite Heven.
  change (strings_TrimPrefix (String "0" (String "x" (zkevm_hex_EncodeToString b))) "0x")
    with (zkevm_hex_EncodeToString b).
  rewrite Heven, Hdecode. reflexivity.
Qed.

Section ToTransactionProperties.

Variable GetNonce : Address -> Hash -> result error Z.

(** X18. The gas of a transaction that [ToTransaction] builds is the gas
    asked for when that is above 0 and below [maxCumulativeGasUsed], and
    [maxCumulativeGasUsed] in every other case: it is never above the
    maximum, and never 0 unless the maximum is. *)
Theorem ToTransaction_gas (args : types.TxArgs) (maxCumulativeGasUsed : Z) (root : Hash)
    (defaultSenderAddress sender : Address) (tx : types.LegacyTx) :
  types.ToTransaction GetNonce args maxCumulativeGasUsed root defaultSenderAddress
  = Ok (sender, tx) ->
  types.tx_Gas tx <= maxCumulativeGasUsed
  /\ (types.tx_Gas tx = 0 -> maxCumulativeGasUsed = 0)
  /\ (forall g, types.Gas args = Some g -> 0 < g < maxCumulativeGasUsed ->
        types.tx_Gas tx = g)
  /\ (forall g, types.Gas args = Some g -> g <= 0 \/ maxCumulativeGasUsed <= g ->
        types.tx_Gas tx = maxCumulativeGasUsed)
  /\ (types.Gas args = None -> types.tx_Gas tx = maxCumulativeGasUsed).
Proof.
  unfold types.ToTransaction.
  destruct (match types.From args with Some _ => _ | None => _ end) as [[s nonce]|err];
    [|discriminate].
  destruct (match types.Data args with Some _ => _ | None => _ end) as [data|err];
    [|discriminate].
  intros H. injection H as _ <-. cbn [types.tx_Gas].
  destruct (types.Gas args) as [g|].
  - destruct ((0 <? g) && (g <? maxCumulativeGasUsed)) eqn:Hgas.
    + apply andb_true_iff in Hgas as [Hpos Hlt].
      apply Z.ltb_lt in Hpos. apply Z.ltb_lt in Hlt.
      repeat split; try lia.
      * intros g' Hg' _. injection Hg' as <-. reflexivity.
      * intros g' Hg' Hout. injection Hg' as <-. lia.
      * discriminate.
    + apply andb_false_iff in Hgas.
      repeat split; try lia.
      * intros g' Hg' Hin. injection Hg' as <-.
        destruct Hgas as [Hgas|Hgas]; apply Z.ltb_ge in Hgas; lia.
  - repeat split; try lia; discriminate.
Qed.

(** X19. [ToTransaction] never reads the nonce of its arguments. The nonce of
    the transaction is the one the state has for the sender, and 0 for the
    default sender, which stands in when no sender or the zero address is
    given; the state is not asked for the nonce of the default sender. *)
Theorem ToTransaction_nonce_from_state (from to : option Address) (gas : option Z)
    (gasPrice value data input : option (list byte)) (nonce nonce' : option Z)
    (maxCumulativeGasUsed : Z) (root : Hash) (defaultSenderAddress : Address) :
  let args (n : option Z) :=
    {| types.From := from; types.To := to; types.Gas := gas; types.GasPrice := gasPrice;
       types.Value := value; types.Data := data; types.Input := input;
       types.Nonce := n |} in
  types.ToTransaction GetNonce (args nonce) maxCumulativeGasUsed root defaultSenderAddress
  = types.ToTransaction GetNonce (args nonce') maxCumulativeGasUsed root defaultSenderAddress
  /\ forall sender tx,
       types.ToTransaction GetNonce (args nonce) maxCumulativeGasUsed root
         defaultSenderAddress = Ok (sender, tx) ->
       match from with
       | Some a =>
           if bool_decide (a = state.ZeroAddress)
           then sender = defaultSenderAddress /\ types.tx_Nonce tx = 0
           else sender = a /\ GetNonce a root = Ok (types.tx_Nonce tx)
       | None => sender = defaultSenderAddress /\ types.tx_Nonce tx = 0
       end.
Proof.
  intros args. split; [reflexivity|].
  intros sender tx. unfold types.ToTransaction. cbn [args types.From types.Data types.Input types.To].
  destruct from as [a|].
  - destruct (decide (a = state.ZeroAddress)) as [Hzero|Hother].
    + rewrite (bool_decide_eq_false_2 (a <> state.ZeroAddress)) by (intros H; exact (H Hzero)).
      rewrite (bool_decide_eq_true_2 _ Hzero).
      destruct data; [|destruct input; [|destruct to; [|discriminate]]];
        intros H; injection H as <- <-; split; reflexivity.
    + rewrite (bool_decide_eq_true_2 _ Hother).
      rewrite (bool_decide_eq_false_2 _ Hother).
      destruct (GetNonce a root) as [n|err]; [|discriminate].
      destruct data; [|destruct input; [|destruct to; [|discriminate]]];
        intros H; injection H as <- <-; split; reflexivity.
  - destruct data; [|destruct input; [|destruct to; [|discriminate]]];
      intros H; injection H as <- <-; split; reflexivity.
Qed.

(** X20. [ToTransaction] fails in two cases only: the state fails to give
    the nonce of a sender that is not the zero address, and that error is
    returned; or the arguments have neither data, nor input, nor a
    destination. *)
Theorem ToTransaction_errors (args : types.TxArgs) (maxCumulativeGasUsed : Z) (root : Hash)
    (defaultSenderAddress : Address) (e : error) :
  types.ToTransaction GetNonce args maxCumulativeGasUsed root defaultSenderAddress = Err e
  <-> (exists from,
         types.From args = Some from /\ from <> state.ZeroAddress
         /\ GetNonce from root = Err e)
      \/ ((forall from err,
             types.From args = Some from -> from <> state.ZeroAddress ->
             GetNonce from root <> Err err)
          /\ types.Data args = None /\ types.Input args = None /\ types.To args = None
          /\ e = ErrExternal "contract creation without data provided").
Proof.
  unfold types.ToTransaction.
  destruct (types.From args) as [a|].
  - destruct (decide (a = state.ZeroAddress)) as [Hzero|Hother].
    + rewrite (bool_decide_eq_false_2 (a <> state.ZeroAddress)) by (intros H; exact (H Hzero)).
      destruct (types.Data args); [|destruct (types.Input args); [|destruct (types.To args)]];
        (split;
         [ intros H; first [discriminate H | injection H as <-; right; repeat split; congruence]
         | intros [(from & Hfrom & Hne & _)|(_ & Hd & Hi & Ht & ->)];
           [injection Hfrom as <-; contradiction | congruence] ]).
    + rewrite (bool_decide_eq_true_2 _ Hother).
      destruct (GetNonce a root) as [n|err] eqn:Hnonce.
      * destruct (types.Data args); [|destruct (types.Input args); [|destruct (types.To args)]];
          (split;
           [ intros H; first [discriminate H | injection H as <-; right; repeat split; congruence]
           | intros [(from & Hfrom & Hne & Hget)|(_ & Hd & Hi & Ht & ->)];
             [injection Hfrom as <-; congruence | congruence] ]).
      * split.
        -- intros H. injection H as <-. left. exists a. repeat split; assumption.
        -- intros [(from & Hfrom & Hne & Hget)|(Hok & _)].
           ++ injection Hfrom as <-. congruence.
           ++ exfalso. exact (Hok a err eq_refl Hother Hnonce).
  - destruct (types.Data args); [|destruct (types.Input args); [|destruct (types.To args)]];
      (split;
       [ intros H; first [discriminate H | injection H as <-; right; repeat split; congruence]
       | intros [(from & Hfrom & _)|(_ & Hd & Hi & Ht & ->)];
         [discriminate Hfrom | congruence] ]).
Qed.

End ToTransactionProperties.

(** ** The arguments of the RPC requests on examples *)

Lemma ArgUint64_round_trip_witness :
  types.ArgUint64_MarshalText 16 255 = Done "0xff"%string
  /\ types.ArgUint64_UnmarshalText 16 64 "0xff" = Ok 255.
Proof.
  destruct (ArgUint64_round_trip 16 64 255) as (text & Hmarshal & Hunmarshal);
    [lia | reflexivity | lia |].
  assert (Htext : text = "0xff"%string).
  { assert (Hdone : Done text = Done "0xff"%string)
      by (rewrite <- Hmarshal; reflexivity).
    injection Hdone as ->. reflexivity. }
  rewrite Htext in Hmarshal, Hunmarshal. split; assumption.
Defined.

Lemma ArgUint64_UnmarshalText_value_witness :
  types.ArgUint64_UnmarshalText 16 64 "1F" = Ok 31.
Proof.
  apply (ArgUint64_UnmarshalText_value 16 64 "1F" 31); [lia|reflexivity|].
  split; [discriminate|]. split; [reflexivity|lia].
Defined.

Lemma ArgBytes_UnmarshalText_hides_errors_witness :
  types.ArgBytes_UnmarshalText (fun _ => Err (ErrExternal "invalid hex string")) [x01] "0xzz"
  = ([x01], None)
  /\ types.ArgBig_UnmarshalText (fun _ => Err (ErrExternal "invalid hex string")) 7 "0xzz"
     = (7, Some (ErrExternal "invalid hex string")).
Proof.
  destruct (ArgBytes_UnmarshalText_hides_errors
              (fun _ => Err (ErrExternal "invalid hex string")) [x01] 7 "0xzz")
    as [_ Hhidden].
  exact (Hhidden (ErrExternal "invalid hex string") eq_refl).
Defined.

Lemma ArgBytes_round_trip_witness :
  types.ArgBytes_MarshalText hex_EncodeToString [x01; xab] = "0x01ab"%string
  /\ types.ArgBytes_UnmarshalText hexDecode [] "0x01ab" = ([x01; xab], None).
Proof.
  split; [reflexivity|].
  exact (ArgBytes_round_trip hex_EncodeToString hexDecode [] [x01; xab]
           hexDecode_hex_EncodeToString hex_EncodeToString_even).
Defined.

Lemma ToTransaction_gas_witness :
  exists sender tx,
    types.ToTransaction (fun _ _ => Ok 3) transferArgs 30000000 (fixtures.hashOf x02)
      (repeat x0a 20%nat)
    = Ok (sender, tx)
    /\ types.tx_Gas tx = 30000000.
Proof.
  destruct (types.ToTransaction (fun _ _ => Ok 3) transferArgs 30000000 (fixtures.hashOf x02)
              (repeat x0a 20%nat)) as [[sender tx]|err] eqn:Hrun;
    [|vm_compute in Hrun; discriminate Hrun].
  exists sender, tx. split; [reflexivity|].
  destruct (ToTransaction_gas (fun _ _ => Ok 3) transferArgs 30000000 (fixtures.hashOf x02)
              (repeat x0a 20%nat) sender tx Hrun) as (_ & _ & _ & Hout & _).
  apply (Hout 0); [reflexivity|lia].
Defined.

Lemma ToTransaction_nonce_from_state_witness :
  exists tx,
    types.ToTransaction (fun _ _ => Ok 3) transferArgs 30000000 (fixtures.hashOf x02)
      (repeat x0a 20%nat)
    = Ok (repeat x0b 20%nat, tx)
    /\ types.tx_Nonce tx = 3.
Proof.
  destruct (types.ToTransaction (fun _ _ => Ok 3) transferArgs 30000000 (fixtures.hashOf x02)
              (repeat x0a 20%nat)) as [[sender tx]|err] eqn:Hrun;
    [|vm_compute in Hrun; discriminate Hrun].
  destruct (ToTransaction_nonce_from_state (fun _ _ => Ok 3)
              (Some (repeat x0b 20%nat)) (Some (repeat x0c 20%nat)) (Some 0)
              None (Some [x01]) None None (Some 99) None
              30000000 (fixtures.hashOf x02) (repeat x0a 20%nat)) as [_ Hsender].
  specialize (Hsender sender tx Hrun). cbn in Hsender.
  destruct Hsender as [-> Hnonce]. exists tx. split; [reflexivity|].
  injection Hnonce as <-. reflexivity.
Defined.

Lemma ToTransaction_errors_witness :
  types.ToTransaction (fun _ _ => Ok 3) creationWithoutData 30000000 (fixtures.hashOf x02)
    (repeat x0a 20%nat)
  = Err (ErrExternal "contract creation without data provided").
Proof.
  apply ToTransaction_errors. right.
  split; [intros from err _ _; discriminate|]. repeat split; reflexivity.
Defined.
